(** * Todo API: the task routes, their SQL and the error handler

    A shallow embedding of [src/routes/todos.js] and
    [src/middleware/errorHandler.js].  Every route handler builds the text of
    one or two parameterised SQL statements and hands it, with the array of
    bound values, to [req.db.query].  The embedding keeps that shape: the
    handlers below build the same statement text and the same value arrays
    as the JavaScript, and the storage engine is modelled by a lexer, a
    parser and an evaluator for the SQL fragment the routes emit, run
    against a table of task rows.  The engine refuses what the column
    types of the schema, [CREATE TABLE tasks], refuse (an integer outside
    [int4] or [int8], a text with U+0000, a time stamp it cannot read);
    what the statements leave to the configuration of the server, reading
    a time stamp and folding case, is a parameter of the engine. *)

From Stdlib Require Import String Ascii List ZArith Lia Bool Arith DecimalString
  Permutation.
Import ListNotations.

Local Open Scope string_scope.
Local Open Scope list_scope.

(** ** Strings *)

Module Str.

(** JavaScript template concatenation. *)
Definition cat (a b : string) : string := String.append a b.

(** Decimal rendering of a counter, as [`${n}`] does. *)
Definition of_nat (n : nat) : string := NilEmpty.string_of_uint (Nat.to_uint n).

Definition lower_char (c : ascii) : ascii :=
  let n := nat_of_ascii c in
  if (65 <=? n)%nat && (n <=? 90)%nat then ascii_of_nat (n + 32) else c.

Fixpoint lower (s : string) : string :=
  match s with
  | EmptyString => EmptyString
  | String c s' => String (lower_char c) (lower s')
  end.

(** [s] starts with [p]. *)
Fixpoint starts_with (p s : string) : bool :=
  match p, s with
  | EmptyString, _ => true
  | String a p', String b s' => Ascii.eqb a b && starts_with p' s'
  | String _ _, EmptyString => false
  end.

(** [p] occurs somewhere in [s] ([s.includes(p)]). *)
Fixpoint includes (p s : string) : bool :=
  starts_with p s ||
  match s with
  | EmptyString => false
  | String _ s' => includes p s'
  end.

(** The white space of the JavaScript [\s] class that fits in one byte. *)
Definition is_space (c : ascii) : bool :=
  let n := nat_of_ascii c in
  ((9 <=? n)%nat && (n <=? 13)%nat) || (n =? 32)%nat || (n =? 160)%nat.

Fixpoint ltrim (s : string) : string :=
  match s with
  | EmptyString => EmptyString
  | String c s' => if is_space c then ltrim s' else s
  end.

Fixpoint rtrim (s : string) : string :=
  match s with
  | EmptyString => EmptyString
  | String c s' =>
      match rtrim s' with
      | EmptyString => if is_space c then EmptyString else String c EmptyString
      | r => String c r
      end
  end.

Definition trim (s : string) : string := rtrim (ltrim s).

Fixpoint repeat (c : ascii) (n : nat) : string :=
  match n with
  | O => EmptyString
  | S n' => String c (repeat c n')
  end.

Definition mem (s : string) (l : list string) : bool :=
  existsb (String.eqb s) l.

(** [f] applied to every character. *)
Fixpoint map (f : ascii -> ascii) (s : string) : string :=
  match s with
  | EmptyString => EmptyString
  | String c s' => String (f c) (map f s')
  end.

(** No character of [s] is U+0000. *)
Fixpoint nul_free (s : string) : bool :=
  match s with
  | EmptyString => true
  | String c s' => negb (Ascii.eqb c zero) && nul_free s'
  end.

End Str.

Infix "^^" := Str.cat (at level 60, right associativity).

(** ** The SQL fragment the routes emit *)

Module Sql.

Inductive column :=
| Cid | Ctitle | Cdescription | Cpriority | Cdue_date | Ccompleted
| Ccreated_at | Cupdated_at.

(** One conjunct of a WHERE clause; [n] is the number of a [$n]
    placeholder. *)
Inductive cond :=
| CTrue
| CEq (c : column) (n : nat)
| CILike (c : column) (n : nat)
| COr (a b : cond).

Inductive expr :=
| EParam (n : nat)
| ENow.

Inductive projection := Star | CountStar.

Inductive stmt :=
| Select (proj : projection) (where_ : list cond) (page : option (nat * nat))
| Insert (cols : list column) (vals : list nat)
| Update (sets : list (column * expr)) (where_ : list cond)
| Delete (where_ : list cond).

(** *** Lexer: words separated by blanks; parentheses and commas stand
    alone. *)

Definition is_blank (c : ascii) : bool :=
  Ascii.eqb c " " || (nat_of_ascii c =? 10)%nat.

Definition is_punct (c : ascii) : bool :=
  Ascii.eqb c "(" || Ascii.eqb c ")" || Ascii.eqb c ",".

Definition flush (cur : string) : list string :=
  match cur with
  | EmptyString => []
  | _ => [cur]
  end.

Fixpoint lex (cur : string) (s : string) : list string :=
  match s with
  | EmptyString => flush cur
  | String c s' =>
      if is_blank c then flush cur ++ lex EmptyString s'
      else if is_punct c then flush cur ++ String c EmptyString :: lex EmptyString s'
      else lex (cur ^^ String c EmptyString) s'
  end.

(** *** Parser *)

Definition column_of (t : string) : option column :=
  if t =? "id" then Some Cid
  else if t =? "title" then Some Ctitle
  else if t =? "description" then Some Cdescription
  else if t =? "priority" then Some Cpriority
  else if t =? "due_date" then Some Cdue_date
  else if t =? "completed" then Some Ccompleted
  else if t =? "created_at" then Some Ccreated_at
  else if t =? "updated_at" then Some Cupdated_at
  else None.

Definition param_of (t : string) : option nat :=
  match t with
  | String "$" ds =>
      match ds, NilEmpty.uint_of_string ds with
      | String _ _, Some u =>
          match Nat.of_uint u with
          | O => None
          | S n => Some (S n)
          end
      | _, _ => None
      end
  | _ => None
  end.

Fixpoint expect (kw ts : list string) : option (list string) :=
  match kw, ts with
  | [], _ => Some ts
  | k :: kw', t :: ts' => if k =? t then expect kw' ts' else None
  | _ :: _, [] => None
  end.

Definition parse_atom (ts : list string) : option (cond * list string) :=
  match ts with
  | c :: op :: p :: rest =>
      match column_of c, param_of p with
      | Some col, Some n =>
          if op =? "=" then Some (CEq col n, rest)
          else if op =? "ILIKE" then Some (CILike col n, rest)
          else None
      | _, _ => None
      end
  | _ => None
  end.

Definition parse_term (ts : list string) : option (cond * list string) :=
  match ts with
  | t :: rest =>
      if t =? "1=1" then Some (CTrue, rest)
      else if t =? "(" then
        match parse_atom rest with
        | Some (a, r1) =>
            match expect ["OR"] r1 with
            | Some r2 =>
                match parse_atom r2 with
                | Some (b, r3) =>
                    match expect [")"] r3 with
                    | Some r4 => Some (COr a b, r4)
                    | None => None
                    end
                | None => None
                end
            | None => None
            end
        | None => None
        end
      else parse_atom ts
  | [] => None
  end.

(** [term (AND term)*]; the fuel bounds the number of conjuncts. *)
Fixpoint parse_conj (fuel : nat) (ts : list string)
  : option (list cond * list string) :=
  match fuel with
  | O => None
  | S fuel' =>
      match parse_term ts with
      | Some (c, rest) =>
          match rest with
          | t :: rest' =>
              if t =? "AND" then
                match parse_conj fuel' rest' with
                | Some (cs, r) => Some (c :: cs, r)
                | None => None
                end
              else Some ([c], rest)
          | [] => Some ([c], [])
          end
      | None => None
      end
  end.

Definition parse_where (ts : list string) : option (list cond * list string) :=
  parse_conj (S (List.length ts)) ts.

(** [col, col, ... )] *)
Fixpoint parse_cols (ts : list string) : option (list column * list string) :=
  match ts with
  | c :: sep :: rest =>
      match column_of c with
      | Some col =>
          if sep =? ")" then Some ([col], rest)
          else if sep =? "," then
            match parse_cols rest with
            | Some (cs, r) => Some (col :: cs, r)
            | None => None
            end
          else None
      | None => None
      end
  | _ => None
  end.

(** [$a, $b, ... )] *)
Fixpoint parse_params (ts : list string) : option (list nat * list string) :=
  match ts with
  | p :: sep :: rest =>
      match param_of p with
      | Some n =>
          if sep =? ")" then Some ([n], rest)
          else if sep =? "," then
            match parse_params rest with
            | Some (ns, r) => Some (n :: ns, r)
            | None => None
            end
          else None
      | None => None
      end
  | _ => None
  end.

Definition parse_expr (ts : list string) : option (expr * list string) :=
  match ts with
  | t :: rest =>
      if t =? "NOW" then
        match expect ["("; ")"] rest with
        | Some r => Some (ENow, r)
        | None => None
        end
      else
        match param_of t with
        | Some n => Some (EParam n, rest)
        | None => None
        end
  | [] => None
  end.

(** [col = expr (, col = expr)*] *)
Fixpoint parse_sets (fuel : nat) (ts : list string)
  : option (list (column * expr) * list string) :=
  match fuel with
  | O => None
  | S fuel' =>
      match ts with
      | c :: eq :: rest =>
          match column_of c, eq =? "=", parse_expr rest with
          | Some col, true, Some (e, r) =>
              match r with
              | t :: r' =>
                  if t =? "," then
                    match parse_sets fuel' r' with
                    | Some (ss, r'') => Some ((col, e) :: ss, r'')
                    | None => None
                    end
                  else Some ([(col, e)], r)
              | [] => Some ([(col, e)], [])
              end
          | _, _, _ => None
          end
      | _ => None
      end
  end.

Definition parse_page (ts : list string) : option (option (nat * nat)) :=
  match ts with
  | [] => Some None
  | _ =>
      match expect ["ORDER"; "BY"; "created_at"; "DESC"; "LIMIT"] ts with
      | Some (l :: r) =>
          match param_of l, expect ["OFFSET"] r with
          | Some nl, Some [o] =>
              match param_of o with
              | Some no => Some (Some (nl, no))
              | None => None
              end
          | _, _ => None
          end
      | _ => None
      end
  end.

Definition returning_star (ts : list string) : bool :=
  match expect ["RETURNING"; "*"] ts with
  | Some [] => true
  | _ => false
  end.

Definition parse_tokens (ts : list string) : option stmt :=
  match expect ["SELECT"; "*"; "FROM"; "tasks"; "WHERE"] ts with
  | Some r =>
      match parse_where r with
      | Some (w, r') =>
          match parse_page r' with
          | Some pg => Some (Select Star w pg)
          | None => None
          end
      | None => None
      end
  | None =>
  match expect ["SELECT"; "COUNT"; "("; "*"; ")"; "FROM"; "tasks"; "WHERE"] ts with
  | Some r =>
      match parse_where r with
      | Some (w, []) => Some (Select CountStar w None)
      | _ => None
      end
  | None =>
  match expect ["INSERT"; "INTO"; "tasks"; "("] ts with
  | Some r =>
      match parse_cols r with
      | Some (cs, r1) =>
          match expect ["VALUES"; "("] r1 with
          | Some r2 =>
              match parse_params r2 with
              | Some (ns, r3) =>
                  if returning_star r3 then Some (Insert cs ns) else None
              | None => None
              end
          | None => None
          end
      | None => None
      end
  | None =>
  match expect ["UPDATE"; "tasks"; "SET"] ts with
  | Some r =>
      match parse_sets (S (List.length r)) r with
      | Some (ss, r1) =>
          match expect ["WHERE"] r1 with
          | Some r2 =>
              match parse_where r2 with
              | Some (w, r3) =>
                  if returning_star r3 then Some (Update ss w) else None
              | None => None
              end
          | None => None
          end
      | None => None
      end
  | None =>
  match expect ["DELETE"; "FROM"; "tasks"; "WHERE"] ts with
  | Some r =>
      match parse_where r with
      | Some (w, r1) =>
          if returning_star r1 then Some (Delete w) else None
      | None => None
      end
  | None => None
  end end end end end.

Definition parse (text : string) : option stmt :=
  parse_tokens (lex EmptyString text).

End Sql.

(** ** The storage engine: one table of tasks *)

Module Db.
Import Sql.

(** A value: NULL, a boolean, an integer or a text, as the driver sends
    them, or an instant, which only the server produces ([NOW()], a time
    stamp read from a text, the content of a time stamp column). *)
Inductive value :=
| VNull
| VBool (b : bool)
| VInt (z : Z)
| VStr (s : string)
| VTime (t : Z).

(** A row of [tasks].  The three time stamps are instants on an integer
    clock.  [priority], [completed], [created_at] and [updated_at] carry
    a default in the schema and are never NULL in a table filled through
    the routes, so the row stores them directly. *)
Record task := mkTask {
  id : Z;
  title : string;
  description : option string;
  priority : string;
  due_date : option Z;
  completed : bool;
  created_at : Z;
  updated_at : Z
}.

(** The table and the serial counter behind [id]. *)
Record state := mkState {
  rows : list task;
  next_id : Z
}.

(** SQLSTATE codes the engine raises. *)
Definition syntax_error := "42601".
Definition protocol_violation := "08P01".
Definition invalid_text_representation := "22P02".
Definition string_data_right_truncation := "22001".
Definition not_null_violation := "23502".
Definition check_violation := "23514".
Definition invalid_limit := "2201W".
Definition invalid_offset := "2201X".
Definition undefined_function := "42883".
Definition feature_not_supported := "0A000".
Definition numeric_value_out_of_range := "22003".
Definition character_not_in_repertoire := "22021".
Definition invalid_datetime_format := "22007".
Definition datetime_field_overflow := "22008".

Inductive outcome (A : Type) :=
| Ok (a : A)
| Err (code : string).
Arguments Ok {A} a.
Arguments Err {A} code.

Definition bind {A B} (m : outcome A) (f : A -> outcome B) : outcome B :=
  match m with
  | Ok a => f a
  | Err c => Err c
  end.

Inductive result :=
| Rows (rs : list task)
| Count (n : Z).

(** What the statements do not fix and the server settles by its
    configuration: how [timestamptz] input reads a text (DateStyle and
    TimeZone decide; it raises 22007 or 22008 for a text it cannot read)
    and how the collation of the database folds a character to lower
    case. *)
Record server := mkServer {
  timestamptz_in : string -> outcome Z;
  lower_char : ascii -> ascii
}.

(** *** LIKE patterns: [%] any run, [_] any one character, backslash
    escapes the next character.  A pattern that ends in a lone backslash
    matches nothing here (the engine raises an error when matching reaches
    it); the patterns of the list route end in [%] and never do. *)

Fixpoint like (p : string) (t : string) {struct p} : bool :=
  match p with
  | EmptyString =>
      match t with EmptyString => true | _ => false end
  | String c p' =>
      if Ascii.eqb c "%" then
        (fix star (t : string) : bool :=
           like p' t ||
           match t with
           | EmptyString => false
           | String _ t' => star t'
           end) t
      else if Ascii.eqb c "_" then
        match t with
        | EmptyString => false
        | String _ t' => like p' t'
        end
      else if Ascii.eqb c "\" then
        match p' with
        | EmptyString => false
        | String e p'' =>
            match t with
            | EmptyString => false
            | String d t' => Ascii.eqb e d && like p'' t'
            end
        end
      else
        match t with
        | EmptyString => false
        | String d t' => Ascii.eqb c d && like p' t'
        end
  end.

Section Engine.
Variable srv : server.

Definition lower (s : string) : string := Str.map (lower_char srv) s.

(** [t ILIKE p]: both sides folded to lower case by the collation. *)
Definition ilike (t p : string) : bool := like (lower p) (lower t).

(** *** Column types and coercion of bound values *)

(** [int4] is the type of [id SERIAL], [int8] the type LIMIT and OFFSET
    take. *)
Inductive ty := TInt4 | TInt8 | TText | TBool | TTimestamptz.

Definition col_ty (c : column) : ty :=
  match c with
  | Cid => TInt4
  | Ctitle | Cdescription | Cpriority => TText
  | Cdue_date | Ccreated_at | Cupdated_at => TTimestamptz
  | Ccompleted => TBool
  end.

Definition int4_min : Z := -2147483648.
Definition int4_max : Z := 2147483647.
Definition int8_min : Z := -9223372036854775808.
Definition int8_max : Z := 9223372036854775807.

Definition in_range (lo hi z : Z) : outcome Z :=
  if ((lo <=? z) && (z <=? hi))%Z then Ok z
  else Err numeric_value_out_of_range.

(** A text reaches the server in its encoding, which has no U+0000. *)
Definition text_in (s : string) : outcome string :=
  if Str.nul_free s then Ok s else Err character_not_in_repertoire.

Definition bool_text (b : bool) : string := if b then "true" else "false".

Definition Z_to_string (z : Z) : string := NilEmpty.string_of_int (Z.to_int z).

Definition bool_of_text (s : string) : option bool :=
  let l := Str.lower s in
  if Str.mem l ["true"; "t"; "yes"; "on"; "1"] then Some true
  else if Str.mem l ["false"; "f"; "no"; "off"; "0"] then Some false
  else None.

(** The value a placeholder or an assignment of type [t] takes; [VNull]
    stays NULL.  An integer outside the range of the type is refused,
    and so is a text with U+0000; a time stamp is an instant already
    ([NOW()]) or a text for the server to read. *)
Definition coerce (t : ty) (v : value) : outcome value :=
  match t, v with
  | _, VNull => Ok VNull
  | TTimestamptz, VTime i => Ok (VTime i)
  | _, VTime _ => Err feature_not_supported
  | TInt4, VInt z => bind (in_range int4_min int4_max z) (fun z => Ok (VInt z))
  | TInt8, VInt z => bind (in_range int8_min int8_max z) (fun z => Ok (VInt z))
  | TInt4, _ => Err invalid_text_representation
  | TInt8, _ => Err invalid_text_representation
  | TText, VStr s => bind (text_in s) (fun s => Ok (VStr s))
  | TText, VBool b => Ok (VStr (bool_text b))
  | TText, VInt z => Ok (VStr (Z_to_string z))
  | TBool, VBool b => Ok (VBool b)
  | TBool, VStr s =>
      bind (text_in s) (fun s =>
      match bool_of_text s with
      | Some b => Ok (VBool b)
      | None => Err invalid_text_representation
      end)
  | TBool, VInt _ => Err invalid_text_representation
  | TTimestamptz, VStr s =>
      bind (text_in s) (fun s =>
      bind (timestamptz_in srv s) (fun i => Ok (VTime i)))
  | TTimestamptz, VBool b =>
      bind (timestamptz_in srv (bool_text b)) (fun i => Ok (VTime i))
  | TTimestamptz, VInt z =>
      bind (timestamptz_in srv (Z_to_string z)) (fun i => Ok (VTime i))
  end.

(** The column's type takes the bound value. *)
Definition takes (c : column) (v : value) : bool :=
  match coerce (col_ty c) v with
  | Ok _ => true
  | Err _ => false
  end.

Definition param (ps : list value) (n : nat) : outcome value :=
  match n with
  | O => Err protocol_violation
  | S k =>
      match nth_error ps k with
      | Some v => Ok v
      | None => Err protocol_violation
      end
  end.

Definition cell (r : task) (c : column) : value :=
  match c with
  | Cid => VInt (id r)
  | Ctitle => VStr (title r)
  | Cdescription =>
      match description r with Some s => VStr s | None => VNull end
  | Cpriority => VStr (priority r)
  | Cdue_date =>
      match due_date r with Some t => VTime t | None => VNull end
  | Ccompleted => VBool (completed r)
  | Ccreated_at => VTime (created_at r)
  | Cupdated_at => VTime (updated_at r)
  end.

Definition value_eqb (a b : value) : bool :=
  match a, b with
  | VBool x, VBool y => Bool.eqb x y
  | VInt x, VInt y => Z.eqb x y
  | VStr x, VStr y => String.eqb x y
  | VTime x, VTime y => Z.eqb x y
  | _, _ => false
  end.

(** *** WHERE clauses with their placeholders bound *)

Inductive bcond :=
| BTrue
| BEq (c : column) (v : value)
| BILike (c : column) (p : value)
| BOr (a b : bcond).

Fixpoint bind_cond (ps : list value) (c : cond) : outcome bcond :=
  match c with
  | CTrue => Ok BTrue
  | CEq col n =>
      bind (param ps n) (fun v =>
      bind (coerce (col_ty col) v) (fun v' => Ok (BEq col v')))
  | CILike col n =>
      match col_ty col with
      | TText =>
          bind (param ps n) (fun v =>
          bind (coerce TText v) (fun v' => Ok (BILike col v')))
      | _ => Err undefined_function
      end
  | COr a b =>
      bind (bind_cond ps a) (fun a' =>
      bind (bind_cond ps b) (fun b' => Ok (BOr a' b')))
  end.

Fixpoint bind_where (ps : list value) (w : list cond) : outcome (list bcond) :=
  match w with
  | [] => Ok []
  | c :: w' =>
      bind (bind_cond ps c) (fun c' =>
      bind (bind_where ps w') (fun w'' => Ok (c' :: w'')))
  end.

(** Three-valued OR; [None] is SQL's unknown. *)
Definition or3 (a b : option bool) : option bool :=
  match a, b with
  | Some true, _ => Some true
  | _, Some true => Some true
  | Some false, Some false => Some false
  | _, _ => None
  end.

Fixpoint holds (b : bcond) (r : task) : option bool :=
  match b with
  | BTrue => Some true
  | BEq c v =>
      match cell r c, v with
      | VNull, _ => None
      | _, VNull => None
      | x, y => Some (value_eqb x y)
      end
  | BILike c p =>
      match cell r c, p with
      | VStr t, VStr pat => Some (ilike t pat)
      | _, _ => None
      end
  | BOr x y => or3 (holds x r) (holds y r)
  end.

(** A row is selected when every conjunct is true (not unknown). *)
Definition selects (w : list bcond) (r : task) : bool :=
  forallb (fun b => match holds b r with Some true => true | _ => false end) w.

(** *** ORDER BY created_at DESC: an insertion sort.  The order of rows
    created at the same instant is the engine's to choose, and may differ
    from one statement to the next; the sort keeps them in the order of
    the table, which is one such choice, and the results below that rest
    on the order of a page ask for distinct creation times. *)

Fixpoint insert_desc (r : task) (l : list task) : list task :=
  match l with
  | [] => [r]
  | x :: l' =>
      if (created_at x <=? created_at r)%Z then r :: l
      else x :: insert_desc r l'
  end.

Fixpoint sort_desc (l : list task) : list task :=
  match l with
  | [] => []
  | r :: l' => insert_desc r (sort_desc l')
  end.

Definition int_param (ps : list value) (n : nat) : outcome (option Z) :=
  bind (param ps n) (fun v =>
  bind (coerce TInt8 v) (fun v' =>
  match v' with
  | VInt z => Ok (Some z)
  | _ => Ok None
  end)).

(** LIMIT NULL is LIMIT ALL, OFFSET NULL is OFFSET 0. *)
Definition paginate (lim off : option Z) (l : list task) : outcome (list task) :=
  match lim, off with
  | Some z, _ => if (z <? 0)%Z then Err invalid_limit else
      match off with
      | Some o => if (o <? 0)%Z then Err invalid_offset
                  else Ok (firstn (Z.to_nat z) (skipn (Z.to_nat o) l))
      | None => Ok (firstn (Z.to_nat z) l)
      end
  | None, Some o => if (o <? 0)%Z then Err invalid_offset
                    else Ok (skipn (Z.to_nat o) l)
  | None, None => Ok l
  end.

(** *** Assignment to a column, with the table's constraints *)

Definition set_col (c : column) (v : value) (r : task) : outcome task :=
  bind (coerce (col_ty c) v) (fun v' =>
  match c, v' with
  | Ctitle, VStr s =>
      if (String.length s <=? 255)%nat
      then Ok (mkTask (id r) s (description r) (priority r) (due_date r)
                      (completed r) (created_at r) (updated_at r))
      else Err string_data_right_truncation
  | Ctitle, _ => Err not_null_violation
  | Cdescription, VStr s =>
      Ok (mkTask (id r) (title r) (Some s) (priority r) (due_date r)
                 (completed r) (created_at r) (updated_at r))
  | Cdescription, _ =>
      Ok (mkTask (id r) (title r) None (priority r) (due_date r)
                 (completed r) (created_at r) (updated_at r))
  | Cpriority, VStr s =>
      if (String.length s <=? 20)%nat then
        if Str.mem s ["low"; "medium"; "high"]
        then Ok (mkTask (id r) (title r) (description r) s (due_date r)
                        (completed r) (created_at r) (updated_at r))
        else Err check_violation
      else Err string_data_right_truncation
  | Cdue_date, VTime t =>
      Ok (mkTask (id r) (title r) (description r) (priority r) (Some t)
                 (completed r) (created_at r) (updated_at r))
  | Cdue_date, _ =>
      Ok (mkTask (id r) (title r) (description r) (priority r) None
                 (completed r) (created_at r) (updated_at r))
  | Ccompleted, VBool b =>
      Ok (mkTask (id r) (title r) (description r) (priority r) (due_date r)
                 b (created_at r) (updated_at r))
  | Cupdated_at, VTime z =>
      Ok (mkTask (id r) (title r) (description r) (priority r) (due_date r)
                 (completed r) (created_at r) z)
  | _, _ => Err feature_not_supported
  end).

(** *** Statements *)

Fixpoint cond_params (c : cond) : list nat :=
  match c with
  | CTrue => []
  | CEq _ n => [n]
  | CILike _ n => [n]
  | COr a b => cond_params a ++ cond_params b
  end.

Definition expr_params (e : expr) : list nat :=
  match e with
  | EParam n => [n]
  | ENow => []
  end.

(** The placeholders of a statement, in the order they occur in its
    text. *)
Definition stmt_params (s : stmt) : list nat :=
  match s with
  | Select _ w pg =>
      flat_map cond_params w ++
      match pg with Some (l, o) => [l; o] | None => [] end
  | Insert _ vals => vals
  | Update sets w =>
      flat_map (fun ce => expr_params (snd ce)) sets ++ flat_map cond_params w
  | Delete w => flat_map cond_params w
  end.

(** The number of values a statement expects: its highest placeholder. *)
Definition arity (s : stmt) : nat := list_max (stmt_params s).

Definition eval_expr (now : Z) (ps : list value) (e : expr) : outcome value :=
  match e with
  | EParam n => param ps n
  | ENow => Ok (VTime now)
  end.

Fixpoint apply_sets (now : Z) (ps : list value) (sets : list (column * expr))
         (r : task) : outcome task :=
  match sets with
  | [] => Ok r
  | (c, e) :: sets' =>
      bind (eval_expr now ps e) (fun v =>
      bind (set_col c v r) (fun r' => apply_sets now ps sets' r'))
  end.

(** The BEFORE UPDATE trigger of the schema. *)
Definition update_updated_at_column (now : Z) (r : task) : task :=
  mkTask (id r) (title r) (description r) (priority r) (due_date r)
         (completed r) (created_at r) now.

(** UPDATE: the new table and the rows RETURNING yields. *)
Fixpoint update_rows (now : Z) (ps : list value) (sets : list (column * expr))
         (w : list bcond) (l : list task) : outcome (list task * list task) :=
  match l with
  | [] => Ok ([], [])
  | r :: l' =>
      bind (update_rows now ps sets w l') (fun '(tbl, ret) =>
      if selects w r then
        bind (apply_sets now ps sets r) (fun r' =>
        let r'' := update_updated_at_column now r' in
        Ok (r'' :: tbl, r'' :: ret))
      else Ok (r :: tbl, ret))
  end.

Fixpoint insert_cols (ps : list value) (cols : list column) (vals : list nat)
         (r : task) : outcome task :=
  match cols, vals with
  | [], [] => Ok r
  | c :: cols', n :: vals' =>
      bind (param ps n) (fun v =>
      bind (set_col c v r) (fun r' => insert_cols ps cols' vals' r'))
  | _, _ => Err syntax_error
  end.

Definition column_eqb (a b : column) : bool :=
  match a, b with
  | Cid, Cid | Ctitle, Ctitle | Cdescription, Cdescription
  | Cpriority, Cpriority | Cdue_date, Cdue_date | Ccompleted, Ccompleted
  | Ccreated_at, Ccreated_at | Cupdated_at, Cupdated_at => true
  | _, _ => false
  end.

Definition run (now : Z) (st : state) (s : stmt) (ps : list value)
  : outcome (state * result) :=
  if negb (List.length ps =? arity s)%nat then Err protocol_violation else
  match s with
  | Select proj w pg =>
      bind (bind_where ps w) (fun bw =>
      let hit := filter (selects bw) (rows st) in
      match proj, pg with
      | CountStar, None => Ok (st, Count (Z.of_nat (List.length hit)))
      | CountStar, Some _ => Err syntax_error
      | Star, None => Ok (st, Rows hit)
      | Star, Some (l, o) =>
          bind (int_param ps l) (fun lim =>
          bind (int_param ps o) (fun off =>
          bind (paginate lim off (sort_desc hit)) (fun page =>
          Ok (st, Rows page))))
      end)
  | Insert cols vals =>
      (* id, created_at and updated_at take their defaults; so do the
         columns the statement leaves out; title has none *)
      let fresh := mkTask (next_id st) "" None "medium" None false now now in
      bind (insert_cols ps cols vals fresh) (fun r =>
      if existsb (column_eqb Ctitle) cols
      then Ok (mkState (rows st ++ [r]) (next_id st + 1), Rows [r])
      else Err not_null_violation)
  | Update sets w =>
      bind (bind_where ps w) (fun bw =>
      bind (update_rows now ps sets bw (rows st)) (fun '(tbl, ret) =>
      Ok (mkState tbl (next_id st), Rows ret)))
  | Delete w =>
      bind (bind_where ps w) (fun bw =>
      Ok (mkState (filter (fun r => negb (selects bw r)) (rows st)) (next_id st),
          Rows (filter (selects bw) (rows st))))
  end.

(** [pool.query(text, values)] at clock reading [now]. *)
Definition query (now : Z) (st : state) (text : string) (ps : list value)
  : outcome (state * result) :=
  match parse text with
  | Some s => run now st s ps
  | None => Err syntax_error
  end.

End Engine.

End Db.

(** ** JavaScript values of a request *)

Module Js.

(** What a field of a parsed JSON body can hold here: absent, [null], a
    boolean or a string.  Numbers, arrays and nested objects are outside
    the embedding. *)
Inductive value :=
| Undefined
| Null
| Bool (b : bool)
| Str (s : string).

Definition truthy (v : value) : bool :=
  match v with
  | Undefined | Null => false
  | Bool b => b
  | Str s => negb (s =? "")
  end.

(** [a || b] *)
Definition or (a b : value) : value := if truthy a then a else b.

(** [v !== undefined] *)
Definition defined (v : value) : bool :=
  match v with
  | Undefined => false
  | _ => true
  end.

(** A query-string parameter is a string or absent; [if (p)] holds for a
    non-empty string. *)
Definition truthy_param (p : option string) : bool :=
  match p with
  | Some s => negb (s =? "")
  | None => false
  end.

(** How the driver binds a JavaScript value: [undefined] and [null]
    become NULL. *)
Definition to_db (v : value) : Db.value :=
  match v with
  | Undefined | Null => Db.VNull
  | Bool b => Db.VBool b
  | Str s => Db.VStr s
  end.

(** [Math.ceil(a / b)] on integers; [None] is the non-finite result of a
    division by zero, which [res.json] writes as [null]. *)
Definition ceil_div (a b : Z) : option Z :=
  if (b =? 0)%Z then None else Some (- ((- a) / b))%Z.

End Js.

(** ** The two validation layers of the routes *)

Module Validation.
Import Js.

(** [req.body] by the five keys the schemas know; an absent key is
    [Undefined].  A body with any other key is outside the embedding (the
    Joi schemas refuse it). *)
Record body := mkBody {
  b_title : value;
  b_description : value;
  b_priority : value;
  b_dueDate : value;
  b_completed : value
}.

(** An entry of the [details] array of a 400 response: the message of an
    express-validator chain, or a Joi error given by its key and type. *)
Inductive detail :=
| Msg (m : string)
| Joi (key : string) (type : string).

(** *** express-validator *)

(** The string a standard validator or sanitizer sees. *)
Definition toString (v : value) : string :=
  match v with
  | Undefined | Null => ""
  | Bool b => if b then "true" else "false"
  | Str s => s
  end.

Definition isLength (s : string) (min : nat) (max : nat) : bool :=
  (min <=? String.length s)%nat && (String.length s <=? max)%nat.

Definition isIn (s : string) (l : list string) : bool := Str.mem s l.

Definition isBoolean (s : string) : bool := Str.mem s ["true"; "false"; "1"; "0"].

(** [param('id').isInt({ min: 1 })]; the path parameter is taken as the
    integer it denotes. *)
Definition isInt_min1 (id : Z) : bool := (1 <=? id)%Z.

Definition check (ok : bool) (m : string) : list detail :=
  if ok then [] else [Msg m].

(** [.optional()]: the chain is skipped when the field is undefined. *)
Definition optional (v : value) (errs : list detail) : list detail :=
  match v with
  | Undefined => []
  | _ => errs
  end.

Section Chains.
(** validator.js's [isISO8601], left open. *)
Variable isISO8601 : string -> bool.

Definition common_chains (b : body) : list detail :=
  optional (b_description b)
    (check (isLength (toString (b_description b)) 0 1000)
           "Description must be less than 1000 characters") ++
  optional (b_priority b)
    (check (isIn (toString (b_priority b)) ["low"; "medium"; "high"])
           "Priority must be low, medium, or high") ++
  optional (b_dueDate b)
    (check (isISO8601 (toString (b_dueDate b)))
           "Due date must be a valid ISO 8601 date") ++
  optional (b_completed b)
    (check (isBoolean (toString (b_completed b)))
           "Completed must be a boolean").

(** The chains of POST /tasks.  [.trim()] writes the trimmed title
    back into the body. *)
Definition post_chains (b : body) : body * list detail :=
  let title := Str.trim (toString (b_title b)) in
  let b' := mkBody (Str title) (b_description b) (b_priority b)
                   (b_dueDate b) (b_completed b) in
  (b', check (isLength title 1 255)
             "Title is required and must be between 1-255 characters"
       ++ common_chains b).

(** The body chains of PUT /tasks/:id; here the title is optional. *)
Definition put_chains (b : body) : body * list detail :=
  match b_title b with
  | Undefined => (b, common_chains b)
  | t =>
      let title := Str.trim (toString t) in
      let b' := mkBody (Str title) (b_description b) (b_priority b)
                       (b_dueDate b) (b_completed b) in
      (b', check (isLength title 1 255)
                 "Title must be between 1-255 characters"
           ++ common_chains b)
  end.
End Chains.

Definition id_chain (id : Z) : list detail :=
  check (isInt_min1 id) "Task ID must be a positive integer".

(** *** Joi *)

(** [Joi.string().min(lo).max(hi)]: a string schema refuses the empty
    string and every value that is not a string. *)
Definition joi_string (key : string) (lo hi : nat) (v : value) : list detail :=
  match v with
  | Str s =>
      if s =? "" then [Joi key "string.empty"]
      else if (String.length s <? lo)%nat then [Joi key "string.min"]
      else if (hi <? String.length s)%nat then [Joi key "string.max"]
      else []
  | _ => [Joi key "string.base"]
  end.

Definition joi_required (key : string) (v : value) (rest : list detail) : list detail :=
  match v with
  | Undefined => [Joi key "any.required"]
  | _ => rest
  end.

(** [.optional()] and [.default(..)]: an absent key passes. *)
Definition joi_optional (v : value) (rest : list detail) : list detail :=
  match v with
  | Undefined => []
  | _ => rest
  end.

Definition joi_valid (key : string) (allowed : list string) (v : value) : list detail :=
  match v with
  | Str s => if Str.mem s allowed then [] else [Joi key "any.only"]
  | _ => [Joi key "any.only"]
  end.

Definition joi_boolean (key : string) (v : value) : list detail :=
  match v with
  | Bool _ => []
  | Str s => if Str.mem (Str.lower s) ["true"; "false"] then []
             else [Joi key "boolean.base"]
  | _ => [Joi key "boolean.base"]
  end.

Section Schemas.
(** Joi's ISO 8601 date test, left open. *)
Variable isIsoDate : string -> bool.

Definition joi_date_iso (key : string) (v : value) : list detail :=
  match v with
  | Str s => if isIsoDate s then [] else [Joi key "date.format"]
  | _ => [Joi key "date.base"]
  end.

(** Validation stops at the first key in error. *)
Fixpoint first_error (l : list (list detail)) : list detail :=
  match l with
  | [] => []
  | [] :: l' => first_error l'
  | e :: _ => e
  end.

Definition createTaskSchema (b : body) : list detail :=
  first_error
    [ joi_required "title" (b_title b) (joi_string "title" 1 255 (b_title b));
      joi_optional (b_description b) (joi_string "description" 0 1000 (b_description b));
      joi_optional (b_priority b) (joi_valid "priority" ["low"; "medium"; "high"] (b_priority b));
      joi_optional (b_dueDate b) (joi_date_iso "dueDate" (b_dueDate b));
      joi_optional (b_completed b) (joi_boolean "completed" (b_completed b)) ].

Definition updateTaskSchema (b : body) : list detail :=
  first_error
    [ joi_optional (b_title b) (joi_string "title" 1 255 (b_title b));
      joi_optional (b_description b) (joi_string "description" 0 1000 (b_description b));
      joi_optional (b_priority b) (joi_valid "priority" ["low"; "medium"; "high"] (b_priority b));
      joi_optional (b_dueDate b) (joi_date_iso "dueDate" (b_dueDate b));
      joi_optional (b_completed b) (joi_boolean "completed" (b_completed b)) ].
End Schemas.

End Validation.

(** ** Responses and thrown errors *)

Module Http.

Record pagination := mkPagination {
  page : Z;
  limit : Z;
  total : Z;
  pages : option Z
}.

(** A JavaScript error object, by the properties the handler reads. *)
Record error := mkError {
  name : string;
  code : option string;
  statusCode : option Z;
  message : string;
  details : option string;
  stack : string
}.

Record error_response := mkErrorResponse {
  er_error : string;
  er_statusCode : Z;
  er_path : string;
  er_method : string;
  er_details : option string;
  er_stack : option string
}.

Inductive json :=
| JTasks (tasks : list Db.task) (p : pagination)
| JTask (task : option Db.task)
| JError (error : string) (details : list Validation.detail)
| JFailure (e : error_response)
| JEmpty.

Record response := mkResponse {
  status : Z;
  content : json
}.

(** What a route does with a request: answer, or pass an error on. *)
Inductive reply :=
| Send (r : response)
| Next (e : error).

(** The error the driver throws for a failed statement. *)
Definition database_error (sqlstate : string) : error :=
  mkError "error" (Some sqlstate) None "database error" None "".

End Http.

(** ** middleware/errorHandler.js *)

Module ErrorHandler.
Import Http.

Definition code_is (err : error) (c : string) : bool :=
  match code err with
  | Some c' => c' =? c
  | None => false
  end.

Definition nonzero (z : option Z) : option Z :=
  match z with
  | Some n => if (n =? 0)%Z then None else Some n
  | None => None
  end.

Definition nonempty (s : option string) : option string :=
  match s with
  | Some t => if t =? "" then None else Some t
  | None => None
  end.

(** [node_env] is [process.env.NODE_ENV]. *)
Definition errorHandler (node_env : option string) (err : error)
           (path method : string) : response :=
  (* Default error response *)
  let statusCode := 500%Z in
  let message := "Internal Server Error" in
  let details : option string := None in
  (* Handle specific error types *)
  let '(statusCode, message, details) :=
    if name err =? "ValidationError" then
      (400%Z, "Validation Error",
       match nonempty (Http.details err) with
       | Some d => Some d
       | None => Some (Http.message err)
       end)
    else if name err =? "CastError" then
      (400%Z, "Invalid ID format", details)
    else if code_is err "23505" then
      (409%Z, "Resource already exists", details)
    else if code_is err "23503" then
      (400%Z, "Referenced resource does not exist", details)
    else if code_is err "23502" then
      (400%Z, "Required field is missing", details)
    else if code_is err "42P01" then
      (500%Z, "Database table not found", details)
    else if code_is err "ECONNREFUSED" then
      (503%Z, "Database connection failed", details)
    else
      match nonzero (Http.statusCode err) with
      | Some sc => (sc, Http.message err, details)
      | None => (statusCode, message, details)
      end in
  (* Don't expose internal errors in production *)
  let '(message, details) :=
    if match node_env with Some e => e =? "production" | None => false end
       && (statusCode =? 500)%Z
    then ("Internal Server Error", None)
    else (message, details) in
  let errorResponse :=
    mkErrorResponse message statusCode path method
      (* if (details) *)
      (nonempty details)
      (* Include stack trace in development *)
      (if match node_env with Some e => e =? "development" | None => false end
       then Some (stack err) else None) in
  mkResponse statusCode (JFailure errorResponse).

End ErrorHandler.

(** ** routes/todos.js *)

Module Todos.
Import Js Validation Http.

(** [req.query] of GET /tasks.  [page] and [limit] reach the handler as
    decimal numerals; the record carries the integers they denote.  On
    integers a JavaScript number holds exactly, which are those up to
    [Number.MAX_SAFE_INTEGER] in absolute value, [(page - 1) * limit] is
    integer arithmetic and [parseInt(.., 10)] the identity, and that is
    how [data_query] and [get_tasks] compute; beyond them the handler
    rounds, and a request with such a page, limit or offset is outside
    the embedding ([ListSpec.servable] names the requests inside). *)
Record list_query := mkListQuery {
  q_page : option Z;
  q_limit : option Z;
  q_priority : option string;
  q_completed : option string;
  q_search : option string
}.

Definition default (d : Z) (p : option Z) : Z :=
  match p with
  | Some z => z
  | None => d
  end.

(** The value pushed for a parameter the guard found present. *)
Definition pushed (p : option string) : string :=
  match p with
  | Some s => s
  | None => ""
  end.

Definition rows_of (r : Db.result) : list Db.task :=
  match r with
  | Db.Rows rs => rs
  | Db.Count _ => []
  end.

(** [parseInt(countResult.rows[0].count, 10)] *)
Definition count_of (r : Db.result) : Z :=
  match r with
  | Db.Count n => n
  | Db.Rows _ => 0
  end.

Definition validation_error (errors : list detail) : reply :=
  Send (mkResponse 400 (JError "Validation Error" errors)).

Definition not_found : reply :=
  Send (mkResponse 404 (JError "Task not found" [])).

(** *** GET /tasks *)

(** Lines 43-63: the data query and its values. *)
Definition data_query (q : list_query) : string * list Db.value :=
  let page := default 1 (q_page q) in
  let limit := default 10 (q_limit q) in
  let offset := ((page - 1) * limit)%Z in
  let query := "SELECT * FROM tasks WHERE 1=1" in
  let queryParams : list Db.value := [] in
  let paramCount := 0%nat in
  let '(query, queryParams, paramCount) :=
    if truthy_param (q_priority q) then
      (query ^^ " AND priority = $" ^^ Str.of_nat (paramCount + 1),
       queryParams ++ [Db.VStr (pushed (q_priority q))],
       (paramCount + 1)%nat)
    else (query, queryParams, paramCount) in
  let '(query, queryParams, paramCount) :=
    match q_completed q with
    | Some completed =>
        (query ^^ " AND completed = $" ^^ Str.of_nat (paramCount + 1),
         queryParams ++ [Db.VBool (completed =? "true")],
         (paramCount + 1)%nat)
    | None => (query, queryParams, paramCount)
    end in
  let '(query, queryParams, paramCount) :=
    if truthy_param (q_search q) then
      (query ^^ " AND (title ILIKE $" ^^ Str.of_nat (paramCount + 1)
             ^^ " OR description ILIKE $" ^^ Str.of_nat (paramCount + 2) ^^ ")",
       queryParams ++ [Db.VStr ("%" ^^ pushed (q_search q) ^^ "%");
                       Db.VStr ("%" ^^ pushed (q_search q) ^^ "%")],
       (paramCount + 2)%nat)
    else (query, queryParams, paramCount) in
  (query ^^ " ORDER BY created_at DESC LIMIT $" ^^ Str.of_nat (paramCount + 1)
         ^^ " OFFSET $" ^^ Str.of_nat (paramCount + 2),
   queryParams ++ [Db.VInt limit; Db.VInt offset]).

(** Lines 68-85: the count query and its values. *)
Definition count_query (q : list_query) : string * list Db.value :=
  let countQuery := "SELECT COUNT(*) FROM tasks WHERE 1=1" in
  let countParams : list Db.value := [] in
  let countParamCount := 0%nat in
  let '(countQuery, countParams, countParamCount) :=
    if truthy_param (q_priority q) then
      (countQuery ^^ " AND priority = $" ^^ Str.of_nat (countParamCount + 1),
       countParams ++ [Db.VStr (pushed (q_priority q))],
       (countParamCount + 1)%nat)
    else (countQuery, countParams, countParamCount) in
  let '(countQuery, countParams, countParamCount) :=
    match q_completed q with
    | Some completed =>
        (countQuery ^^ " AND completed = $" ^^ Str.of_nat (countParamCount + 1),
         countParams ++ [Db.VBool (completed =? "true")],
         (countParamCount + 1)%nat)
    | None => (countQuery, countParams, countParamCount)
    end in
  let '(countQuery, countParams, countParamCount) :=
    if truthy_param (q_search q) then
      (countQuery ^^ " AND (title ILIKE $" ^^ Str.of_nat (countParamCount + 1)
                  ^^ " OR description ILIKE $" ^^ Str.of_nat (countParamCount + 2) ^^ ")",
       countParams ++ [Db.VStr ("%" ^^ pushed (q_search q) ^^ "%");
                       Db.VStr ("%" ^^ pushed (q_search q) ^^ "%")],
       (countParamCount + 2)%nat)
    else (countQuery, countParams, countParamCount) in
  (countQuery, countParams).

Definition get_tasks (srv : Db.server) (now : Z) (st : Db.state) (q : list_query) : Db.state * reply :=
  let page := default 1 (q_page q) in
  let limit := default 10 (q_limit q) in
  let '(query, queryParams) := data_query q in
  match Db.query srv now st query queryParams with
  | Db.Err c => (st, Next (database_error c))
  | Db.Ok (st, result) =>
      (* Get total count for pagination *)
      let '(countQuery, countParams) := count_query q in
      match Db.query srv now st countQuery countParams with
      | Db.Err c => (st, Next (database_error c))
      | Db.Ok (st, countResult) =>
          let totalCount := count_of countResult in
          (st, Send (mkResponse 200
                 (JTasks (rows_of result)
                         (mkPagination page limit totalCount
                                       (ceil_div totalCount limit)))))
      end
  end.

(** *** GET /tasks/:id *)

Definition get_task (srv : Db.server) (now : Z) (st : Db.state) (id : Z) : Db.state * reply :=
  match id_chain id with
  | (_ :: _) as errors => (st, validation_error errors)
  | [] =>
      match Db.query srv now st "SELECT * FROM tasks WHERE id = $1" [Db.VInt id] with
      | Db.Err c => (st, Next (database_error c))
      | Db.Ok (st, result) =>
          match rows_of result with
          | [] => (st, not_found)
          | row :: _ => (st, Send (mkResponse 200 (JTask (Some row))))
          end
      end
  end.

Section Routes.
Variable srv : Db.server.
Variable isISO8601 : string -> bool.
Variable isIsoDate : string -> bool.

(** [validateRequest(schema)] answers 400 itself; [None] is [next()]. *)
Definition validateRequest (schema : body -> list detail) (b : body) : option reply :=
  match schema b with
  | (_ :: _) as details => Some (validation_error details)
  | [] => None
  end.

(** *** POST /tasks *)

Definition post_task (now : Z) (st : Db.state) (b : body) : Db.state * reply :=
  let '(b, errors) := post_chains isISO8601 b in
  match validateRequest (createTaskSchema isIsoDate) b with
  | Some r => (st, r)
  | None =>
      match errors with
      | _ :: _ => (st, validation_error errors)
      | [] =>
          let title := b_title b in
          let description := b_description b in
          let priority := b_priority b in
          let dueDate := b_dueDate b in
          let completed := b_completed b in
          match Db.query srv now st
                  "INSERT INTO tasks (title, description, priority, due_date, completed) VALUES ($1, $2, $3, $4, $5) RETURNING *"
                  [to_db title; to_db (or description Null);
                   to_db (or priority (Str "medium")); to_db (or dueDate Null);
                   to_db (or completed (Bool false))] with
          | Db.Err c => (st, Next (database_error c))
          | Db.Ok (st, result) =>
              (st, Send (mkResponse 201 (JTask (hd_error (rows_of result)))))
          end
      end
  end.

(** *** PUT /tasks/:id *)

(** Lines 188-211: the SET list and its values. *)
Definition update_fields (b : body) : list string * list Db.value * nat :=
  let updateFields : list string := [] in
  let values : list Db.value := [] in
  let paramCount := 0%nat in
  let '(updateFields, values, paramCount) :=
    if defined (b_title b) then
      (updateFields ++ ["title = $" ^^ Str.of_nat (paramCount + 1)],
       values ++ [to_db (b_title b)], (paramCount + 1)%nat)
    else (updateFields, values, paramCount) in
  let '(updateFields, values, paramCount) :=
    if defined (b_description b) then
      (updateFields ++ ["description = $" ^^ Str.of_nat (paramCount + 1)],
       values ++ [to_db (b_description b)], (paramCount + 1)%nat)
    else (updateFields, values, paramCount) in
  let '(updateFields, values, paramCount) :=
    if defined (b_priority b) then
      (updateFields ++ ["priority = $" ^^ Str.of_nat (paramCount + 1)],
       values ++ [to_db (b_priority b)], (paramCount + 1)%nat)
    else (updateFields, values, paramCount) in
  let '(updateFields, values, paramCount) :=
    if defined (b_dueDate b) then
      (updateFields ++ ["due_date = $" ^^ Str.of_nat (paramCount + 1)],
       values ++ [to_db (b_dueDate b)], (paramCount + 1)%nat)
    else (updateFields, values, paramCount) in
  let '(updateFields, values, paramCount) :=
    if defined (b_completed b) then
      (updateFields ++ ["completed = $" ^^ Str.of_nat (paramCount + 1)],
       values ++ [to_db (b_completed b)], (paramCount + 1)%nat)
    else (updateFields, values, paramCount) in
  (updateFields, values, paramCount).

Definition put_task (now : Z) (st : Db.state) (id : Z) (b : body) : Db.state * reply :=
  let '(b, body_errors) := put_chains isISO8601 b in
  let errors := id_chain id ++ body_errors in
  match validateRequest (updateTaskSchema isIsoDate) b with
  | Some r => (st, r)
  | None =>
      match errors with
      | _ :: _ => (st, validation_error errors)
      | [] =>
          (* Check if task exists *)
          match Db.query srv now st "SELECT * FROM tasks WHERE id = $1" [Db.VInt id] with
          | Db.Err c => (st, Next (database_error c))
          | Db.Ok (st, existingTask) =>
              match rows_of existingTask with
              | [] => (st, not_found)
              | _ :: _ =>
                  (* Build dynamic update query *)
                  let '(updateFields, values, paramCount) := update_fields b in
                  match updateFields with
                  | [] => (st, Send (mkResponse 400 (JError "No fields to update" [])))
                  | _ :: _ =>
                      let updateFields := updateFields ++ ["updated_at = NOW()"] in
                      let values := values ++ [Db.VInt id] in
                      match Db.query srv now st
                              ("UPDATE tasks SET " ^^ String.concat ", " updateFields
                                 ^^ " WHERE id = $" ^^ Str.of_nat (paramCount + 1)
                                 ^^ " RETURNING *")
                              values with
                      | Db.Err c => (st, Next (database_error c))
                      | Db.Ok (st, result) =>
                          (st, Send (mkResponse 200 (JTask (hd_error (rows_of result)))))
                      end
                  end
              end
          end
      end
  end.
End Routes.

(** *** DELETE /tasks/:id *)

Definition delete_task (srv : Db.server) (now : Z) (st : Db.state) (id : Z) : Db.state * reply :=
  match id_chain id with
  | (_ :: _) as errors => (st, validation_error errors)
  | [] =>
      match Db.query srv now st "DELETE FROM tasks WHERE id = $1 RETURNING *" [Db.VInt id] with
      | Db.Err c => (st, Next (database_error c))
      | Db.Ok (st, result) =>
          match rows_of result with
          | [] => (st, not_found)
          | _ :: _ => (st, Send (mkResponse 204 JEmpty))
          end
      end
  end.

(** *** PATCH /tasks/:id/complete *)

Definition patch_complete (srv : Db.server) (now : Z) (st : Db.state) (id : Z) (completed : value)
  : Db.state * reply :=
  match id_chain id ++
        check (isBoolean (toString completed))
              "Completed status is required and must be a boolean" with
  | (_ :: _) as errors => (st, validation_error errors)
  | [] =>
      match Db.query srv now st
              "UPDATE tasks SET completed = $1, updated_at = NOW() WHERE id = $2 RETURNING *"
              [to_db completed; Db.VInt id] with
      | Db.Err c => (st, Next (database_error c))
      | Db.Ok (st, result) =>
          match rows_of result with
          | [] => (st, not_found)
          | row :: _ => (st, Send (mkResponse 200 (JTask (Some row))))
          end
      end
  end.

End Todos.

(** ** app.js: a route followed by the error handler *)

Module App.
Import Http.

Definition respond (node_env : option string) (path method : string)
           (r : reply) : response :=
  match r with
  | Send resp => resp
  | Next err => ErrorHandler.errorHandler node_env err path method
  end.

(** The requests the task router serves. *)
Inductive request :=
| GetTasks (q : Todos.list_query)
| GetTask (id : Z)
| PostTask (b : Validation.body)
| PutTask (id : Z) (b : Validation.body)
| DeleteTask (id : Z)
| PatchComplete (id : Z) (completed : Js.value).

Section Router.
Variable srv : Db.server.
Variable isISO8601 : string -> bool.
Variable isIsoDate : string -> bool.

Definition route (now : Z) (st : Db.state) (req : request) : Db.state * reply :=
  match req with
  | GetTasks q => Todos.get_tasks srv now st q
  | GetTask id => Todos.get_task srv now st id
  | PostTask b => Todos.post_task srv isISO8601 isIsoDate now st b
  | PutTask id b => Todos.put_task srv isISO8601 isIsoDate now st id b
  | DeleteTask id => Todos.delete_task srv now st id
  | PatchComplete id c => Todos.patch_complete srv now st id c
  end.

(** The table after a run of requests, each served at its own clock
    reading. *)
Fixpoint serve_all (reqs : list (Z * request)) (st : Db.state) : Db.state :=
  match reqs with
  | [] => st
  | (now, req) :: reqs' => serve_all reqs' (fst (route now st req))
  end.
End Router.

End App.

(** ** The list contract, in the words of the specification *)

Module ListSpec.
Import Todos.

(** A filter that is applied, with the value it is bound to. *)
Inductive predicate :=
| ByPriority (p : string)
| ByCompleted (b : bool)
| BySearch (pattern : string).

(** The filters present in a request, in the fixed order priority,
    completed, search. *)
Definition predicates (q : list_query) : list predicate :=
  (if Js.truthy_param (q_priority q) then [ByPriority (pushed (q_priority q))] else []) ++
  (match q_completed q with
   | Some c => [ByCompleted (c =? "true")]
   | None => []
   end) ++
  (if Js.truthy_param (q_search q)
   then [BySearch ("%" ^^ pushed (q_search q) ^^ "%")] else []).

Definition values_of (p : predicate) : list Db.value :=
  match p with
  | ByPriority s => [Db.VStr s]
  | ByCompleted b => [Db.VBool b]
  | BySearch pat => [Db.VStr pat; Db.VStr pat]
  end.

(** Placeholders rendered by position: the predicate that starts at
    position [n] takes [$n] (and [$(n+1)]). *)
Fixpoint number (n : nat) (ps : list predicate) : list Sql.cond :=
  match ps with
  | [] => []
  | ByPriority _ :: ps' => Sql.CEq Sql.Cpriority n :: number (S n) ps'
  | ByCompleted _ :: ps' => Sql.CEq Sql.Ccompleted n :: number (S n) ps'
  | BySearch _ :: ps' =>
      Sql.COr (Sql.CILike Sql.Ctitle n) (Sql.CILike Sql.Cdescription (S n))
        :: number (S (S n)) ps'
  end.

Definition where_clause (q : list_query) : list Sql.cond :=
  Sql.CTrue :: number 1 (predicates q).

(** The same, as statement text. *)
Fixpoint render (n : nat) (ps : list predicate) : string :=
  match ps with
  | [] => ""
  | ByPriority _ :: ps' =>
      " AND priority = $" ^^ Str.of_nat n ^^ render (S n) ps'
  | ByCompleted _ :: ps' =>
      " AND completed = $" ^^ Str.of_nat n ^^ render (S n) ps'
  | BySearch _ :: ps' =>
      " AND (title ILIKE $" ^^ Str.of_nat n ^^ " OR description ILIKE $"
        ^^ Str.of_nat (S n) ^^ ")" ^^ render (S (S n)) ps'
  end.

Definition where_text (q : list_query) : string :=
  " WHERE 1=1" ^^ render 1 (predicates q).

Definition bound_values (q : list_query) : list Db.value :=
  flat_map values_of (predicates q).

(** What each applied filter asks of a row. *)
Definition priority_ok (q : list_query) (r : Db.task) : bool :=
  if Js.truthy_param (q_priority q)
  then Db.priority r =? pushed (q_priority q) else true.

Definition completed_ok (q : list_query) (r : Db.task) : bool :=
  match q_completed q with
  | Some c => Bool.eqb (Db.completed r) (c =? "true")
  | None => true
  end.

Definition page_of (q : list_query) : Z := default 1 (q_page q).
Definition limit_of (q : list_query) : Z := default 10 (q_limit q).
Definition offset_of (q : list_query) : Z := ((page_of q - 1) * limit_of q)%Z.

Definition is_meta (c : ascii) : bool :=
  Ascii.eqb c "%" || Ascii.eqb c "_" || Ascii.eqb c "\".

Fixpoint meta_free (s : string) : bool :=
  match s with
  | EmptyString => true
  | String c s' => negb (is_meta c) && meta_free s'
  end.

(** [Number.MAX_SAFE_INTEGER] *)
Definition MAX_SAFE_INTEGER : Z := 9007199254740991.

(** An integer a JavaScript number holds exactly, and so does every
    integer between it and zero. *)
Definition exact (z : Z) : Prop :=
  (- MAX_SAFE_INTEGER <= z <= MAX_SAFE_INTEGER)%Z.

(** The list requests the handler computes exactly and the server
    takes: page, limit, offset and the size of the table are integers a
    JavaScript number holds exactly (which the [int8] of LIMIT and OFFSET
    holds too), and the texts bound have no U+0000. *)
Definition servable (q : list_query) (st : Db.state) : Prop :=
  exact (page_of q) /\ exact (limit_of q) /\ exact (offset_of q) /\
  exact (Z.of_nat (List.length (Db.rows st))) /\
  Str.nul_free (pushed (q_priority q)) = true /\
  Str.nul_free (pushed (q_search q)) = true.

Section Server.
Variable srv : Db.server.

Definition ilike_field (field : option string) (pat : string) : bool :=
  match field with
  | Some t => Db.ilike srv t pat
  | None => false
  end.

Definition search_ok (q : list_query) (r : Db.task) : bool :=
  if Js.truthy_param (q_search q) then
    Db.ilike srv (Db.title r) ("%" ^^ pushed (q_search q) ^^ "%")
    || ilike_field (Db.description r) ("%" ^^ pushed (q_search q) ^^ "%")
  else true.

(** A row passes all applied filters, as the statements test them. *)
Definition matches (q : list_query) (r : Db.task) : bool :=
  priority_ok q r && completed_ok q r && search_ok q r.

(** The page the data query selects out of a table. *)
Definition page_rows (q : list_query) (tbl : list Db.task) : list Db.task :=
  firstn (Z.to_nat (limit_of q))
    (skipn (Z.to_nat (offset_of q)) (Db.sort_desc (filter (matches q) tbl))).

(** What the data query yields.  The server refuses a text with U+0000,
    a limit or an offset outside [int8], and a negative limit or
    offset. *)
Definition data_rows (q : list_query) (tbl : list Db.task)
  : Db.outcome (list Db.task) :=
  if Str.nul_free (pushed (q_priority q)) && Str.nul_free (pushed (q_search q))
  then
    Db.bind (Db.in_range Db.int8_min Db.int8_max (limit_of q)) (fun l =>
    Db.bind (Db.in_range Db.int8_min Db.int8_max (offset_of q)) (fun o =>
    Db.paginate (Some l) (Some o) (Db.sort_desc (filter (matches q) tbl))))
  else Db.Err Db.character_not_in_repertoire.

(** The search filter as the specification words it: the search string
    occurs, ignoring case, in the title or in the description.  Case is
    ignored the way the database does it, by its collation. *)
Definition occurs_in (search : string) (field : option string) : bool :=
  match field with
  | Some t => Str.includes (Db.lower srv search) (Db.lower srv t)
  | None => false
  end.

Definition substring_ok (search : string) (r : Db.task) : bool :=
  occurs_in search (Some (Db.title r)) || occurs_in search (Db.description r).

Definition search_satisfied (q : list_query) (r : Db.task) : bool :=
  if Js.truthy_param (q_search q) then substring_ok (pushed (q_search q)) r
  else true.

(** A row satisfies all applied filters, in the words of the
    specification: exact match on priority and on completed, substring
    match for search. *)
Definition satisfies (q : list_query) (r : Db.task) : bool :=
  priority_ok q r && completed_ok q r && search_satisfied q r.

(** Case folding leaves [%] alone and turns no other character into one
    of [%], [_] and backslash, as every collation does. *)
Definition plain_folding : Prop :=
  Db.lower_char srv "%" = "%"%char /\
  forall c, is_meta c = false -> is_meta (Db.lower_char srv c) = false.

End Server.

End ListSpec.

(** ** Single tasks, in the words of the specification *)

Module TaskSpec.

(** The row is the task with identifier [i]. *)
Definition has_id (i : Z) (r : Db.task) : bool := (Db.id r =? i)%Z.

Definition ids (st : Db.state) : list Z := map Db.id (Db.rows st).

(** Identifiers come from the serial counter: every stored one lies below
    its next value. *)
Definition serial_ahead (st : Db.state) : Prop :=
  Forall (fun r => (Db.id r < Db.next_id st)%Z) (Db.rows st).


(** The boolean a validated [completed] field stands for. *)
Definition flag_of (v : Js.value) : bool :=
  match v with
  | Js.Bool b => b
  | Js.Str s => s =? "true"
  | _ => false
  end.

Definition with_title (t : string) (r : Db.task) : Db.task :=
  Db.mkTask (Db.id r) t (Db.description r) (Db.priority r) (Db.due_date r)
            (Db.completed r) (Db.created_at r) (Db.updated_at r).

Definition with_description (d : option string) (r : Db.task) : Db.task :=
  Db.mkTask (Db.id r) (Db.title r) d (Db.priority r) (Db.due_date r)
            (Db.completed r) (Db.created_at r) (Db.updated_at r).

Definition with_priority (p : string) (r : Db.task) : Db.task :=
  Db.mkTask (Db.id r) (Db.title r) (Db.description r) p (Db.due_date r)
            (Db.completed r) (Db.created_at r) (Db.updated_at r).

Definition with_due_date (d : option Z) (r : Db.task) : Db.task :=
  Db.mkTask (Db.id r) (Db.title r) (Db.description r) (Db.priority r) d
            (Db.completed r) (Db.created_at r) (Db.updated_at r).

Definition with_completed (c : bool) (r : Db.task) : Db.task :=
  Db.mkTask (Db.id r) (Db.title r) (Db.description r) (Db.priority r)
            (Db.due_date r) c (Db.created_at r) (Db.updated_at r).

Section Server.
Variable srv : Db.server.

(** The instant the server reads a [dueDate] as, if it reads one. *)
Definition instant (v : Js.value) : option Z :=
  match Db.coerce srv Db.TTimestamptz (Js.to_db v) with
  | Db.Ok (Db.VTime t) => Some t
  | _ => None
  end.

(** What storing a validated field does to a row. *)
Definition stored (c : Sql.column) (v : Js.value) (r : Db.task) : Db.task :=
  match c with
  | Sql.Ctitle => with_title (Validation.toString v) r
  | Sql.Cdescription => with_description (Some (Validation.toString v)) r
  | Sql.Cpriority => with_priority (Validation.toString v) r
  | Sql.Cdue_date => with_due_date (instant v) r
  | Sql.Ccompleted => with_completed (flag_of v) r
  | _ => r
  end.

(** The table can hold the texts of the body: title and description
    have no U+0000 and the server reads the due date. *)
Definition storable (b : Validation.body) : bool :=
  Db.takes srv Sql.Ctitle (Js.to_db (Validation.b_title b)) &&
  Db.takes srv Sql.Cdescription (Js.to_db (Validation.b_description b)) &&
  Db.takes srv Sql.Cdue_date (Js.to_db (Validation.b_dueDate b)).

(** The same for POST /tasks, which binds [dueDate || null]. *)
Definition insertable (b : Validation.body) : bool :=
  Db.takes srv Sql.Ctitle (Js.to_db (Validation.b_title b)) &&
  Db.takes srv Sql.Cdescription (Js.to_db (Validation.b_description b)) &&
  Db.takes srv Sql.Cdue_date (Js.to_db (Js.or (Validation.b_dueDate b) Js.Null)).

(** The shape both validation layers leave to a field that is present. *)
Definition accepted (c : Sql.column) (v : Js.value) : Prop :=
  match c with
  | Sql.Ctitle =>
      exists t, v = Js.Str t /\ t <> "" /\ (String.length t <= 255)%nat
  | Sql.Cdescription =>
      exists d, v = Js.Str d /\ d <> "" /\ (String.length d <= 1000)%nat
  | Sql.Cpriority =>
      exists p, v = Js.Str p /\ Str.mem p ["low"; "medium"; "high"] = true
  | Sql.Cdue_date => exists d, v = Js.Str d
  | Sql.Ccompleted =>
      (exists b, v = Js.Bool b) \/ v = Js.Str "true" \/ v = Js.Str "false"
  | _ => False
  end.

Definition absent_or_accepted (c : Sql.column) (v : Js.value) : Prop :=
  v = Js.Undefined \/ accepted c v.

Definition apply_if (b : bool) (f : Db.task -> Db.task) (r : Db.task) : Db.task :=
  if b then f r else r.

(** The row a partial update leaves: the fields present in the body are
    stored, the others stay, and [updated_at] takes the clock reading. *)
Definition patch (b : Validation.body) (now : Z) (r : Db.task) : Db.task :=
  let r := apply_if (Js.defined (Validation.b_title b))
                    (stored Sql.Ctitle (Validation.b_title b)) r in
  let r := apply_if (Js.defined (Validation.b_description b))
                    (stored Sql.Cdescription (Validation.b_description b)) r in
  let r := apply_if (Js.defined (Validation.b_priority b))
                    (stored Sql.Cpriority (Validation.b_priority b)) r in
  let r := apply_if (Js.defined (Validation.b_dueDate b))
                    (stored Sql.Cdue_date (Validation.b_dueDate b)) r in
  let r := apply_if (Js.defined (Validation.b_completed b))
                    (stored Sql.Ccompleted (Validation.b_completed b)) r in
  Db.update_updated_at_column now r.

(** The row POST /tasks stores for a validated body: absent fields take
    the defaults of the route. *)
Definition created (b : Validation.body) (now : Z) (id : Z) : Db.task :=
  Db.mkTask id
    (Validation.toString (Validation.b_title b))
    (match Validation.b_description b with
     | Js.Str d => Some d
     | _ => None
     end)
    (match Validation.b_priority b with
     | Js.Str p => p
     | _ => "medium"
     end)
    (instant (Js.or (Validation.b_dueDate b) Js.Null))
    (flag_of (Validation.b_completed b))
    now now.

End Server.

(** The body [b] with its description replaced. *)
Definition with_body_description (v : Js.value) (b : Validation.body)
  : Validation.body :=
  Validation.mkBody (Validation.b_title b) v (Validation.b_priority b)
                    (Validation.b_dueDate b) (Validation.b_completed b).

(** Row [x'] has, in every field the body [b] leaves out, the value row
    [x] has, and the same identifier and creation time. *)
Definition kept (b : Validation.body) (x x' : Db.task) : Prop :=
  Db.id x' = Db.id x /\ Db.created_at x' = Db.created_at x /\
  (Validation.b_title b = Js.Undefined -> Db.title x' = Db.title x) /\
  (Validation.b_description b = Js.Undefined ->
   Db.description x' = Db.description x) /\
  (Validation.b_priority b = Js.Undefined -> Db.priority x' = Db.priority x) /\
  (Validation.b_dueDate b = Js.Undefined -> Db.due_date x' = Db.due_date x) /\
  (Validation.b_completed b = Js.Undefined ->
   Db.completed x' = Db.completed x).

(** The column a body field is written to. *)
Definition field_present (b : Validation.body) (c : Sql.column) : bool :=
  match c with
  | Sql.Ctitle => Js.defined (Validation.b_title b)
  | Sql.Cdescription => Js.defined (Validation.b_description b)
  | Sql.Cpriority => Js.defined (Validation.b_priority b)
  | Sql.Cdue_date => Js.defined (Validation.b_dueDate b)
  | Sql.Ccompleted => Js.defined (Validation.b_completed b)
  | Sql.Cupdated_at => true
  | _ => false
  end.

Definition empty_body : Validation.body :=
  Validation.mkBody Js.Undefined Js.Undefined Js.Undefined Js.Undefined Js.Undefined.

(** The signals the error handler's lookup knows. *)
Definition known_codes : list string :=
  ["23505"; "23503"; "23502"; "42P01"; "ECONNREFUSED"].

(** An error no branch of the handler recognises: neither of the two
    names, none of the codes, no status code of its own. *)
Definition unrecognized (err : Http.error) : Prop :=
  Http.name err <> "ValidationError" /\ Http.name err <> "CastError" /\
  (forall c, Http.code err = Some c -> ~ In c known_codes) /\
  (Http.statusCode err = None \/ Http.statusCode err = Some 0%Z).

End TaskSpec.

(** ** Sample data: the five tasks of the integration test *)

Module Sample.

Definition tasks : list Db.task :=
  [ Db.mkTask 1 "High Priority Task" None "high" None false 100 100;
    Db.mkTask 2 "Medium Priority Task" None "medium" None true 101 101;
    Db.mkTask 3 "Low Priority Task" None "low" None false 102 102;
    Db.mkTask 4 "Another High Priority Task" None "high" None true 103 103;
    Db.mkTask 5 "Completed Task" None "medium" None true 104 104 ].

Definition table : Db.state := Db.mkState tasks 6.

(** [GET /tasks?page=1&limit=2] *)
Definition first_page_of_two : Todos.list_query :=
  Todos.mkListQuery (Some 1%Z) (Some 2%Z) None None None.

(** [GET /tasks?priority=high] *)
Definition high_priority : Todos.list_query :=
  Todos.mkListQuery None None (Some "high") None None.

(** [GET /tasks?completed=yes] *)
Definition completed_yes : Todos.list_query :=
  Todos.mkListQuery None None None (Some "yes") None.

(** [GET /tasks?search=_] on a table whose one task has no underscore. *)
Definition plain : Db.task := Db.mkTask 1 "abc" None "low" None false 100 100.
Definition plain_table : Db.state := Db.mkState [plain] 2.
Definition search_underscore : Todos.list_query :=
  Todos.mkListQuery None None None None (Some "_").


(** [GET /tasks?search=HIGH] *)
Definition search_high : Todos.list_query :=
  Todos.mkListQuery None None None None (Some "HIGH").

Definition any_date (s : string) : bool := true.

(** A server that reads the one due date of the unit tests, at UTC, and
    folds the letters A to Z. *)
Definition server : Db.server :=
  Db.mkServer
    (fun s => if s =? "2024-12-31T23:59:59.000Z" then Db.Ok 1735689599%Z
              else Db.Err Db.invalid_datetime_format)
    Str.lower_char.

(** [{title: "Task"}] *)
Definition task_body : Validation.body :=
  Validation.mkBody (Js.Str "Task") Js.Undefined Js.Undefined Js.Undefined
                    Js.Undefined.


(** [{title: "Task", description: ""}] *)
Definition empty_description_body : Validation.body :=
  Validation.mkBody (Js.Str "Task") (Js.Str "") Js.Undefined Js.Undefined
                    Js.Undefined.

(** [{title: "Task", description: null}] *)
Definition null_description_body : Validation.body :=
  Validation.mkBody (Js.Str "Task") Js.Null Js.Undefined Js.Undefined
                    Js.Undefined.

(** [{title: " Updated ", completed: true}] *)
Definition retitle_body : Validation.body :=
  Validation.mkBody (Js.Str " Updated ") Js.Undefined Js.Undefined Js.Undefined
                    (Js.Bool true).

(** [{title: " Updated ", dueDate: "2024-12-31T23:59:59.000Z",
    completed: true}] *)
Definition redate_body : Validation.body :=
  Validation.mkBody (Js.Str " Updated ") Js.Undefined Js.Undefined
                    (Js.Str "2024-12-31T23:59:59.000Z") (Js.Bool true).

(** [{title: "Task", dueDate: "2024-12-31T23:59:59.000Z"}] *)
Definition dated_body : Validation.body :=
  Validation.mkBody (Js.Str "Task") Js.Undefined Js.Undefined
                    (Js.Str "2024-12-31T23:59:59.000Z") Js.Undefined.


(** The error the driver throws on a unique violation. *)
Definition unique_violation : Http.error := Http.database_error "23505".

End Sample.

(** ** routes/health.js *)

Module Health.

(** What the probes read from the process. *)
Record process := mkProcess {
  NODE_ENV : option string;
  npm_package_version : option string;
  uptime : Z;
  heapUsed : Z;
  heapTotal : Z
}.

Inductive json :=
| JHealth (status environment version database api : string)
          (used total : Z) (unit : string) (uptime : Z)
| JUnhealthy (status error database api : string)
| JReady (status : string)
| JNotReady (status reason : string)
| JAlive (status : string) (uptime : Z).

Record response := mkResponse {
  status : Z;
  content : json
}.

(** [process.env.X || fallback] *)
Definition env_or (v : option string) (fallback : string) : string :=
  match v with
  | Some s => if s =? "" then fallback else s
  | None => fallback
  end.

(** [Math.round(bytes / 1024 / 1024)] for a byte count. *)
Definition megabytes (bytes : Z) : Z := ((2 * bytes + 1048576) / 2097152)%Z.

(** GET /health.  [dbCheck] is what [req.db.query('SELECT 1 as
    health_check')] gave: its rows, or the error it threw. *)
Definition health (p : process) (dbCheck : Db.outcome (list Z)) : response :=
  match dbCheck with
  | Db.Ok rows =>
      mkResponse 200
        (JHealth "healthy"
                 (env_or (NODE_ENV p) "development")
                 (env_or (npm_package_version p) "1.0.0")
                 (match rows with _ :: _ => "connected" | [] => "disconnected" end)
                 "running"
                 (megabytes (heapUsed p)) (megabytes (heapTotal p)) "MB"
                 (uptime p))
  | Db.Err _ =>
      mkResponse 503
        (JUnhealthy "unhealthy" "Database connection failed" "disconnected" "running")
  end.

(** GET /health/ready *)
Definition ready (dbCheck : Db.outcome (list Z)) : response :=
  match dbCheck with
  | Db.Ok rows =>
      match rows with
      | _ :: _ => mkResponse 200 (JReady "ready")
      | [] => mkResponse 503 (JNotReady "not ready" "Database not ready")
      end
  | Db.Err _ => mkResponse 503 (JNotReady "not ready" "Database connection failed")
  end.

(** GET /health/live *)
Definition live (p : process) : response :=
  mkResponse 200 (JAlive "alive" (uptime p)).

End Health.

(** ** Further properties of the routes, in plain terms *)

Module RouteSpec.

(** The boolean a [completed] value that passed [isBoolean] is stored
    as. *)
Definition patch_flag (v : Js.value) : bool :=
  match v with
  | Js.Bool b => b
  | Js.Str s => (s =? "true") || (s =? "1")
  | _ => false
  end.

(** The row PATCH /tasks/:id/complete leaves. *)
Definition toggled (v : Js.value) (now : Z) (x : Db.task) : Db.task :=
  Db.update_updated_at_column now (TaskSpec.with_completed (patch_flag v) x).

(** No time stamp of the table lies after [t], and no task was updated
    before it was created. *)
Definition timely (t : Z) (st : Db.state) : Prop :=
  Forall (fun r => (Db.created_at r <= Db.updated_at r <= t)%Z) (Db.rows st).

(** The requests arrive at clock readings that do not go back, from [t]
    on. *)
Fixpoint clocked (t : Z) (reqs : list (Z * App.request)) : Prop :=
  match reqs with
  | [] => True
  | (now, _) :: reqs' => (t <= now)%Z /\ clocked now reqs'
  end.

(** Most recently created first. *)
Fixpoint newest_first (l : list Db.task) : Prop :=
  match l with
  | [] => True
  | x :: l' =>
      Forall (fun y => (Db.created_at y <= Db.created_at x)%Z) l' /\ newest_first l'
  end.

Definition present (p : option string) : bool :=
  match p with
  | Some _ => true
  | None => false
  end.

(** Two list requests apply the same filters, whatever the values. *)
Definition same_filters (q q' : Todos.list_query) : Prop :=
  Js.truthy_param (Todos.q_priority q) = Js.truthy_param (Todos.q_priority q') /\
  present (Todos.q_completed q) = present (Todos.q_completed q') /\
  Js.truthy_param (Todos.q_search q) = Js.truthy_param (Todos.q_search q').

(** Two bodies carry the same fields, whatever the values. *)
Definition same_fields (b b' : Validation.body) : Prop :=
  Js.defined (Validation.b_title b) = Js.defined (Validation.b_title b') /\
  Js.defined (Validation.b_description b) = Js.defined (Validation.b_description b') /\
  Js.defined (Validation.b_priority b) = Js.defined (Validation.b_priority b') /\
  Js.defined (Validation.b_dueDate b) = Js.defined (Validation.b_dueDate b') /\
  Js.defined (Validation.b_completed b) = Js.defined (Validation.b_completed b').

(** The request [q] asked for page [n]. *)
Definition at_page (n : Z) (q : Todos.list_query) : Todos.list_query :=
  Todos.mkListQuery (Some n) (Todos.q_limit q) (Todos.q_priority q)
                    (Todos.q_completed q) (Todos.q_search q).

(** The tasks of the pages 1 to [n], one after the other. *)
Fixpoint pages_upto (srv : Db.server) (n : nat) (q : Todos.list_query)
         (tbl : list Db.task) : list Db.task :=
  match n with
  | O => []
  | S k => pages_upto srv k q tbl
           ++ ListSpec.page_rows srv (at_page (Z.of_nat (S k)) q) tbl
  end.

(** The request [q] without its filters. *)
Definition unfiltered (q : Todos.list_query) : Todos.list_query :=
  Todos.mkListQuery (Todos.q_page q) (Todos.q_limit q) None None None.

(** The request changes the table only by reading it. *)
Definition read_only (req : App.request) : bool :=
  match req with
  | App.GetTasks _ | App.GetTask _ => true
  | _ => false
  end.

(** The constraints of the data model on one task: a title of 1 to 255
    characters and one of the three priorities. *)
Definition well_formed (r : Db.task) : Prop :=
  Db.title r <> "" /\ (String.length (Db.title r) <= 255)%nat /\
  Str.mem (Db.priority r) ["low"; "medium"; "high"] = true.

(** The id whose rows an updating request rewrites. *)
Definition rewrites (req : App.request) : option Z :=
  match req with
  | App.PutTask i _ | App.PatchComplete i _ => Some i
  | _ => None
  end.

(** The ways a request served at clock reading [now] can change the
    table: not at all; a POST by appending one task; a PUT or PATCH by
    rewriting the rows of its id; a DELETE by removing the rows of its
    id. *)
Inductive effect (now : Z) (st : Db.state) : App.request -> Db.state -> Prop :=
| Unchanged (req : App.request) : effect now st req st
| Created (b : Validation.body) (r : Db.task) :
    Db.id r = Db.next_id st -> Db.created_at r = now -> Db.updated_at r = now ->
    well_formed r ->
    effect now st (App.PostTask b)
           (Db.mkState (Db.rows st ++ [r]) (Db.next_id st + 1))
| Rewritten (req : App.request) (i : Z) (f : Db.task -> Db.task) :
    rewrites req = Some i ->
    (forall x, Db.id (f x) = Db.id x /\ Db.created_at (f x) = Db.created_at x /\
               Db.updated_at (f x) = now /\ (well_formed x -> well_formed (f x))) ->
    effect now st req
      (Db.mkState (map (fun x => if TaskSpec.has_id i x then f x else x) (Db.rows st))
                  (Db.next_id st))
| Removed (i : Z) :
    effect now st (App.DeleteTask i)
      (Db.mkState (filter (fun x => negb (TaskSpec.has_id i x)) (Db.rows st))
                  (Db.next_id st)).

(** Identifiers are unique and below the serial counter. *)
Definition unique_ids (st : Db.state) : Prop :=
  NoDup (TaskSpec.ids st) /\ TaskSpec.serial_ahead st.

End RouteSpec.

(** ** A short session against the sample table *)

Module Scenario.

(** [POST /tasks {title: "Task"}] at 200, [PUT /tasks/1] at 201,
    [PATCH /tasks/2/complete] at 201, [DELETE /tasks/3] at 205. *)
Definition session : list (Z * App.request) :=
  [ (200%Z, App.PostTask Sample.task_body);
    (201%Z, App.PutTask 1 Sample.retitle_body);
    (201%Z, App.PatchComplete 2 (Js.Bool false));
    (205%Z, App.DeleteTask 3) ].

(** [{title: "Task", description: "Write the report", priority: "high",
    completed: "true"}] *)
Definition full_body : Validation.body :=
  Validation.mkBody (Js.Str "  Task ") (Js.Str "Write the report") (Js.Str "high")
                    Js.Undefined (Js.Str "true").

(** An error thrown with a status code of its own. *)
Definition teapot : Http.error :=
  Http.mkError "Error" None (Some 418%Z) "I am a teapot" None "trace".

(** A validation error that also carries a storage code. *)
Definition validation_with_code : Http.error :=
  Http.mkError "ValidationError" (Some "23505") None "title is required" None "trace".

(** A process in a test environment. *)
Definition proc : Health.process :=
  Health.mkProcess (Some "test") None 12 52428800 104857600.

(** The storage error for a table that does not exist. *)
Definition undefined_table : Http.error := Http.database_error "42P01".

End Scenario.

(** * Properties *)

Implicit Types (srv : Db.server).

Ltac by_evaluation :=
  repeat split; vm_compute; first [reflexivity | discriminate].

(** ** The statements GET /tasks emits *)

Section ListQueries.
Import Todos ListSpec.

Lemma list_queries_parse (q : list_query) :
  let k := List.length (bound_values q) in
  Sql.parse (fst (data_query q))
    = Some (Sql.Select Sql.Star (where_clause q) (Some (k + 1, k + 2))%nat) /\
  snd (data_query q) = bound_values q ++ [Db.VInt (limit_of q); Db.VInt (offset_of q)] /\
  Sql.parse (fst (count_query q))
    = Some (Sql.Select Sql.CountStar (where_clause q) None) /\
  snd (count_query q) = bound_values q.
Proof.
  destruct q as [pg lm pr co se].
  unfold data_query, count_query, where_clause, bound_values, predicates,
    limit_of, offset_of, page_of, Js.truthy_param.
  cbn [q_page q_limit q_priority q_completed q_search].
  destruct pr as [p|]; [destruct (p =? "")|];
    (destruct co as [c|]);
    (destruct se as [s|]; [destruct (s =? "")|]);
    cbn [negb]; repeat split; vm_compute; reflexivity.
Qed.

(** Both statements expect exactly the values they are given. *)
Lemma list_queries_arity (q : list_query) :
  let k := List.length (bound_values q) in
  Db.arity (Sql.Select Sql.Star (where_clause q) (Some (k + 1, k + 2))%nat)
    = (k + 2)%nat /\
  Db.arity (Sql.Select Sql.CountStar (where_clause q) None) = k.
Proof.
  destruct q as [pg lm pr co se].
  unfold where_clause, bound_values, predicates, Js.truthy_param.
  cbn [q_page q_limit q_priority q_completed q_search].
  destruct pr as [p|]; [destruct (p =? "")|];
    (destruct co as [c|]);
    (destruct se as [s|]; [destruct (s =? "")|]);
    split; reflexivity.
Qed.

Lemma nul_free_app (a b : string) :
  Str.nul_free (a ++ b) = Str.nul_free a && Str.nul_free b.
Proof.
  induction a as [|c a IH]; cbn; [reflexivity|].
  rewrite IH, andb_assoc. reflexivity.
Qed.

Lemma nul_free_pattern (s : string) :
  Str.nul_free ("%" ^^ s ^^ "%") = Str.nul_free s.
Proof.
  unfold Str.cat. cbn. rewrite nul_free_app. cbn.
  rewrite !andb_true_r. reflexivity.
Qed.

Lemma coerce_text srv (s : string) :
  Str.nul_free s = true -> Db.coerce srv Db.TText (Db.VStr s) = Db.Ok (Db.VStr s).
Proof.
  intros H. cbn. unfold Db.text_in. rewrite H. reflexivity.
Qed.

Lemma coerce_text_refused srv (s : string) :
  Str.nul_free s = false ->
  Db.coerce srv Db.TText (Db.VStr s) = Db.Err Db.character_not_in_repertoire.
Proof.
  intros H. cbn. unfold Db.text_in. rewrite H. reflexivity.
Qed.

(** The WHERE clause with its values bound selects the rows that pass
    all applied filters. *)
Lemma where_clause_selects srv (q : list_query) (extra : list Db.value) :
  Str.nul_free (pushed (q_priority q)) = true ->
  Str.nul_free (pushed (q_search q)) = true ->
  exists bw,
    Db.bind_where srv (bound_values q ++ extra) (where_clause q) = Db.Ok bw /\
    forall r, Db.selects srv bw r = matches srv q r.
Proof.
  destruct q as [pg lm pr co se].
  unfold where_clause, bound_values, predicates, matches, priority_ok,
    completed_ok, search_ok, Js.truthy_param.
  cbn [q_page q_limit q_priority q_completed q_search pushed].
  intros Hp Hs.
  assert (Hpat : Str.nul_free ("%" ^^ pushed se ^^ "%") = true)
    by (rewrite nul_free_pattern; exact Hs).
  destruct pr as [p|]; [destruct (p =? "")|];
    (destruct co as [c|]);
    (destruct se as [s|]; [destruct (s =? "")|]);
    cbn [negb pushed] in *;
    cbn [Db.bind_where Db.bind_cond Db.bind Db.param nth_error Db.col_ty
         flat_map values_of number app];
    rewrite ?(coerce_text srv _ Hp), ?(coerce_text srv _ Hpat);
    cbn [Db.bind Db.coerce];
    eexists; (split; [reflexivity|]);
    intros [i t d pri du co' cr up]; unfold Db.selects;
    cbn -[Db.ilike String.eqb Bool.eqb Str.cat];
    destruct d as [d|]; cbn -[Db.ilike String.eqb Bool.eqb Str.cat];
    repeat match goal with
           | |- context [Db.ilike ?a ?b ?c] => destruct (Db.ilike a b c)
           | |- context [String.eqb ?a ?b] => destruct (String.eqb a b)
           | |- context [Bool.eqb ?a ?b] => destruct (Bool.eqb a b)
           end; reflexivity.
Qed.

(** A filter text with U+0000 in it makes the server refuse the WHERE
    clause. *)
Lemma where_clause_refused srv (q : list_query) (extra : list Db.value) :
  Str.nul_free (pushed (q_priority q)) && Str.nul_free (pushed (q_search q)) = false ->
  Db.bind_where srv (bound_values q ++ extra) (where_clause q)
    = Db.Err Db.character_not_in_repertoire.
Proof.
  destruct q as [pg lm pr co se].
  unfold where_clause, bound_values, predicates, Js.truthy_param.
  cbn [q_page q_limit q_priority q_completed q_search].
  intros H.
  pose proof (nul_free_pattern (pushed se)) as Hpat.
  destruct pr as [p|]; [destruct (String.eqb_spec p ""); [subst p|]|];
    (destruct co as [c|]);
    (destruct se as [s|]; [destruct (String.eqb_spec s ""); [subst s|]|]);
    cbn [negb pushed Str.nul_free andb] in *; try discriminate;
    cbn [Db.bind_where Db.bind_cond Db.bind Db.param nth_error Db.col_ty
         flat_map values_of number app Db.coerce];
    unfold Db.text_in; rewrite ?Hpat;
    repeat match goal with
           | |- context [Str.nul_free ?s] =>
               destruct (Str.nul_free s) eqn:?; cbn [Db.bind]
           end; try reflexivity; try discriminate.
Qed.

End ListQueries.

(** ** Sorting and paging *)

Section Paging.

Lemma insert_desc_length r l :
  List.length (Db.insert_desc r l) = S (List.length l).
Proof.
  induction l as [|x l IH]; cbn; [reflexivity|].
  destruct (Db.created_at x <=? Db.created_at r)%Z; cbn; congruence.
Qed.

Lemma sort_desc_length l : List.length (Db.sort_desc l) = List.length l.
Proof.
  induction l as [|r l IH]; cbn; [reflexivity|].
  rewrite insert_desc_length; congruence.
Qed.

Lemma insert_desc_In r l x : In x (Db.insert_desc r l) <-> x = r \/ In x l.
Proof.
  induction l as [|y l IH]; cbn; [intuition congruence|].
  destruct (Db.created_at y <=? Db.created_at r)%Z; cbn; [intuition congruence|].
  rewrite IH; intuition.
Qed.

Lemma sort_desc_In l x : In x (Db.sort_desc l) <-> In x l.
Proof.
  induction l as [|r l IH]; cbn; [tauto|].
  rewrite insert_desc_In, IH; intuition congruence.
Qed.

Lemma In_firstn_inv {A} n (l : list A) x : In x (firstn n l) -> In x l.
Proof.
  revert l; induction n as [|n IH]; intros [|y l]; cbn; try tauto.
  intros [H|H]; [left; exact H | right; apply IH, H].
Qed.

Lemma In_skipn_inv {A} n (l : list A) x : In x (skipn n l) -> In x l.
Proof.
  revert l; induction n as [|n IH]; intros [|y l]; cbn; try tauto.
  intros H; right; apply IH, H.
Qed.

Lemma In_firstn_skipn {A} n m (l : list A) x :
  In x (firstn n (skipn m l)) -> In x l.
Proof.
  intros H. apply (In_skipn_inv m), (In_firstn_inv n), H.
Qed.

Lemma filter_length_le {A} (p : A -> bool) (l : list A) :
  (List.length (filter p l) <= List.length l)%nat.
Proof.
  induction l as [|x l IH]; cbn; [lia|]. destruct (p x); cbn; lia.
Qed.

End Paging.

(** ** What GET /tasks answers *)

Section GetTasks.
Import Todos ListSpec Http.

Lemma int_param_tail srv (vs : list Db.value) (a b : Z) :
  Db.int_param srv (vs ++ [Db.VInt a; Db.VInt b]) (List.length vs + 1)
    = Db.bind (Db.in_range Db.int8_min Db.int8_max a) (fun z => Db.Ok (Some z)) /\
  Db.int_param srv (vs ++ [Db.VInt a; Db.VInt b]) (List.length vs + 2)
    = Db.bind (Db.in_range Db.int8_min Db.int8_max b) (fun z => Db.Ok (Some z)).
Proof.
  unfold Db.int_param, Db.param.
  replace (List.length vs + 1)%nat with (S (List.length vs)) by lia.
  replace (List.length vs + 2)%nat with (S (S (List.length vs))) by lia.
  split.
  - rewrite nth_error_app2 by lia. rewrite Nat.sub_diag.
    cbn. destruct (Db.in_range _ _ a); reflexivity.
  - rewrite nth_error_app2 by lia.
    replace (S (List.length vs) - List.length vs)%nat with 1%nat by lia.
    cbn. destruct (Db.in_range _ _ b); reflexivity.
Qed.

Lemma in_range_inside (lo hi z : Z) :
  (lo <= z <= hi)%Z -> Db.in_range lo hi z = Db.Ok z.
Proof.
  intros H. unfold Db.in_range.
  destruct (Z.leb_spec lo z); [|lia]. destruct (Z.leb_spec z hi); [|lia].
  reflexivity.
Qed.

Lemma in_range_outside (lo hi z : Z) :
  (z < lo \/ hi < z)%Z -> Db.in_range lo hi z = Db.Err Db.numeric_value_out_of_range.
Proof.
  intros H. unfold Db.in_range.
  destruct (Z.leb_spec lo z); [|reflexivity].
  destruct (Z.leb_spec z hi); [lia|reflexivity].
Qed.

Lemma paginate_nonneg (l o : Z) (rs : list Db.task) :
  (0 <= l)%Z -> (0 <= o)%Z ->
  Db.paginate (Some l) (Some o) rs
    = Db.Ok (firstn (Z.to_nat l) (skipn (Z.to_nat o) rs)).
Proof.
  intros Hl Ho. unfold Db.paginate.
  destruct (Z.ltb_spec l 0); [lia|].
  destruct (Z.ltb_spec o 0); [lia|]. reflexivity.
Qed.

(** The list route, whatever the request: the answer to the data query
    decides, and the count query follows it. *)
Lemma get_tasks_outcome srv (now : Z) (st : Db.state) (q : list_query) :
  get_tasks srv now st q =
    match data_rows srv q (Db.rows st) with
    | Db.Ok tasks =>
        (st, Send (mkResponse 200
               (JTasks tasks
                  (mkPagination (page_of q) (limit_of q)
                     (Z.of_nat (List.length (filter (matches srv q) (Db.rows st))))
                     (Js.ceil_div
                        (Z.of_nat (List.length (filter (matches srv q) (Db.rows st))))
                        (limit_of q))))))
    | Db.Err c => (st, Next (database_error c))
    end.
Proof.
  destruct (list_queries_parse q) as (Pd & Vd & Pc & Vc).
  destruct (list_queries_arity q) as (Ad & Ac).
  destruct (int_param_tail srv (bound_values q) (limit_of q) (offset_of q)) as (Il & Io).
  unfold get_tasks, data_rows.
  destruct (data_query q) as [dq dp]; destruct (count_query q) as [cq cp].
  cbn [fst snd] in *. subst dp cp.
  unfold Db.query. rewrite Pd, Pc. unfold Db.run.
  rewrite Ad, Ac, length_app. cbn [List.length].
  rewrite !Nat.eqb_refl. cbn [negb].
  destruct (Str.nul_free (pushed (q_priority q)) && Str.nul_free (pushed (q_search q)))
    eqn:Hnul.
  - apply andb_prop in Hnul. destruct Hnul as [Hp Hs].
    destruct (where_clause_selects srv q [Db.VInt (limit_of q); Db.VInt (offset_of q)] Hp Hs)
      as (bw & Bd & Sd).
    destruct (where_clause_selects srv q [] Hp Hs) as (bw' & Bc & Sc).
    rewrite app_nil_r in Bc.
    rewrite Bd, Bc. cbn [Db.bind].
    rewrite Il, Io.
    destruct (Db.in_range _ _ (limit_of q)); cbn [Db.bind]; [|reflexivity].
    destruct (Db.in_range _ _ (offset_of q)); cbn [Db.bind]; [|reflexivity].
    rewrite (filter_ext _ _ Sd).
    destruct (Db.paginate _ _ _); cbn [Db.bind rows_of count_of]; [|reflexivity].
    rewrite (filter_ext _ _ Sc). reflexivity.
  - rewrite where_clause_refused by exact Hnul. reflexivity.
Qed.

Lemma servable_bounds (q : list_query) (st : Db.state) :
  servable q st ->
  (Db.int8_min <= limit_of q <= Db.int8_max)%Z /\
  (Db.int8_min <= offset_of q <= Db.int8_max)%Z /\
  Str.nul_free (pushed (q_priority q)) && Str.nul_free (pushed (q_search q)) = true.
Proof.
  unfold servable, exact, MAX_SAFE_INTEGER, Db.int8_min, Db.int8_max.
  intros (Hp & Hl & Ho & Hn & -> & ->). repeat split; lia.
Qed.

(** The whole answer of the list route, for a servable request whose
    limit and offset are not negative. *)
Lemma get_tasks_spec srv (now : Z) (st : Db.state) (q : list_query) :
  servable q st -> (0 <= limit_of q)%Z -> (0 <= offset_of q)%Z ->
  get_tasks srv now st q =
    (st, Send (mkResponse 200
           (JTasks (page_rows srv q (Db.rows st))
              (mkPagination (page_of q) (limit_of q)
                 (Z.of_nat (List.length (filter (matches srv q) (Db.rows st))))
                 (Js.ceil_div
                    (Z.of_nat (List.length (filter (matches srv q) (Db.rows st))))
                    (limit_of q)))))).
Proof.
  intros Hs Hl Ho. rewrite get_tasks_outcome. unfold data_rows.
  destruct (servable_bounds q st Hs) as (Bl & Bo & ->).
  rewrite !in_range_inside by assumption. cbn [Db.bind].
  rewrite paginate_nonneg by assumption. reflexivity.
Qed.

End GetTasks.

(** ** LIKE patterns and substrings *)

Section Like.
Import ListSpec.

Lemma starts_with_spec (p s : string) :
  Str.starts_with p s = true <-> exists b, s = (p ++ b)%string.
Proof.
  revert s; induction p as [|a p IH]; intros s; cbn.
  - split; [intros _; exists s; reflexivity | reflexivity].
  - destruct s as [|c s]; [split; [discriminate | intros [b Hb]; discriminate]|].
    rewrite andb_true_iff, IH. split.
    + intros [Hac [b ->]]. apply Ascii.eqb_eq in Hac. subst. exists b; reflexivity.
    + intros [b Hb]. injection Hb as -> ->.
      split; [apply Ascii.eqb_refl | exists b; reflexivity].
Qed.

(** [Str.includes] is the substring relation. *)
Lemma includes_spec (p s : string) :
  Str.includes p s = true <-> exists a b, s = (a ++ p ++ b)%string.
Proof.
  induction s as [|c s IH].
  - cbn. rewrite orb_false_r, starts_with_spec. split.
    + intros [b Hb]. exists EmptyString, b. exact Hb.
    + intros (a & b & H). destruct a; [exists b; exact H | discriminate].
  - cbn [Str.includes]. rewrite orb_true_iff, IH, starts_with_spec. split.
    + intros [[b Hb] | (a & b & ->)].
      * exists EmptyString, b. exact Hb.
      * exists (String c a), b. reflexivity.
    + intros (a & b & H). destruct a as [|d a].
      * left. exists b. exact H.
      * right. injection H as -> ->. exists a, b. reflexivity.
Qed.

Lemma includes_empty (t : string) : Str.includes "" t = true.
Proof. destruct t; reflexivity. Qed.

Lemma like_percent (t : string) : Db.like "%" t = true.
Proof.
  induction t as [|c t IH]; [reflexivity|].
  cbn in *. rewrite IH. reflexivity.
Qed.

Lemma is_meta_false (c : ascii) :
  is_meta c = false ->
  Ascii.eqb c "%" = false /\ Ascii.eqb c "_" = false /\ Ascii.eqb c "\" = false.
Proof.
  unfold is_meta. intros H.
  apply orb_false_iff in H. destruct H as [H H3].
  apply orb_false_iff in H. tauto.
Qed.

(** A pattern without wild cards, followed by [%], matches the strings
    that start with it. *)
Lemma like_prefix (s t : string) :
  meta_free s = true ->
  Db.like (s ++ "%") t = Str.starts_with s t.
Proof.
  revert t; induction s as [|c s IH]; intros t Hs.
  - apply like_percent.
  - cbn [meta_free] in Hs. apply andb_prop in Hs. destruct Hs as [Hc Hs].
    apply negb_true_iff, is_meta_false in Hc. destruct Hc as (H1 & H2 & H3).
    cbn [String.append Db.like]. rewrite H1, H2, H3.
    destruct t as [|d t]; [reflexivity|].
    cbn [Str.starts_with]. rewrite IH by assumption. reflexivity.
Qed.

(** Between two [%], it matches the strings that contain it. *)
Lemma like_contains (s t : string) :
  meta_free s = true ->
  Db.like ("%" ++ s ++ "%") t = Str.includes s t.
Proof.
  intros Hs. cbn [String.append Db.like]. cbn [Ascii.eqb Bool.eqb].
  induction t as [|d t IH].
  - rewrite like_prefix by assumption. cbn. rewrite orb_false_r. reflexivity.
  - rewrite like_prefix by assumption. rewrite IH. reflexivity.
Qed.

Lemma lower_app srv (a b : string) :
  Db.lower srv (a ++ b) = (Db.lower srv a ++ Db.lower srv b)%string.
Proof.
  unfold Db.lower.
  induction a as [|c a IH]; cbn; [reflexivity | rewrite IH; reflexivity].
Qed.

Lemma lower_meta_free srv (s : string) :
  plain_folding srv -> meta_free s = true -> meta_free (Db.lower srv s) = true.
Proof.
  intros [_ Hf]. unfold Db.lower.
  induction s as [|c s IH]; cbn; [reflexivity|].
  intros H. apply andb_prop in H. destruct H as [Hc Hs].
  apply negb_true_iff in Hc. rewrite (Hf c Hc), IH by assumption. reflexivity.
Qed.

(** The folding of the sample server is plain. *)
Lemma ascii_folding_plain : plain_folding Sample.server.
Proof.
  split; [reflexivity|].
  intros c. destruct c as [[] [] [] [] [] [] [] []];
    vm_compute; intros H; first [reflexivity | discriminate H].
Qed.

(** ILIKE against [%search%] is the substring test on the folded texts
    when the search string has no [%], [_] or backslash. *)
Lemma ilike_contains srv (search t : string) :
  plain_folding srv -> meta_free search = true ->
  Db.ilike srv t ("%" ^^ search ^^ "%")
    = Str.includes (Db.lower srv search) (Db.lower srv t).
Proof.
  intros Hf Hs. unfold Db.ilike, Str.cat.
  rewrite lower_app, lower_app.
  replace (Db.lower srv "%") with "%"
    by (unfold Db.lower; cbn; rewrite (proj1 Hf); reflexivity).
  apply like_contains. apply lower_meta_free; assumption.
Qed.

(** Without wild cards in the search string, the search predicate of the
    statements is the substring test of the specification. *)
Lemma search_ok_satisfied srv (q : Todos.list_query) (r : Db.task) :
  plain_folding srv -> meta_free (Todos.pushed (Todos.q_search q)) = true ->
  search_ok srv q r = search_satisfied srv q r.
Proof.
  intros Hf Hs. unfold search_ok, search_satisfied, substring_ok, occurs_in, ilike_field.
  destruct (Js.truthy_param (Todos.q_search q)); [|reflexivity].
  rewrite ilike_contains by assumption.
  destruct (Db.description r) as [d|]; [|reflexivity].
  rewrite ilike_contains by assumption. reflexivity.
Qed.

Lemma matches_satisfies srv (q : Todos.list_query) (r : Db.task) :
  plain_folding srv -> meta_free (Todos.pushed (Todos.q_search q)) = true ->
  matches srv q r = satisfies srv q r.
Proof.
  intros Hf Hs. unfold matches, satisfies.
  rewrite search_ok_satisfied by assumption. reflexivity.
Qed.

End Like.

(** ** Claims about the list route *)

Section ListClaims.
Import Todos ListSpec Http.

Lemma ceil_div_spec (a b : Z) :
  (0 < b)%Z ->
  exists n, Js.ceil_div a b = Some n /\ (b * (n - 1) < a <= b * n)%Z.
Proof.
  intros Hb. unfold Js.ceil_div.
  destruct (Z.eqb_spec b 0); [lia|].
  eexists; split; [reflexivity|].
  pose proof (Z.div_mod (- a) b ltac:(lia)) as Hdm.
  pose proof (Z.mod_pos_bound (- a) b Hb) as Hm.
  nia.
Qed.

Lemma page_rows_In srv (q : list_query) (tbl : list Db.task) (r : Db.task) :
  In r (page_rows srv q tbl) -> In r tbl /\ matches srv q r = true.
Proof.
  unfold page_rows. intros H.
  apply In_firstn_skipn, sort_desc_In, filter_In in H. exact H.
Qed.




(** C2: the count query carries the same WHERE clause as the data query,
    predicate for predicate in the order priority, completed, search, and
    the same bound values; the data query adds only ORDER BY, LIMIT and
    OFFSET with the two paging values; and in each statement the
    placeholders are numbered 1, 2, 3, ... in the order they occur. *)
Theorem count_query_mirrors_data_query (q : list_query) :
  let k := List.length (snd (count_query q)) in
  let w := where_clause q in
  fst (count_query q) = "SELECT COUNT(*) FROM tasks" ^^ where_text q /\
  fst (data_query q) =
    "SELECT * FROM tasks" ^^ where_text q ^^ " ORDER BY created_at DESC LIMIT $"
      ^^ Str.of_nat (k + 1) ^^ " OFFSET $" ^^ Str.of_nat (k + 2) /\
  Sql.parse (fst (count_query q)) = Some (Sql.Select Sql.CountStar w None) /\
  Sql.parse (fst (data_query q))
    = Some (Sql.Select Sql.Star w (Some (k + 1, k + 2)%nat)) /\
  snd (count_query q) = bound_values q /\
  snd (data_query q)
    = snd (count_query q) ++ [Db.VInt (limit_of q); Db.VInt (offset_of q)] /\
  Db.stmt_params (Sql.Select Sql.CountStar w None) = seq 1 k /\
  Db.stmt_params (Sql.Select Sql.Star w (Some (k + 1, k + 2)%nat)) = seq 1 (k + 2).
Proof.
  destruct (list_queries_parse q) as (Pd & Vd & Pc & Vc).
  cbn zeta. rewrite Vc, Vd, Pd, Pc. clear Pd Vd Pc Vc.
  destruct q as [pg lm pr co se].
  unfold data_query, count_query, where_clause, where_text, bound_values,
    predicates, limit_of, offset_of, page_of, Js.truthy_param.
  cbn [q_page q_limit q_priority q_completed q_search].
  destruct pr as [p|]; [destruct (p =? "")|];
    (destruct co as [c|]);
    (destruct se as [s|]; [destruct (s =? "")|]);
    cbn [negb]; repeat split; vm_compute; reflexivity.
Qed.

Lemma page_rows_length srv (q : list_query) (tbl : list Db.task) :
  (0 <= limit_of q)%Z ->
  (Z.of_nat (List.length (page_rows srv q tbl)) <= limit_of q)%Z.
Proof.
  intros H. unfold page_rows.
  pose proof (firstn_le_length (Z.to_nat (limit_of q))
                (skipn (Z.to_nat (offset_of q))
                   (Db.sort_desc (filter (matches srv q) tbl)))).
  lia.
Qed.

(** C3: a servable list request (page, limit, offset and table size at
    most 2^53 - 1, no U+0000 in the filter texts) with a positive page
    and limit is answered with an envelope that echoes page and limit, holds at most [limit] tasks and
    has [pages = ceil(total / limit)], the least [n] with
    [total <= limit * n]; LIMIT and OFFSET are the last two placeholders of
    the data query, bound to [limit] and [(page - 1) * limit] as its last
    two values, and the count query has neither.  With five matching rows,
    page 1 and limit 2, the pagination object is
    [{page: 1, limit: 2, total: 5, pages: 3}]. *)
Theorem list_envelope_pagination srv (now : Z) (st : Db.state) (q : list_query) :
  servable q st -> (1 <= page_of q)%Z -> (1 <= limit_of q)%Z ->
  exists tasks pg n,
    get_tasks srv now st q = (st, Send (mkResponse 200 (JTasks tasks pg))) /\
    page pg = page_of q /\ limit pg = limit_of q /\
    (Z.of_nat (List.length tasks) <= limit pg)%Z /\
    pages pg = Some n /\
    (limit pg * (n - 1) < total pg <= limit pg * n)%Z /\
    (let k := List.length (snd (count_query q)) in
     Sql.parse (fst (data_query q))
       = Some (Sql.Select Sql.Star (where_clause q) (Some (k + 1, k + 2)%nat)) /\
     snd (data_query q)
       = snd (count_query q)
           ++ [Db.VInt (limit_of q); Db.VInt ((page_of q - 1) * limit_of q)] /\
     Sql.parse (fst (count_query q))
       = Some (Sql.Select Sql.CountStar (where_clause q) None)) /\
    (page_of q = 1%Z -> limit_of q = 2%Z ->
     List.length (filter (matches srv q) (Db.rows st)) = 5%nat ->
     pg = mkPagination 1 2 5 (Some 3%Z)).
Proof.
  intros Hs Hp Hl.
  rewrite get_tasks_spec by (try assumption; unfold offset_of; nia).
  destruct (ceil_div_spec
              (Z.of_nat (List.length (filter (matches srv q) (Db.rows st))))
              (limit_of q) ltac:(lia)) as (n & Hn & Hb).
  do 3 eexists. split; [reflexivity|].
  cbn [page limit total pages].
  split; [reflexivity|]. split; [reflexivity|].
  split; [apply page_rows_length; lia|].
  split; [exact Hn|]. split; [exact Hb|]. split.
  - destruct (list_queries_parse q) as (Pd & Vd & Pc & Vc).
    cbn zeta. rewrite Vc, Vd, Pd, Pc. repeat split; reflexivity.
  - intros E1 E2 E5. rewrite E1, E2, E5. reflexivity.
Qed.

Lemma list_envelope_pagination_witness :
  exists tasks,
    get_tasks Sample.server 200 Sample.table Sample.first_page_of_two
      = (Sample.table,
         Send (mkResponse 200 (JTasks tasks (mkPagination 1 2 5 (Some 3%Z))))) /\
    List.length tasks = 2%nat.
Proof.
  destruct (list_envelope_pagination Sample.server 200 Sample.table
              Sample.first_page_of_two)
    as (tasks & pg & n & Hget & _ & _ & _ & _ & _ & _ & Hpg);
    [by_evaluation | by_evaluation | by_evaluation |].
  rewrite (Hpg eq_refl eq_refl eq_refl) in Hget.
  exists tasks. split; [exact Hget|].
  vm_compute in Hget. injection Hget as <-. reflexivity.
Defined.

(** C10: the completed filter is applied exactly when the [completed]
    parameter is present.  When present, with any text [c], both
    statements bind the boolean [c === 'true'] to the one
    [completed = $n] predicate, the request (a servable one, with a
    positive page and limit) is answered 200, every task
    of the page has [completed] equal to that boolean, and [total] counts
    the rows that pass the other filters and have it too, so that
    ["false"], ["yes"] and ["1"] all select the tasks that are not
    completed.  When absent, neither statement has the predicate and
    [total] counts the rows that pass the other filters whatever their
    flag. *)
Theorem completed_filter_compares_with_true srv (now : Z) (st : Db.state)
        (q : list_query) :
  servable q st -> (1 <= page_of q)%Z -> (1 <= limit_of q)%Z ->
  exists tasks pg w,
    get_tasks srv now st q = (st, Send (mkResponse 200 (JTasks tasks pg))) /\
    Sql.parse (fst (data_query q))
      = Some (Sql.Select Sql.Star w
                (Some (List.length (snd (count_query q)) + 1,
                       List.length (snd (count_query q)) + 2)%nat)) /\
    Sql.parse (fst (count_query q)) = Some (Sql.Select Sql.CountStar w None) /\
    match q_completed q with
    | Some c =>
        (exists n,
           filter (fun p => match p with
                            | Sql.CEq Sql.Ccompleted _ => true
                            | _ => false
                            end) w = [Sql.CEq Sql.Ccompleted n] /\
           Db.param (snd (data_query q)) n = Db.Ok (Db.VBool (c =? "true")) /\
           Db.param (snd (count_query q)) n = Db.Ok (Db.VBool (c =? "true"))) /\
        Forall (fun r => Db.completed r = (c =? "true")) tasks /\
        total pg = Z.of_nat (List.length
                     (filter (fun r => priority_ok q r && search_ok srv q r
                                       && Bool.eqb (Db.completed r) (c =? "true"))
                             (Db.rows st))) /\
        (In c ["false"; "yes"; "1"] ->
         Forall (fun r => Db.completed r = false) tasks)
    | None =>
        filter (fun p => match p with
                         | Sql.CEq Sql.Ccompleted _ => true
                         | _ => false
                         end) w = [] /\
        total pg = Z.of_nat (List.length
                     (filter (fun r => priority_ok q r && search_ok srv q r)
                             (Db.rows st)))
    end.
Proof.
  intros Hs Hp Hl.
  rewrite get_tasks_spec by (try assumption; unfold offset_of; nia).
  destruct (list_queries_parse q) as (Pd & Vd & Pc & Vc).
  cbn zeta in Pd. rewrite Vc, Vd, Pd, Pc. clear Pd Pc.
  exists (page_rows srv q (Db.rows st)). eexists. exists (where_clause q).
  split; [reflexivity|]. split; [reflexivity|]. split; [reflexivity|].
  cbn [total].
  assert (Hall : forall r, In r (page_rows srv q (Db.rows st)) -> completed_ok q r = true).
  { intros r Hr. apply page_rows_In in Hr. destruct Hr as [_ Hm].
    unfold matches in Hm. apply andb_prop in Hm. destruct Hm as [Hm _].
    apply andb_prop in Hm. tauto. }
  assert (Hflt : forall l, filter (matches srv q) l
                 = filter (fun r => priority_ok q r && search_ok srv q r
                                    && completed_ok q r) l).
  { intros l. apply filter_ext. intros r. unfold matches.
    destruct (priority_ok q r), (completed_ok q r), (search_ok srv q r); reflexivity. }
  rewrite Hflt. clear Hflt.
  unfold completed_ok in *.
  destruct q as [pg lm pr co se].
  unfold where_clause, bound_values, predicates, Js.truthy_param in *.
  cbn [q_page q_limit q_priority q_completed q_search] in *.
  destruct co as [c|].
  - split; [|split; [|split]].
    + destruct pr as [p|]; [destruct (p =? "")|];
        (destruct se as [s|]; [destruct (s =? "")|]);
        cbn [negb]; eexists; repeat split; reflexivity.
    + apply Forall_forall. intros r Hr. apply Hall in Hr.
      apply Bool.eqb_prop in Hr. exact Hr.
    + reflexivity.
    + intros Hc. apply Forall_forall. intros r Hr. apply Hall in Hr.
      apply Bool.eqb_prop in Hr. rewrite Hr.
      cbn in Hc. destruct Hc as [<-|[<-|[<-|[]]]]; reflexivity.
  - split.
    + destruct pr as [p|]; [destruct (p =? "")|];
        (destruct se as [s|]; [destruct (s =? "")|]); reflexivity.
    + f_equal. f_equal. apply filter_ext. intros r.
      rewrite andb_true_r. reflexivity.
Qed.

Lemma completed_filter_compares_with_true_witness :
  exists tasks pg,
    get_tasks Sample.server 200 Sample.table Sample.completed_yes
      = (Sample.table, Send (mkResponse 200 (JTasks tasks pg))) /\
    Forall (fun r => Db.completed r = false) tasks /\
    total pg = 2%Z.
Proof.
  destruct (completed_filter_compares_with_true Sample.server 200 Sample.table
              Sample.completed_yes)
    as (tasks & pg & w & Hget & _ & _ & H);
    [by_evaluation | by_evaluation | by_evaluation |].
  cbn [q_completed Sample.completed_yes] in H.
  destruct H as (_ & _ & Htot & Hno).
  exists tasks, pg. split; [exact Hget|]. split.
  - apply Hno. right; left; reflexivity.
  - rewrite Htot. reflexivity.
Defined.

End ListClaims.


(** ** Claims about the search filter *)

Section SearchClaims.
Import Todos ListSpec Http.

(** C4, as the code has it: the search string goes into the LIKE pattern
    unescaped.  A request for [search=_] returns a task whose title is
    [abc] and which has no description, although no underscore occurs in
    either. *)
Lemma search_wildcard_counterexample :
  get_tasks Sample.server 200 Sample.plain_table Sample.search_underscore
    = (Sample.plain_table,
       Send (mkResponse 200
               (JTasks [Sample.plain] (mkPagination 1 10 1 (Some 1%Z))))) /\
  search_ok Sample.server Sample.search_underscore Sample.plain = true /\
  substring_ok Sample.server "_" Sample.plain = false.
Proof. repeat split; vm_compute; reflexivity. Qed.

Lemma substring_ok_spec srv (s : string) (r : Db.task) :
  substring_ok srv s r = true <->
    (exists a b, Db.lower srv (Db.title r)
                 = (a ++ Db.lower srv s ++ b)%string) \/
    (exists d a b, Db.description r = Some d /\
                   Db.lower srv d = (a ++ Db.lower srv s ++ b)%string).
Proof.
  unfold substring_ok, occurs_in.
  rewrite orb_true_iff, includes_spec.
  destruct (Db.description r) as [d|].
  - rewrite includes_spec. split.
    + intros [H|(a & b & H)]; [left; exact H | right; exists d, a, b; auto].
    + intros [H|(d' & a & b & [= <-] & H)]; [left; exact H | right; exists a, b; exact H].
  - split.
    + intros [H|H]; [left; exact H | discriminate].
    + intros [H|(d' & a & b & H & _)]; [left; exact H | discriminate].
Qed.

(** X18: for a search string without [%], [_] and backslash the WHERE
    clause of the list statements, as the handler builds and binds it,
    selects a row exactly when the row has the priority and the flag
    asked for and the folded search string occurs in its folded title or
    in its folded description. *)
Theorem search_is_substring_without_wildcards srv (q : list_query) (s : string)
        (r : Db.task) :
  plain_folding srv -> q_search q = Some s -> s <> "" ->
  meta_free s = true -> Str.nul_free s = true ->
  Str.nul_free (pushed (q_priority q)) = true ->
  exists w bw,
    Sql.parse (fst (count_query q)) = Some (Sql.Select Sql.CountStar w None) /\
    Db.bind_where srv (snd (count_query q)) w = Db.Ok bw /\
    (Db.selects srv bw r = true <->
     priority_ok q r = true /\ completed_ok q r = true /\
     ((exists a b, Db.lower srv (Db.title r)
                   = (a ++ Db.lower srv s ++ b)%string) \/
      (exists d a b, Db.description r = Some d /\
                     Db.lower srv d = (a ++ Db.lower srv s ++ b)%string))).
Proof.
  intros Hf Hq Hne Hm Hn Hp.
  destruct (list_queries_parse q) as (_ & _ & Pc & Vc).
  destruct (where_clause_selects srv q [] Hp ltac:(rewrite Hq; exact Hn))
    as (bw & Hb & Hsel).
  rewrite app_nil_r in Hb.
  exists (where_clause q), bw. split; [exact Pc|].
  split; [rewrite Vc; exact Hb|].
  rewrite Hsel, matches_satisfies by (try assumption; rewrite Hq; exact Hm).
  unfold satisfies, search_satisfied. rewrite Hq.
  cbn [Js.truthy_param pushed].
  apply String.eqb_neq in Hne. rewrite Hne. cbn [negb].
  rewrite !andb_true_iff, substring_ok_spec. tauto.
Qed.

Lemma search_is_substring_without_wildcards_witness :
  exists w bw,
    Sql.parse (fst (count_query Sample.search_high))
      = Some (Sql.Select Sql.CountStar w None) /\
    Db.bind_where Sample.server (snd (count_query Sample.search_high)) w
      = Db.Ok bw /\
    Db.selects Sample.server bw
      (Db.mkTask 1 "High Priority Task" None "high" None false 100 100) = true.
Proof.
  destruct (search_is_substring_without_wildcards Sample.server Sample.search_high
              "HIGH" (Db.mkTask 1 "High Priority Task" None "high" None false 100 100))
    as (w & bw & Hp & Hb & Hs);
    [exact ascii_folding_plain | reflexivity | discriminate | reflexivity
    | reflexivity | reflexivity |].
  exists w, bw. split; [exact Hp|]. split; [exact Hb|].
  apply Hs. split; [reflexivity|]. split; [reflexivity|].
  left. exists "", " priority task". reflexivity.
Defined.

End SearchClaims.

(** ** Statements by id *)

Section ByIdStatements.

Import TaskSpec.

Lemma selects_by_id srv (i : Z) (r : Db.task) :
  Db.selects srv [Db.BEq Sql.Cid (Db.VInt i)] r = has_id i r.
Proof.
  unfold Db.selects, has_id. cbn.
  destruct (Db.id r =? i)%Z; reflexivity.
Qed.

Lemma parse_select_by_id :
  Sql.parse "SELECT * FROM tasks WHERE id = $1"
    = Some (Sql.Select Sql.Star [Sql.CEq Sql.Cid 1] None).
Proof. vm_compute; reflexivity. Qed.

Lemma parse_delete_by_id :
  Sql.parse "DELETE FROM tasks WHERE id = $1 RETURNING *"
    = Some (Sql.Delete [Sql.CEq Sql.Cid 1]).
Proof. vm_compute; reflexivity. Qed.

(** An identifier the [id] column can hold. *)
Lemma int4_inside (i : Z) :
  (1 <= i <= Db.int4_max)%Z -> Db.in_range Db.int4_min Db.int4_max i = Db.Ok i.
Proof.
  intros H. apply in_range_inside. unfold Db.int4_min, Db.int4_max in *. lia.
Qed.

Lemma int4_outside (i : Z) :
  (Db.int4_max < i)%Z ->
  Db.in_range Db.int4_min Db.int4_max i = Db.Err Db.numeric_value_out_of_range.
Proof. intros H. apply in_range_outside. right. exact H. Qed.

(** The statement is refused when the identifier is outside [int4]. *)
Lemma query_select_by_id srv (now : Z) (st : Db.state) (i : Z) :
  Db.query srv now st "SELECT * FROM tasks WHERE id = $1" [Db.VInt i]
    = Db.bind (Db.in_range Db.int4_min Db.int4_max i) (fun i =>
      Db.Ok (st, Db.Rows (filter (has_id i) (Db.rows st)))).
Proof.
  unfold Db.query. rewrite parse_select_by_id.
  cbn -[Db.selects filter Db.in_range].
  destruct (Db.in_range Db.int4_min Db.int4_max i) as [j|] eqn:E;
    cbn -[Db.selects filter]; [|reflexivity].
  rewrite (filter_ext _ _ (selects_by_id srv j)). reflexivity.
Qed.

Lemma query_delete_by_id srv (now : Z) (st : Db.state) (i : Z) :
  Db.query srv now st "DELETE FROM tasks WHERE id = $1 RETURNING *" [Db.VInt i]
    = Db.bind (Db.in_range Db.int4_min Db.int4_max i) (fun i =>
      Db.Ok (Db.mkState (filter (fun r => negb (has_id i r)) (Db.rows st))
                        (Db.next_id st),
             Db.Rows (filter (has_id i) (Db.rows st)))).
Proof.
  unfold Db.query. rewrite parse_delete_by_id.
  cbn -[Db.selects filter Db.in_range].
  destruct (Db.in_range Db.int4_min Db.int4_max i) as [j|] eqn:E;
    cbn -[Db.selects filter]; [|reflexivity].
  rewrite (filter_ext _ _ (selects_by_id srv j)).
  rewrite (filter_ext (fun r => negb (Db.selects srv _ r)) (fun r => negb (has_id j r)))
    by (intros r; rewrite selects_by_id; reflexivity).
  reflexivity.
Qed.

Lemma filter_has_id_nil (i : Z) (l : list Db.task) :
  filter (has_id i) l = [] <-> ~ In i (map Db.id l).
Proof.
  induction l as [|r l IH]; cbn; [tauto|].
  unfold has_id at 1. destruct (Z.eqb_spec (Db.id r) i) as [E|E].
  - split; [discriminate | intros H; exfalso; apply H; left; exact E].
  - rewrite IH. tauto.
Qed.


Lemma id_chain_valid (i : Z) : (1 <= i)%Z -> Validation.id_chain i = [].
Proof.
  intros Hi. unfold Validation.id_chain, Validation.isInt_min1.
  destruct (Z.leb_spec 1 i); [reflexivity|lia].
Qed.

Lemma get_task_spec srv (now : Z) (st : Db.state) (i : Z) :
  (1 <= i <= Db.int4_max)%Z ->
  Todos.get_task srv now st i =
    match filter (has_id i) (Db.rows st) with
    | [] => (st, Todos.not_found)
    | row :: _ => (st, Http.Send (Http.mkResponse 200 (Http.JTask (Some row))))
    end.
Proof.
  intros Hi. unfold Todos.get_task. rewrite id_chain_valid by lia.
  rewrite query_select_by_id, int4_inside by assumption. reflexivity.
Qed.


(** Beyond [int4] the server refuses the statement and the route passes
    the error on. *)
Lemma get_task_out_of_range srv (now : Z) (st : Db.state) (i : Z) :
  (Db.int4_max < i)%Z ->
  Todos.get_task srv now st i
    = (st, Http.Next (Http.database_error Db.numeric_value_out_of_range)).
Proof.
  intros Hi. unfold Todos.get_task.
  rewrite id_chain_valid by (unfold Db.int4_max in Hi; lia).
  rewrite query_select_by_id, int4_outside by assumption. reflexivity.
Qed.

Lemma delete_task_out_of_range srv (now : Z) (st : Db.state) (i : Z) :
  (Db.int4_max < i)%Z ->
  Todos.delete_task srv now st i
    = (st, Http.Next (Http.database_error Db.numeric_value_out_of_range)).
Proof.
  intros Hi. unfold Todos.delete_task.
  rewrite id_chain_valid by (unfold Db.int4_max in Hi; lia).
  rewrite query_delete_by_id, int4_outside by assumption. reflexivity.
Qed.


End ByIdStatements.

(** ** Identifiers are never handed out twice *)

Section Identifiers.
Import TaskSpec.





Lemma serial_ahead_ids st :
  serial_ahead st <-> Forall (fun i => (i < Db.next_id st)%Z) (ids st).
Proof. unfold serial_ahead, ids. rewrite Forall_map. reflexivity. Qed.







End Identifiers.

(** ** Claims about deletion *)

Section DeleteClaims.
Import TaskSpec Todos Http.

Lemma state_eta (st : Db.state) : Db.mkState (Db.rows st) (Db.next_id st) = st.
Proof. destruct st; reflexivity. Qed.




End DeleteClaims.

(** ** Claims about the error handler *)

Section ErrorClaims.
Import TaskSpec Http ErrorHandler.

Lemma code_is_iff err c : code_is err c = true <-> code err = Some c.
Proof.
  unfold code_is. destruct (code err) as [c'|].
  - rewrite String.eqb_eq. split; [intros ->; reflexivity | intros [= ->]; reflexivity].
  - split; discriminate.
Qed.

Lemma code_is_unknown err c :
  (forall c', code err = Some c' -> ~ In c' known_codes) ->
  In c known_codes -> code_is err c = false.
Proof.
  intros H Hc. destruct (code_is err c) eqn:E; [|reflexivity].
  apply code_is_iff in E. exfalso. exact (H c E Hc).
Qed.

(** C9: for an error of the storage layer (its name is neither
    ValidationError nor CastError) the status is looked up from its code:
    23505 gives 409, 23503 and 23502 give 400, ECONNREFUSED gives 503.
    An error that no branch recognises is answered 500 with the fixed
    message, no details and, outside development, no stack. *)
Theorem storage_errors_lookup (node_env : option string) (err : error)
        (path method : string) :
  name err <> "ValidationError" -> name err <> "CastError" ->
  let resp := errorHandler node_env err path method in
  (code err = Some "23505" -> status resp = 409%Z) /\
  (code err = Some "23503" -> status resp = 400%Z) /\
  (code err = Some "23502" -> status resp = 400%Z) /\
  (code err = Some "ECONNREFUSED" -> status resp = 503%Z) /\
  (unrecognized err ->
   status resp = 500%Z /\
   exists stack,
     content resp = JFailure (mkErrorResponse "Internal Server Error" 500
                                path method None stack) /\
     (node_env <> Some "development" -> stack = None)).
Proof.
  intros Hv Hc resp. subst resp. unfold errorHandler.
  apply String.eqb_neq in Hv. apply String.eqb_neq in Hc. rewrite Hv, Hc.
  split; [|split; [|split; [|split]]].
  1-4: intros E; unfold code_is; rewrite E; cbn;
    destruct node_env as [e|]; cbn; try destruct (e =? "production"); reflexivity.
  intros (_ & _ & Hk & Hs).
  rewrite !(code_is_unknown err _ Hk) by (cbn; tauto).
  split.
  - destruct Hs as [-> | ->]; cbn; destruct node_env as [e|]; cbn;
      try destruct (e =? "production"); reflexivity.
  - exists (if match node_env with
               | Some e => e =? "development"
               | None => false
               end then Some (Http.stack err) else None).
    split.
    + destruct Hs as [-> | ->]; cbn; destruct node_env as [e|]; cbn;
        try destruct (e =? "production"); cbn; reflexivity.
    + intros Hd. destruct node_env as [e|]; [|reflexivity].
      destruct (String.eqb_spec e "development") as [->|]; [congruence | reflexivity].
Qed.

Lemma storage_errors_lookup_witness :
  status (errorHandler (Some "production") Sample.unique_violation "/tasks" "POST")
    = 409%Z.
Proof.
  apply (storage_errors_lookup (Some "production") Sample.unique_violation
           "/tasks" "POST"); [discriminate | discriminate | reflexivity].
Defined.

End ErrorClaims.

(** ** Storing validated fields *)

Section Storing.
Import TaskSpec.

Lemma mem_priority (p : string) :
  Str.mem p ["low"; "medium"; "high"] = true ->
  p = "low" \/ p = "medium" \/ p = "high".
Proof.
  unfold Str.mem. cbn [existsb]. rewrite !orb_true_iff, !String.eqb_eq.
  intuition discriminate.
Qed.

Lemma takes_text srv (c : Sql.column) (s : string) :
  Db.col_ty c = Db.TText -> Db.takes srv c (Db.VStr s) = Str.nul_free s.
Proof.
  intros E. unfold Db.takes. rewrite E. cbn. unfold Db.text_in.
  destruct (Str.nul_free s); reflexivity.
Qed.

(** The server reads a due date it takes as an instant. *)
Lemma takes_due_date srv (v : Js.value) :
  Db.takes srv Sql.Cdue_date (Js.to_db v) = true ->
  Db.coerce srv Db.TTimestamptz (Js.to_db v)
    = Db.Ok (match instant srv v with Some t => Db.VTime t | None => Db.VNull end).
Proof.
  unfold Db.takes, instant. cbn [Db.col_ty].
  destruct v as [| |b|s]; cbn [Js.to_db Db.coerce]; try reflexivity.
  - destruct (Db.timestamptz_in srv (Db.bool_text b)); cbn;
      [reflexivity | discriminate].
  - destruct (Db.text_in s); cbn; [|discriminate].
    destruct (Db.timestamptz_in srv a); cbn; [reflexivity | discriminate].
Qed.

(** A field that passed validation and that its column takes is stored
    without error. *)
Lemma set_col_accepted srv (c : Sql.column) (v : Js.value) (r : Db.task) :
  accepted c v -> Db.takes srv c (Js.to_db v) = true ->
  Db.set_col srv c (Js.to_db v) r = Db.Ok (stored srv c v r).
Proof.
  destruct c; cbn [accepted]; try tauto.
  - intros (t & -> & _ & Hl) Ht. cbn [Js.to_db] in Ht.
    rewrite takes_text in Ht by reflexivity.
    unfold Db.set_col. cbn. unfold Db.text_in. rewrite Ht. cbn.
    destruct (Nat.leb_spec (String.length t) 255); [reflexivity | lia].
  - intros (d & -> & _) Ht. cbn [Js.to_db] in Ht.
    rewrite takes_text in Ht by reflexivity.
    unfold Db.set_col. cbn. unfold Db.text_in. rewrite Ht. reflexivity.
  - intros (p & -> & Hp) _.
    apply mem_priority in Hp. destruct Hp as [-> | [-> | ->]]; reflexivity.
  - intros (d & ->) Ht. unfold Db.set_col. cbn [Db.col_ty].
    rewrite (takes_due_date srv _ Ht). cbn [Db.bind stored].
    destruct (instant srv (Js.Str d)); reflexivity.
  - intros [(b & ->) | [-> | ->]] _; reflexivity.
Qed.

(** A value its column does not take makes the assignment fail. *)
Lemma set_col_refused srv (c : Sql.column) (v : Db.value) (r : Db.task) :
  Db.takes srv c v = false -> exists code, Db.set_col srv c v r = Db.Err code.
Proof.
  unfold Db.takes, Db.set_col.
  destruct (Db.coerce srv (Db.col_ty c) v) as [v'|code]; [discriminate|].
  intros _. exists code. reflexivity.
Qed.

Lemma set_col_updated_at srv (z : Z) (r : Db.task) :
  Db.set_col srv Sql.Cupdated_at (Db.VTime z) r
    = Db.Ok (Db.update_updated_at_column z r).
Proof. reflexivity. Qed.

(** UPDATE on a table, when the assignments succeed on every row. *)
Lemma update_rows_spec srv now ps sets w (f : Db.task -> Db.task) (l : list Db.task) :
  (forall r, Db.apply_sets srv now ps sets r = Db.Ok (f r)) ->
  Db.update_rows srv now ps sets w l =
    Db.Ok (map (fun r => if Db.selects srv w r
                         then Db.update_updated_at_column now (f r) else r) l,
           map (fun r => Db.update_updated_at_column now (f r))
               (filter (Db.selects srv w) l)).
Proof.
  intros Hf. induction l as [|r l IH]; [reflexivity|].
  cbn [Db.update_rows]. rewrite IH. cbn [Db.bind].
  cbn [map filter]. destruct (Db.selects srv w r).
  - rewrite Hf. reflexivity.
  - reflexivity.
Qed.

Lemma filter_has_id_unique (i : Z) (l : list Db.task) (r : Db.task) :
  NoDup (map Db.id l) -> In r l -> Db.id r = i -> filter (has_id i) l = [r].
Proof.
  intros Hnd Hin Hid. induction l as [|x l IH]; [destruct Hin|].
  cbn in Hnd. inversion Hnd as [|? ? Hx Hl]; subst.
  cbn [filter]. destruct Hin as [->|Hin].
  - unfold has_id at 1. rewrite Z.eqb_refl.
    f_equal. apply filter_has_id_nil. exact Hx.
  - unfold has_id at 1. destruct (Z.eqb_spec (Db.id x) (Db.id r)) as [E|E].
    + exfalso. apply Hx. rewrite E. apply in_map, Hin.
    + apply IH; assumption.
Qed.

End Storing.

(** ** What validation leaves through *)

Section Validated.
Import Js Validation TaskSpec.

Variable isISO8601 : string -> bool.
Variable isIsoDate : string -> bool.

Lemma first_error_nil (l : list (list detail)) :
  first_error l = [] -> Forall (fun e => e = []) l.
Proof.
  induction l as [|[|d e] l IH]; cbn.
  - constructor.
  - intros H. constructor; [reflexivity | apply IH, H].
  - discriminate.
Qed.

Lemma joi_string_nil key lo hi v :
  joi_string key lo hi v = [] ->
  exists s, v = Str s /\ s <> "" /\ (lo <= String.length s <= hi)%nat.
Proof.
  destruct v as [| |b|s]; unfold joi_string; try discriminate.
  destruct (String.eqb_spec s ""); [discriminate|].
  destruct (Nat.ltb_spec (String.length s) lo); [discriminate|].
  destruct (Nat.ltb_spec hi (String.length s)); [discriminate|].
  intros _. exists s. repeat split; assumption.
Qed.

Lemma joi_optional_nil v rest :
  joi_optional v rest = [] -> v = Undefined \/ rest = [].
Proof. destruct v; cbn; auto. Qed.

Lemma joi_valid_nil key allowed v :
  joi_valid key allowed v = [] -> exists s, v = Str s /\ Str.mem s allowed = true.
Proof.
  destruct v as [| |b|s]; unfold joi_valid; try discriminate.
  destruct (Str.mem s allowed) eqn:E; [|discriminate].
  intros _. exists s. split; [reflexivity | exact E].
Qed.

Lemma joi_date_iso_nil key v :
  joi_date_iso isIsoDate key v = [] -> exists s, v = Str s /\ isIsoDate s = true.
Proof.
  destruct v as [| |b|s]; unfold joi_date_iso; try discriminate.
  destruct (isIsoDate s) eqn:E; [|discriminate].
  intros _. exists s. split; [reflexivity | exact E].
Qed.

Lemma joi_boolean_nil key v :
  joi_boolean key v = [] ->
  (exists b, v = Bool b) \/
  (exists s, v = Str s /\ Str.mem (Str.lower s) ["true"; "false"] = true).
Proof.
  destruct v as [| |b|s]; unfold joi_boolean; try discriminate.
  - intros _. left. exists b. reflexivity.
  - destruct (Str.mem (Str.lower s) ["true"; "false"]) eqn:E; [|discriminate].
    intros _. right. exists s. split; [reflexivity | exact E].
Qed.

Lemma check_nil ok m : check ok m = [] -> ok = true.
Proof. destruct ok; [reflexivity | discriminate]. Qed.

(** The two layers together take, for [completed], a boolean or one of the
    strings [true] and [false]. *)
Lemma completed_accepted v m :
  joi_optional v (joi_boolean "completed" v) = [] ->
  optional v (check (isBoolean (toString v)) m) = [] ->
  absent_or_accepted Sql.Ccompleted v.
Proof.
  intros HJ HE. apply joi_optional_nil in HJ.
  destruct HJ as [-> | HJ]; [left; reflexivity|].
  apply joi_boolean_nil in HJ. right. cbn [accepted].
  destruct HJ as [(b & ->) | (s & -> & Hs)]; [left; exists b; reflexivity|].
  right. cbn [optional toString] in HE. apply check_nil in HE.
  unfold isBoolean, Str.mem in HE. cbn [existsb] in HE.
  rewrite !orb_true_iff, !String.eqb_eq in HE.
  destruct HE as [-> | [-> | [-> | [-> | H]]]]; try discriminate; auto.
Qed.

(** The body fields other than the title, once both layers pass. *)
Lemma rest_accepted (b : body) :
  first_error
    [ joi_optional (b_description b) (joi_string "description" 0 1000 (b_description b));
      joi_optional (b_priority b) (joi_valid "priority" ["low"; "medium"; "high"] (b_priority b));
      joi_optional (b_dueDate b) (joi_date_iso isIsoDate "dueDate" (b_dueDate b));
      joi_optional (b_completed b) (joi_boolean "completed" (b_completed b)) ] = [] ->
  common_chains isISO8601 b = [] ->
  absent_or_accepted Sql.Cdescription (b_description b) /\
  absent_or_accepted Sql.Cpriority (b_priority b) /\
  absent_or_accepted Sql.Cdue_date (b_dueDate b) /\
  absent_or_accepted Sql.Ccompleted (b_completed b).
Proof.
  intros HJ HE. apply first_error_nil in HJ.
  inversion HJ as [|? ? Hd HJ1]; subst. inversion HJ1 as [|? ? Hp HJ2]; subst.
  inversion HJ2 as [|? ? Hdu HJ3]; subst. inversion HJ3 as [|? ? Hc _]; subst.
  unfold common_chains in HE.
  apply app_eq_nil in HE. destruct HE as [_ HE].
  apply app_eq_nil in HE. destruct HE as [_ HE].
  apply app_eq_nil in HE. destruct HE as [_ HE].
  unfold absent_or_accepted. repeat split.
  - apply joi_optional_nil in Hd. destruct Hd as [Hd|Hd]; [left; exact Hd|].
    right. apply joi_string_nil in Hd. destruct Hd as (s & -> & Hne & _ & Hl).
    exists s. auto.
  - apply joi_optional_nil in Hp. destruct Hp as [Hp|Hp]; [left; exact Hp|].
    right. apply joi_valid_nil in Hp. exact Hp.
  - apply joi_optional_nil in Hdu. destruct Hdu as [Hdu|Hdu]; [left; exact Hdu|].
    right. apply joi_date_iso_nil in Hdu. destruct Hdu as (s & -> & _).
    exists s. reflexivity.
  - eapply completed_accepted; eassumption.
Qed.

Lemma first_error_cons_nil e l : first_error (e :: l) = [] -> e = [] /\ first_error l = [].
Proof. destruct e; cbn; [auto | discriminate]. Qed.

Lemma update_schema_accepted (b : body) :
  updateTaskSchema isIsoDate b = [] ->
  common_chains isISO8601 b = [] ->
  absent_or_accepted Sql.Ctitle (b_title b) /\
  absent_or_accepted Sql.Cdescription (b_description b) /\
  absent_or_accepted Sql.Cpriority (b_priority b) /\
  absent_or_accepted Sql.Cdue_date (b_dueDate b) /\
  absent_or_accepted Sql.Ccompleted (b_completed b).
Proof.
  unfold updateTaskSchema. intros HJ HE.
  apply first_error_cons_nil in HJ. destruct HJ as [Ht HJ].
  split; [|apply rest_accepted; assumption].
  apply joi_optional_nil in Ht. destruct Ht as [Ht|Ht]; [left; exact Ht|].
  right. apply joi_string_nil in Ht. destruct Ht as (s & -> & Hne & _ & Hl).
  exists s. auto.
Qed.

Lemma create_schema_accepted (b : body) :
  createTaskSchema isIsoDate b = [] ->
  common_chains isISO8601 b = [] ->
  accepted Sql.Ctitle (b_title b) /\
  absent_or_accepted Sql.Cdescription (b_description b) /\
  absent_or_accepted Sql.Cpriority (b_priority b) /\
  absent_or_accepted Sql.Cdue_date (b_dueDate b) /\
  absent_or_accepted Sql.Ccompleted (b_completed b).
Proof.
  unfold createTaskSchema. intros HJ HE.
  apply first_error_cons_nil in HJ. destruct HJ as [Ht HJ].
  split; [|apply rest_accepted; assumption].
  destruct (b_title b) as [| |x|s] eqn:E; cbn [joi_required] in Ht;
    try discriminate.
  apply joi_string_nil in Ht. destruct Ht as (s' & [= <-] & Hne & _ & Hl).
  exists s. auto.
Qed.

Lemma accepted_defined c v : accepted c v -> defined v = true.
Proof.
  destruct c; cbn; try tauto.
  - intros (t & -> & _); reflexivity.
  - intros (t & -> & _); reflexivity.
  - intros (t & -> & _); reflexivity.
  - intros (t & ->); reflexivity.
  - intros [(b & ->) | [-> | ->]]; reflexivity.
Qed.

End Validated.

(** ** What an UPDATE leaves alone *)

Section UpdateFrame.
Import Js Validation TaskSpec Todos Http.

Lemma set_col_frame srv c v r r' c' :
  Db.set_col srv c v r = Db.Ok r' -> c' <> c -> Db.cell r' c' = Db.cell r c'.
Proof.
  unfold Db.set_col, Db.bind.
  destruct (Db.coerce srv (Db.col_ty c) v) as [v'|]; [|discriminate].
  destruct c, v'; try discriminate;
    repeat match goal with
           | |- context [if ?b then _ else _] => destruct b
           end;
    try discriminate; intros [= <-] Hne; destruct c'; try reflexivity;
    congruence.
Qed.

Lemma apply_sets_frame srv now ps sets r r' c' :
  Db.apply_sets srv now ps sets r = Db.Ok r' ->
  ~ In c' (map fst sets) -> Db.cell r' c' = Db.cell r c'.
Proof.
  revert r; induction sets as [|[c e] sets IH]; intros r; cbn.
  - intros [= <-] _; reflexivity.
  - unfold Db.bind.
    destruct (Db.eval_expr now ps e) as [v|]; [|discriminate].
    destruct (Db.set_col srv c v r) as [r1|] eqn:E; [|discriminate].
    intros H Hn. rewrite (IH _ H) by tauto.
    eapply set_col_frame; [exact E | intros ->; tauto].
Qed.

Lemma update_rows_frame srv now ps sets w l tbl ret :
  Db.update_rows srv now ps sets w l = Db.Ok (tbl, ret) ->
  Forall2 (fun x x' => forall c', ~ In c' (map fst sets) ->
                                  c' <> Sql.Cupdated_at ->
                                  Db.cell x' c' = Db.cell x c') l tbl.
Proof.
  revert tbl ret; induction l as [|r l IH]; intros tbl ret; cbn.
  - intros [= <- <-]; constructor.
  - unfold Db.bind at 1.
    destruct (Db.update_rows srv now ps sets w l) as [[tbl' ret']|]; [|discriminate].
    specialize (IH _ _ eq_refl).
    destruct (Db.selects srv w r).
    + unfold Db.bind.
      destruct (Db.apply_sets srv now ps sets r) as [r'|] eqn:E; [|discriminate].
      intros [= <- <-]. constructor; [|exact IH].
      intros c' Hn Hu. rewrite <- (apply_sets_frame _ _ _ _ _ _ c' E Hn).
      destruct c'; try reflexivity. congruence.
    + intros [= <- <-]. constructor; [|exact IH]. reflexivity.
Qed.

Lemma Forall2_same {A} (R : A -> A -> Prop) (l : list A) :
  (forall x, R x x) -> Forall2 R l l.
Proof. intros H; induction l; constructor; auto. Qed.

Lemma kept_refl b x : kept b x x.
Proof. unfold kept. tauto. Qed.

(** The UPDATE of the route writes only the columns of the fields that are
    present, and [updated_at]. *)
Lemma update_text_columns (b : body) :
  match update_fields b with
  | ([], _, _) => True
  | (updateFields, _, paramCount) =>
      exists sets w,
        Sql.parse ("UPDATE tasks SET "
                     ^^ String.concat ", " (updateFields ++ ["updated_at = NOW()"])
                     ^^ " WHERE id = $" ^^ Str.of_nat (paramCount + 1)
                     ^^ " RETURNING *")
          = Some (Sql.Update sets w) /\
        forall c, In c (map fst sets) -> field_present b c = true
  end.
Proof.
  destruct b as [t d p du c]. unfold update_fields, field_present.
  cbn [b_title b_description b_priority b_dueDate b_completed].
  destruct (defined t), (defined d), (defined p), (defined du), (defined c);
    cbn [app Nat.add]; try exact I;
    match goal with
    | |- context [Sql.parse ?t] =>
        let v := eval vm_compute in (Sql.parse t) in
        replace (Sql.parse t) with v by (vm_compute; reflexivity)
    end;
    do 2 eexists; (split; [reflexivity|]);
    cbn [map fst In]; intros col Hc;
    repeat destruct Hc as [<- | Hc]; try reflexivity; destruct Hc.
Qed.

Lemma cells_kept (b : body) (x x' : Db.task) :
  (forall c, field_present b c = false -> Db.cell x' c = Db.cell x c) ->
  kept b x x'.
Proof.
  intros H. unfold kept.
  pose proof (H Sql.Cid eq_refl) as Hid.
  pose proof (H Sql.Ccreated_at eq_refl) as Hcr.
  cbn in Hid, Hcr. repeat split; try congruence.
  - intros E. specialize (H Sql.Ctitle). cbn in H. rewrite E in H.
    specialize (H eq_refl). congruence.
  - intros E. specialize (H Sql.Cdescription). cbn in H. rewrite E in H.
    specialize (H eq_refl).
    destruct (Db.description x'), (Db.description x); congruence.
  - intros E. specialize (H Sql.Cpriority). cbn in H. rewrite E in H.
    specialize (H eq_refl). congruence.
  - intros E. specialize (H Sql.Cdue_date). cbn in H. rewrite E in H.
    specialize (H eq_refl).
    destruct (Db.due_date x'), (Db.due_date x); congruence.
  - intros E. specialize (H Sql.Ccompleted). cbn in H. rewrite E in H.
    specialize (H eq_refl). congruence.
Qed.

Lemma kept_same_fields (b b' : body) (x x' : Db.task) :
  (b_title b = Undefined -> b_title b' = Undefined) ->
  b_description b' = b_description b -> b_priority b' = b_priority b ->
  b_dueDate b' = b_dueDate b -> b_completed b' = b_completed b ->
  kept b' x x' -> kept b x x'.
Proof.
  unfold kept. intros Ht -> -> -> ->. tauto.
Qed.

Variable isISO8601 : string -> bool.
Variable isIsoDate : string -> bool.

(** Whatever the request, every row keeps the fields the body leaves
    out. *)
Lemma put_task_frame srv (now : Z) (st : Db.state) (i : Z) (b : body) :
  Forall2 (kept b) (Db.rows st)
          (Db.rows (fst (put_task srv isISO8601 isIsoDate now st i b))).
Proof.
  assert (Hsame : Forall2 (kept b) (Db.rows st) (Db.rows st))
    by (apply Forall2_same, kept_refl).
  unfold put_task.
  assert (Hb : let b' := fst (put_chains isISO8601 b) in
               (b_title b = Undefined -> b_title b' = Undefined) /\
               b_description b' = b_description b /\
               b_priority b' = b_priority b /\
               b_dueDate b' = b_dueDate b /\ b_completed b' = b_completed b).
  { unfold put_chains. destruct (b_title b) eqn:Et; cbn; rewrite ?Et;
      repeat split; intros; congruence. }
  destruct (put_chains isISO8601 b) as [b' errs]. cbn [fst] in Hb.
  destruct Hb as (F1 & F2 & F3 & F4 & F5).
  destruct (validateRequest _ b'); [exact Hsame|].
  destruct (id_chain i ++ errs); [|exact Hsame].
  rewrite query_select_by_id.
  destruct (Db.in_range Db.int4_min Db.int4_max i) as [j|]; cbn [Db.bind rows_of];
    [|exact Hsame].
  destruct (filter (has_id j) (Db.rows st)); [exact Hsame|].
  pose proof (update_text_columns b') as Hcols.
  destruct (update_fields b') as [[fields values] k].
  destruct fields as [|f fs]; [exact Hsame|].
  destruct Hcols as (sets & w & Hparse & Hin).
  unfold Db.query. rewrite Hparse. unfold Db.run.
  destruct (negb _); [exact Hsame|].
  destruct (Db.bind_where _ _ w) as [bw|]; [|exact Hsame]. cbn [Db.bind].
  destruct (Db.update_rows srv now _ sets bw (Db.rows st)) as [[tbl ret]|] eqn:E;
    [|exact Hsame].
  cbn [Db.bind fst Db.rows].
  apply update_rows_frame in E.
  eapply Forall2_impl; [|exact E].
  intros x x' Hx. apply (kept_same_fields b b'); try assumption.
  apply cells_kept. intros c Hc. apply Hx.
  - intros Hc'. apply Hin in Hc'. congruence.
  - intros ->. discriminate Hc.
Qed.

End UpdateFrame.

(** ** The partial update *)

Section PutTask.
Import Js Validation TaskSpec Todos Http.

Lemma update_by_id_result srv (now : Z) (st : Db.state) (i : Z)
      (f : Db.task -> Db.task) (r : Db.task) :
  NoDup (ids st) -> In r (Db.rows st) -> Db.id r = i ->
  (forall x, Db.update_updated_at_column now (f x) = f x) ->
  (map (fun x => if Db.selects srv [Db.BEq Sql.Cid (Db.VInt i)] x
                 then Db.update_updated_at_column now (f x) else x) (Db.rows st),
   map (fun x => Db.update_updated_at_column now (f x))
       (filter (Db.selects srv [Db.BEq Sql.Cid (Db.VInt i)]) (Db.rows st)))
  = (map (fun x => if has_id i x then f x else x) (Db.rows st), [f r]).
Proof.
  intros Hnd Hin Hid Hf. f_equal.
  - apply map_ext. intros x. rewrite selects_by_id, Hf. reflexivity.
  - rewrite (filter_ext _ _ (selects_by_id srv i)).
    rewrite (filter_has_id_unique i _ r Hnd Hin Hid). cbn. rewrite Hf. reflexivity.
Qed.

Lemma priority_takes srv (v : value) :
  accepted Sql.Cpriority v -> Db.takes srv Sql.Cpriority (to_db v) = true.
Proof.
  intros (p & -> & Hp). apply mem_priority in Hp.
  destruct Hp as [-> | [-> | ->]]; reflexivity.
Qed.

Lemma completed_takes srv (v : value) :
  accepted Sql.Ccompleted v -> Db.takes srv Sql.Ccompleted (to_db v) = true.
Proof. intros [(b & ->) | [-> | ->]]; reflexivity. Qed.

Lemma update_statement_spec srv (now : Z) (st : Db.state) (i : Z) (b : body)
      (r : Db.task) :
  absent_or_accepted Sql.Ctitle (b_title b) ->
  absent_or_accepted Sql.Cdescription (b_description b) ->
  absent_or_accepted Sql.Cpriority (b_priority b) ->
  absent_or_accepted Sql.Cdue_date (b_dueDate b) ->
  absent_or_accepted Sql.Ccompleted (b_completed b) ->
  storable srv b = true ->
  NoDup (ids st) -> In r (Db.rows st) -> Db.id r = i ->
  (1 <= i <= Db.int4_max)%Z ->
  match update_fields b with
  | ([], _, _) => b = empty_body
  | (updateFields, values, paramCount) =>
      Db.query srv now st
        ("UPDATE tasks SET "
           ^^ String.concat ", " (updateFields ++ ["updated_at = NOW()"])
           ^^ " WHERE id = $" ^^ Str.of_nat (paramCount + 1) ^^ " RETURNING *")
        (values ++ [Db.VInt i])
      = Db.Ok (Db.mkState (map (fun x => if has_id i x then patch srv b now x else x)
                               (Db.rows st))
                          (Db.next_id st),
               Db.Rows [patch srv b now r])
  end.
Proof.
  intros Ht Hd Hp Hdu Hc Hst Hnd Hin Hid Hi.
  destruct b as [t d p du c]. unfold storable in Hst.
  cbn [b_title b_description b_priority b_dueDate b_completed] in *.
  apply andb_prop in Hst. destruct Hst as [Hst Tdu].
  apply andb_prop in Hst. destruct Hst as [Tt Td].
  unfold update_fields.
  cbn [b_title b_description b_priority b_dueDate b_completed].
  destruct Ht as [-> | Ht]; [|pose proof (accepted_defined _ _ Ht) as Dt; rewrite Dt];
  (destruct Hd as [-> | Hd]; [|pose proof (accepted_defined _ _ Hd) as Dd; rewrite Dd]);
  (destruct Hp as [-> | Hp];
   [|pose proof (accepted_defined _ _ Hp) as Dp; rewrite Dp;
     pose proof (priority_takes srv _ Hp) as Tp]);
  (destruct Hdu as [-> | Hdu]; [|pose proof (accepted_defined _ _ Hdu) as Ddu; rewrite Ddu]);
  (destruct Hc as [-> | Hc];
   [|pose proof (accepted_defined _ _ Hc) as Dc; rewrite Dc;
     pose proof (completed_takes srv _ Hc) as Tc]);
  cbn [defined app Nat.add]; try reflexivity.
  all: unfold Db.query;
    match goal with
    | |- context [Sql.parse ?t] =>
        let v := eval vm_compute in (Sql.parse t) in
        replace (Sql.parse t) with v by (vm_compute; reflexivity)
    end.
  all: unfold Db.run;
    cbn -[patch has_id Db.update_rows Db.selects to_db Db.in_range];
    rewrite (int4_inside i Hi);
    cbn -[patch has_id Db.update_rows Db.selects to_db].
  all: match goal with
       | |- context [Db.update_rows ?s ?n ?ps ?sets ?w ?l] =>
           match goal with
           | |- context [patch _ ?B _ _] =>
               rewrite (update_rows_spec s n ps sets w (fun x => patch s B n x) l)
           end
       end.
  all: try (intros x;
            cbn [Db.apply_sets Db.eval_expr Db.param nth_error Db.bind];
            repeat (rewrite set_col_accepted by assumption; cbn [Db.bind]);
            rewrite set_col_updated_at; unfold patch;
            cbn [b_title b_description b_priority b_dueDate b_completed];
            repeat match goal with
                   | D : defined _ = true |- _ => rewrite D; clear D
                   end;
            reflexivity).
  all: rewrite (update_by_id_result _ _ _ _ _ _ Hnd Hin Hid)
         by (intros x; reflexivity);
       reflexivity.
Qed.

Lemma unique_row (l : list Db.task) (r x : Db.task) :
  NoDup (map Db.id l) -> In r l -> In x l -> Db.id x = Db.id r -> x = r.
Proof.
  induction l as [|y l IH]; [intros _ []|].
  cbn. intros Hnd [->|Hr] [->|Hx] E; inversion Hnd as [|? ? Hy Hl]; subst.
  - reflexivity.
  - exfalso. apply Hy. rewrite <- E. apply in_map, Hx.
  - exfalso. apply Hy. rewrite E. apply in_map, Hr.
  - apply IH; assumption.
Qed.

Lemma put_chains_fields isISO8601 (b : body) :
  let b' := fst (put_chains isISO8601 b) in
  b_title b' = match b_title b with
               | Undefined => Undefined
               | v => Str (Str.trim (toString v))
               end /\
  b_description b' = b_description b /\
  b_priority b' = b_priority b /\
  b_dueDate b' = b_dueDate b /\
  b_completed b' = b_completed b /\
  (snd (put_chains isISO8601 b) = [] -> common_chains isISO8601 b' = []).
Proof.
  unfold put_chains. destruct (b_title b) eqn:E; cbn [fst snd b_title
    b_description b_priority b_dueDate b_completed]; repeat split; auto;
    intros H; apply app_eq_nil in H; apply H.
Qed.

Lemma patch_fields srv (b : body) (now : Z) (r : Db.task) :
  let r' := patch srv b now r in
  Db.id r' = Db.id r /\ Db.created_at r' = Db.created_at r /\
  Db.updated_at r' = now /\
  Db.title r' = (if defined (b_title b) then toString (b_title b) else Db.title r) /\
  Db.description r' = (if defined (b_description b)
                       then Some (toString (b_description b)) else Db.description r) /\
  Db.priority r' = (if defined (b_priority b)
                    then toString (b_priority b) else Db.priority r) /\
  Db.due_date r' = (if defined (b_dueDate b)
                    then instant srv (b_dueDate b) else Db.due_date r) /\
  Db.completed r' = (if defined (b_completed b)
                     then flag_of (b_completed b) else Db.completed r).
Proof.
  unfold patch, apply_if.
  destruct (defined (b_title b)), (defined (b_description b)),
    (defined (b_priority b)), (defined (b_dueDate b)), (defined (b_completed b));
    repeat split; reflexivity.
Qed.

Variable isISO8601 : string -> bool.
Variable isIsoDate : string -> bool.

(** C5: whatever the body of a PUT, every row of the table keeps, in the
    fields the body leaves out, the value it had, and its [id] and
    [created_at].  When the request passes validation, the table can
    hold its texts (title and description without U+0000, a due date the
    server reads), identifiers are unique and [r] is the task with the
    identifier asked for, one the [id] column can hold: with no field in
    the body the answer is 400 and the table is as before; otherwise the
    answer is 200 with the new row, which replaces [r] and nothing else;
    a field absent from the body keeps the value it had, a field present
    takes the value sent (the title trimmed, the due date as the instant
    the server reads it as), and [updated_at] is the clock reading. *)
Theorem put_keeps_unspecified_fields srv (now : Z) (st : Db.state) (i : Z)
        (b : body) :
  Forall2 (kept b) (Db.rows st)
          (Db.rows (fst (put_task srv isISO8601 isIsoDate now st i b))) /\
  forall r : Db.task,
  NoDup (ids st) -> In r (Db.rows st) -> Db.id r = i ->
  (1 <= i <= 2147483647)%Z ->
  snd (put_chains isISO8601 b) = [] ->
  updateTaskSchema isIsoDate (fst (put_chains isISO8601 b)) = [] ->
  storable srv (fst (put_chains isISO8601 b)) = true ->
  (b = empty_body /\
   put_task srv isISO8601 isIsoDate now st i b
     = (st, Send (mkResponse 400 (JError "No fields to update" [])))) \/
  (b <> empty_body /\
   exists r',
     put_task srv isISO8601 isIsoDate now st i b
       = (Db.mkState (map (fun x => if has_id i x then r' else x) (Db.rows st))
                     (Db.next_id st),
          Send (mkResponse 200 (JTask (Some r')))) /\
     Db.id r' = Db.id r /\ Db.created_at r' = Db.created_at r /\
     Db.updated_at r' = now /\
     Db.title r' = match b_title b with
                   | Undefined => Db.title r
                   | v => Str.trim (toString v)
                   end /\
     Db.description r' = match b_description b with
                         | Undefined => Db.description r
                         | v => Some (toString v)
                         end /\
     Db.priority r' = match b_priority b with
                      | Undefined => Db.priority r
                      | v => toString v
                      end /\
     Db.due_date r' = match b_dueDate b with
                      | Undefined => Db.due_date r
                      | v => instant srv v
                      end /\
     Db.completed r' = match b_completed b with
                       | Undefined => Db.completed r
                       | v => flag_of v
                       end).
Proof.
  split; [apply put_task_frame|].
  intros r Hnd Hin Hid Hi Herr HJoi Hst.
  change 2147483647%Z with Db.int4_max in Hi.
  destruct (put_chains_fields isISO8601 b) as (Ft & Fd & Fp & Fdu & Fc & Fcc).
  specialize (Fcc Herr).
  destruct (update_schema_accepted isISO8601 isIsoDate _ HJoi Fcc)
    as (At & Ad & Ap & Adu & Ac).
  pose proof (update_statement_spec srv now st i _ r At Ad Ap Adu Ac Hst
                Hnd Hin Hid Hi) as Hq.
  pose proof (patch_fields srv (fst (put_chains isISO8601 b)) now r) as Hf.
  unfold put_task.
  destruct (put_chains isISO8601 b) as [b' errs]. cbn [fst snd] in *. subst errs.
  unfold validateRequest. rewrite HJoi.
  rewrite id_chain_valid by lia. cbn [app].
  rewrite query_select_by_id, int4_inside by assumption. cbn [Db.bind].
  rewrite (filter_has_id_unique i _ r Hnd Hin Hid).
  cbn [rows_of].
  destruct (update_fields b') as [[fields values] k] eqn:Eu.
  destruct fields as [|f fs].
  - left. split; [|reflexivity].
    subst b'. destruct b as [t d p du c].
    cbn [b_title b_description b_priority b_dueDate b_completed empty_body] in *.
    subst. destruct t; try discriminate. reflexivity.
  - right. split.
    + intros ->. cbn in Ft, Fd, Fp, Fdu, Fc.
      destruct b' as [t d p du c].
      cbn [b_title b_description b_priority b_dueDate b_completed] in *.
      subst. discriminate.
    + rewrite Hq. cbn [rows_of hd_error].
      exists (patch srv b' now r). split.
      { do 2 f_equal. apply map_ext_in. intros x Hx. unfold has_id.
        destruct (Z.eqb_spec (Db.id x) i) as [E|E]; [|reflexivity].
        rewrite (unique_row _ r x Hnd Hin Hx) by congruence. reflexivity. }
      cbn zeta in Hf. rewrite Ft, Fd, Fp, Fdu, Fc in Hf.
      destruct Hf as (H1 & H2 & H3 & H4 & H5 & H6 & H7 & H8).
      repeat split; try assumption.
      * rewrite H4. destruct (b_title b); reflexivity.
      * rewrite H5. destruct (b_description b); reflexivity.
      * rewrite H6. destruct (b_priority b); reflexivity.
      * rewrite H7. destruct (b_dueDate b); reflexivity.
      * rewrite H8. destruct (b_completed b); reflexivity.
Qed.

End PutTask.

(** ** Creation *)

Section PostTask.
Import Js Validation TaskSpec Todos Http.

Lemma parse_insert :
  Sql.parse "INSERT INTO tasks (title, description, priority, due_date, completed) VALUES ($1, $2, $3, $4, $5) RETURNING *"
    = Some (Sql.Insert
              [Sql.Ctitle; Sql.Cdescription; Sql.Cpriority; Sql.Cdue_date; Sql.Ccompleted]
              [1; 2; 3; 4; 5]%nat).
Proof. vm_compute; reflexivity. Qed.

Lemma or_description v :
  absent_or_accepted Sql.Cdescription v -> to_db (or v Null) = to_db v.
Proof.
  intros [-> | (d & -> & Hd & _)]; [reflexivity|].
  unfold or, truthy. apply String.eqb_neq in Hd. rewrite Hd. reflexivity.
Qed.

Lemma store_description srv v r :
  absent_or_accepted Sql.Cdescription v ->
  Db.takes srv Sql.Cdescription (to_db v) = true ->
  Db.set_col srv Sql.Cdescription (to_db (or v Null)) r
    = Db.Ok (with_description (match v with Str d => Some d | _ => None end) r).
Proof.
  intros Hv Ht. rewrite (or_description v Hv).
  destruct Hv as [-> | Hv]; [reflexivity|].
  rewrite set_col_accepted by assumption.
  destruct Hv as (d & -> & _). reflexivity.
Qed.

Lemma store_priority srv v r :
  absent_or_accepted Sql.Cpriority v ->
  Db.set_col srv Sql.Cpriority (to_db (or v (Str "medium"))) r
    = Db.Ok (with_priority (match v with Str p => p | _ => "medium" end) r).
Proof.
  intros [-> | (p & -> & Hp)]; [reflexivity|].
  apply mem_priority in Hp. destruct Hp as [-> | [-> | ->]]; reflexivity.
Qed.

Lemma store_due_date srv v r :
  absent_or_accepted Sql.Cdue_date v ->
  Db.takes srv Sql.Cdue_date (to_db (or v Null)) = true ->
  Db.set_col srv Sql.Cdue_date (to_db (or v Null)) r
    = Db.Ok (with_due_date (instant srv (or v Null)) r).
Proof.
  intros [-> | (d & ->)] Ht; [reflexivity|].
  unfold or, truthy in *. destruct (d =? ""); cbn [negb] in *; [reflexivity|].
  rewrite set_col_accepted; [reflexivity | exists d; reflexivity | exact Ht].
Qed.

Lemma store_completed srv v r :
  absent_or_accepted Sql.Ccompleted v ->
  Db.set_col srv Sql.Ccompleted (to_db (or v (Bool false))) r
    = Db.Ok (with_completed (flag_of v) r).
Proof.
  intros [-> | [([|] & ->) | [-> | ->]]]; reflexivity.
Qed.

Variable isISO8601 : string -> bool.
Variable isIsoDate : string -> bool.

Lemma post_chains_fields (b : body) :
  let b' := fst (post_chains isISO8601 b) in
  b_title b' = Str (Str.trim (toString (b_title b))) /\
  b_description b' = b_description b /\
  b_priority b' = b_priority b /\
  b_dueDate b' = b_dueDate b /\
  b_completed b' = b_completed b /\
  (snd (post_chains isISO8601 b) = [] -> common_chains isISO8601 b' = []).
Proof.
  unfold post_chains. cbn. repeat split; auto.
  intros H; apply app_eq_nil in H; apply H.
Qed.

(** POST /tasks on a body both layers accept and the table can hold. *)
Lemma post_task_spec srv (now : Z) (st : Db.state) (b : body) :
  snd (post_chains isISO8601 b) = [] ->
  createTaskSchema isIsoDate (fst (post_chains isISO8601 b)) = [] ->
  insertable srv (fst (post_chains isISO8601 b)) = true ->
  let r := created srv (fst (post_chains isISO8601 b)) now (Db.next_id st) in
  post_task srv isISO8601 isIsoDate now st b
    = (Db.mkState (Db.rows st ++ [r]) (Db.next_id st + 1),
       Send (mkResponse 201 (JTask (Some r)))).
Proof.
  intros Herr HJoi Hins.
  destruct (post_chains_fields b) as (_ & _ & _ & _ & _ & Fcc).
  specialize (Fcc Herr).
  destruct (create_schema_accepted isISO8601 isIsoDate _ HJoi Fcc)
    as (At & Ad & Ap & Adu & Ac).
  unfold insertable in Hins.
  apply andb_prop in Hins. destruct Hins as [Hins Tdu].
  apply andb_prop in Hins. destruct Hins as [Tt Td].
  unfold post_task.
  destruct (post_chains isISO8601 b) as [b' errs]. cbn [fst snd] in *. subst errs.
  unfold validateRequest. rewrite HJoi.
  unfold Db.query. rewrite parse_insert. unfold Db.run.
  cbn [List.length Db.arity Db.stmt_params list_max fold_right Nat.max Nat.eqb negb].
  cbn [Db.insert_cols Db.param nth_error Db.bind].
  rewrite (set_col_accepted srv _ _ _ At Tt). cbn [Db.bind].
  rewrite (store_description srv _ _ Ad Td). cbn [Db.bind].
  rewrite (store_priority srv _ _ Ap). cbn [Db.bind].
  rewrite (store_due_date srv _ _ Adu Tdu). cbn [Db.bind].
  rewrite (store_completed srv _ _ Ac). cbn [Db.bind].
  reflexivity.
Qed.

(** POST /tasks on a body both layers accept and the table cannot hold:
    the INSERT fails, the error goes to the error handler and nothing is
    stored. *)
Lemma post_task_refused srv (now : Z) (st : Db.state) (b : body) :
  snd (post_chains isISO8601 b) = [] ->
  createTaskSchema isIsoDate (fst (post_chains isISO8601 b)) = [] ->
  insertable srv (fst (post_chains isISO8601 b)) = false ->
  exists code,
    post_task srv isISO8601 isIsoDate now st b
      = (st, Next (database_error code)).
Proof.
  intros Herr HJoi Hins.
  destruct (post_chains_fields b) as (_ & _ & _ & _ & _ & Fcc).
  specialize (Fcc Herr).
  destruct (create_schema_accepted isISO8601 isIsoDate _ HJoi Fcc)
    as (At & Ad & Ap & Adu & Ac).
  unfold insertable in Hins.
  unfold post_task.
  destruct (post_chains isISO8601 b) as [b' errs]. cbn [fst snd] in *. subst errs.
  unfold validateRequest. rewrite HJoi.
  unfold Db.query. rewrite parse_insert. unfold Db.run.
  cbn [List.length Db.arity Db.stmt_params list_max fold_right Nat.max Nat.eqb negb].
  cbn [Db.insert_cols Db.param nth_error Db.bind].
  destruct (Db.takes srv Sql.Ctitle (to_db (b_title b'))) eqn:Tt.
  2:{ destruct (set_col_refused srv _ _
                  (Db.mkTask (Db.next_id st) "" None "medium" None false now now) Tt)
        as (code & ->).
      exists code. reflexivity. }
  rewrite (set_col_accepted srv _ _ _ At Tt). cbn [Db.bind].
  destruct (Db.takes srv Sql.Cdescription (to_db (b_description b'))) eqn:Td.
  2:{ rewrite (or_description _ Ad).
      match goal with
      | |- context [Db.set_col srv Sql.Cdescription ?v ?x] =>
          destruct (set_col_refused srv _ v x Td) as (code & ->)
      end.
      exists code. reflexivity. }
  rewrite (store_description srv _ _ Ad Td). cbn [Db.bind].
  rewrite (store_priority srv _ _ Ap). cbn [Db.bind].
  cbn [andb] in Hins.
  match goal with
  | |- context [Db.set_col srv Sql.Cdue_date ?v ?x] =>
      destruct (set_col_refused srv _ v x Hins) as (code & ->)
  end.
  exists code. reflexivity.
Qed.

End PostTask.

(** ** Claims about creation *)

Section PostClaims.
Import Js Validation TaskSpec Todos Http.

Variable isISO8601 : string -> bool.
Variable isIsoDate : string -> bool.


Lemma first_error_all_nil (l : list (list detail)) :
  Forall (fun e => e = []) l -> first_error l = [].
Proof.
  induction 1 as [|e l -> _ IH]; [reflexivity | exact IH].
Qed.

Lemma insertable_description srv (b : body) (d : string) :
  insertable srv (fst (post_chains isISO8601 (with_body_description Undefined b)))
    = true ->
  Str.nul_free d = true ->
  insertable srv (fst (post_chains isISO8601 (with_body_description (Str d) b)))
    = true.
Proof.
  unfold insertable, post_chains, with_body_description.
  cbn [fst b_title b_description b_priority b_dueDate b_completed].
  intros H Hd. apply andb_prop in H. destruct H as [H Hdu].
  apply andb_prop in H. destruct H as [Ht _].
  rewrite Ht, Hdu. cbn [to_db]. rewrite takes_text by reflexivity.
  rewrite Hd. reflexivity.
Qed.

(** C7, amended: on a request that is valid without its description and
    that the table can hold (a title without U+0000, a due date the
    server reads, a serial counter within the [id] column), a
    description that is a non-empty string of at most 1000 characters,
    none of them U+0000, passes validation and the task is created, 201,
    with that description; without a description the task is created
    with none.  The empty string and [null] do not pass: the answer is
    400 and nothing is stored. *)
Theorem post_description_accepted srv (now : Z) (st : Db.state) (b : body)
        (d : string) :
  let b0 := with_body_description Undefined b in
  snd (post_chains isISO8601 b0) = [] ->
  createTaskSchema isIsoDate (fst (post_chains isISO8601 b0)) = [] ->
  insertable srv (fst (post_chains isISO8601 b0)) = true ->
  (Db.next_id st <= 2147483647)%Z ->
  (exists r,
      post_task srv isISO8601 isIsoDate now st b0
        = (Db.mkState (Db.rows st ++ [r]) (Db.next_id st + 1),
           Send (mkResponse 201 (JTask (Some r)))) /\
      Db.description r = None) /\
  (d <> "" -> (String.length d <= 1000)%nat -> Str.nul_free d = true ->
   exists r,
      post_task srv isISO8601 isIsoDate now st (with_body_description (Str d) b)
        = (Db.mkState (Db.rows st ++ [r]) (Db.next_id st + 1),
           Send (mkResponse 201 (JTask (Some r)))) /\
      Db.description r = Some d) /\
  post_task srv isISO8601 isIsoDate now st (with_body_description (Str "") b)
    = (st, Send (mkResponse 400
                   (JError "Validation Error" [Joi "description" "string.empty"]))) /\
  post_task srv isISO8601 isIsoDate now st (with_body_description Null b)
    = (st, Send (mkResponse 400
                   (JError "Validation Error" [Joi "description" "string.base"]))).
Proof.
  intros b0 Herr HJoi Hins Hserial. subst b0.
  assert (Hparts :
    joi_required "title" (Str (Str.trim (toString (b_title b))))
      (joi_string "title" 1 255 (Str (Str.trim (toString (b_title b))))) = [] /\
    first_error
      [ joi_optional (b_priority b)
          (joi_valid "priority" ["low"; "medium"; "high"] (b_priority b));
        joi_optional (b_dueDate b) (joi_date_iso isIsoDate "dueDate" (b_dueDate b));
        joi_optional (b_completed b) (joi_boolean "completed" (b_completed b)) ] = []).
  { unfold createTaskSchema, post_chains, with_body_description in HJoi.
    cbn [fst b_title b_description b_priority b_dueDate b_completed] in HJoi.
    apply first_error_cons_nil in HJoi. destruct HJoi as [H1 H2].
    apply first_error_cons_nil in H2. destruct H2 as [_ H2]. auto. }
  destruct Hparts as [Jt Jrest].
  assert (Hchains :
    check (isLength (Str.trim (toString (b_title b))) 1 255)
          "Title is required and must be between 1-255 characters" = [] /\
    optional (b_priority b)
      (check (isIn (toString (b_priority b)) ["low"; "medium"; "high"])
             "Priority must be low, medium, or high") ++
    optional (b_dueDate b)
      (check (isISO8601 (toString (b_dueDate b)))
             "Due date must be a valid ISO 8601 date") ++
    optional (b_completed b)
      (check (isBoolean (toString (b_completed b)))
             "Completed must be a boolean") = []).
  { unfold post_chains, common_chains, with_body_description in Herr.
    cbn [snd b_title b_description b_priority b_dueDate b_completed optional] in Herr.
    apply app_eq_nil in Herr. exact Herr. }
  destruct Hchains as [Ct Crest].
  split; [|split; [|split]].
  - eexists. split; [apply post_task_spec; assumption|]. reflexivity.
  - intros Hd Hl Hnul. eexists. split.
    + apply post_task_spec.
      * unfold post_chains, common_chains, with_body_description.
        cbn [snd b_title b_description b_priority b_dueDate b_completed
               optional toString].
        rewrite Ct, Crest. unfold isLength.
        destruct (Nat.leb_spec (String.length d) 1000); [reflexivity | lia].
      * unfold createTaskSchema, post_chains, with_body_description.
        cbn [fst b_title b_description b_priority b_dueDate b_completed].
        cbn [first_error]. rewrite Jt. cbn [joi_optional]. unfold joi_string at 1.
        apply String.eqb_neq in Hd. rewrite Hd.
        destruct (Nat.ltb_spec 1000 (String.length d)); [lia|].
        cbn [Nat.ltb Nat.leb]. exact Jrest.
      * apply insertable_description; assumption.
    + reflexivity.
  - unfold post_task, validateRequest, createTaskSchema, post_chains,
      with_body_description.
    cbn [fst b_title b_description b_priority b_dueDate b_completed].
    cbn [first_error]. rewrite Jt. reflexivity.
  - unfold post_task, validateRequest, createTaskSchema, post_chains,
      with_body_description.
    cbn [fst b_title b_description b_priority b_dueDate b_completed].
    cbn [first_error]. rewrite Jt. reflexivity.
Qed.

End PostClaims.

Section PostWitnesses.
Import Js Validation TaskSpec Todos Http.


(** C7, as the code has it: the Joi schema of POST /tasks does not take
    the empty string or [null] for [description]; both requests, with a
    valid title, are answered 400 and store nothing. *)
Lemma empty_description_counterexample :
  (String.length "" <= 1000)%nat /\
  post_task Sample.server Sample.any_date Sample.any_date 200 Sample.table
            Sample.empty_description_body
    = (Sample.table,
       Send (mkResponse 400
               (JError "Validation Error" [Joi "description" "string.empty"]))) /\
  post_task Sample.server Sample.any_date Sample.any_date 200 Sample.table
            Sample.null_description_body
    = (Sample.table,
       Send (mkResponse 400
               (JError "Validation Error" [Joi "description" "string.base"]))).
Proof.
  split; [cbn; lia|]. split; vm_compute; reflexivity.
Qed.

Lemma post_description_accepted_witness :
  exists r,
    post_task Sample.server Sample.any_date Sample.any_date 200 Sample.table
              (with_body_description (Str "Write the report") Sample.dated_body)
      = (Db.mkState (Db.rows Sample.table ++ [r]) (Db.next_id Sample.table + 1),
         Send (mkResponse 201 (JTask (Some r)))) /\
    Db.description r = Some "Write the report".
Proof.
  destruct (post_description_accepted Sample.any_date Sample.any_date
              Sample.server 200 Sample.table Sample.dated_body "Write the report")
    as (_ & Hd & _ & _);
    [reflexivity | reflexivity | reflexivity | vm_compute; discriminate |].
  apply Hd; [discriminate | cbn; lia | reflexivity].
Defined.

Lemma put_keeps_unspecified_fields_witness :
  exists r',
    put_task Sample.server Sample.any_date Sample.any_date 300 Sample.table 1
             Sample.redate_body
      = (Db.mkState
           (map (fun x => if has_id 1 x then r' else x) (Db.rows Sample.table))
           (Db.next_id Sample.table),
         Send (mkResponse 200 (JTask (Some r')))) /\
    Db.title r' = "Updated" /\ Db.completed r' = true /\
    Db.priority r' = "high" /\ Db.description r' = None /\
    Db.due_date r' = Some 1735689599%Z /\
    Db.created_at r' = 100%Z /\ Db.updated_at r' = 300%Z.
Proof.
  destruct (proj2 (put_keeps_unspecified_fields Sample.any_date Sample.any_date
                     Sample.server 300 Sample.table 1 Sample.redate_body)
              (Db.mkTask 1 "High Priority Task" None "high" None false 100 100))
    as [[Hb _] | (_ & r' & Hput & _ & Hc & Hu & Ht & Hd & Hp & Hdu & Hco)].
  - unfold ids. cbn. repeat constructor; cbn; intuition discriminate.
  - left. reflexivity.
  - reflexivity.
  - lia.
  - reflexivity.
  - reflexivity.
  - reflexivity.
  - discriminate Hb.
  - exists r'. cbn in Ht, Hd, Hp, Hco, Hc, Hdu. repeat split; assumption.
Defined.

End PostWitnesses.

(** ** PATCH /tasks/:id/complete *)

Section PatchComplete.
Import Js Validation TaskSpec RouteSpec Todos Http.

Lemma parse_patch_complete :
  Sql.parse "UPDATE tasks SET completed = $1, updated_at = NOW() WHERE id = $2 RETURNING *"
    = Some (Sql.Update [(Sql.Ccompleted, Sql.EParam 1); (Sql.Cupdated_at, Sql.ENow)]
                       [Sql.CEq Sql.Cid 2]).
Proof. vm_compute; reflexivity. Qed.

Lemma isBoolean_values (v : value) :
  isBoolean (toString v) = true ->
  (exists b, v = Bool b) \/ v = Str "true" \/ v = Str "false" \/
  v = Str "1" \/ v = Str "0".
Proof.
  unfold isBoolean, Str.mem. cbn [existsb].
  rewrite !orb_true_iff, !String.eqb_eq.
  destruct v as [| |b|s]; cbn [toString].
  - intuition discriminate.
  - intuition discriminate.
  - intros _. left. exists b. reflexivity.
  - intros [-> | [-> | [-> | [-> | H]]]]; [auto 6 | auto 6 | auto 6 | auto 6 | discriminate].
Qed.

Lemma set_col_flag srv (v : value) (x : Db.task) :
  isBoolean (toString v) = true ->
  Db.set_col srv Sql.Ccompleted (to_db v) x = Db.Ok (with_completed (patch_flag v) x).
Proof.
  intros H. apply isBoolean_values in H.
  destruct H as [(b & ->) | [-> | [-> | [-> | ->]]]]; reflexivity.
Qed.

Lemma query_patch_complete srv (now : Z) (st : Db.state) (i : Z) (v : value) :
  isBoolean (toString v) = true -> (1 <= i <= Db.int4_max)%Z ->
  Db.query srv now st
    "UPDATE tasks SET completed = $1, updated_at = NOW() WHERE id = $2 RETURNING *"
    [to_db v; Db.VInt i]
  = Db.Ok (Db.mkState (map (fun x => if has_id i x then toggled v now x else x)
                           (Db.rows st))
                      (Db.next_id st),
           Db.Rows (map (toggled v now) (filter (has_id i) (Db.rows st)))).
Proof.
  intros Hv Hi. unfold Db.query. rewrite parse_patch_complete. unfold Db.run.
  cbn -[has_id Db.update_rows Db.selects to_db toggled Db.in_range].
  rewrite (int4_inside i Hi).
  cbn -[has_id Db.update_rows Db.selects to_db toggled].
  rewrite (update_rows_spec srv now _ _ _ (toggled v now)).
  - cbn [Db.bind]. do 2 f_equal.
    + f_equal. apply map_ext. intros x. rewrite selects_by_id. reflexivity.
    + f_equal. rewrite (filter_ext _ _ (selects_by_id srv i)).
      apply map_ext. intros x. reflexivity.
  - intros x. cbn [Db.apply_sets Db.eval_expr Db.param nth_error Db.bind].
    rewrite (set_col_flag srv v x Hv). reflexivity.
Qed.

Lemma query_patch_complete_out_of_range srv (now : Z) (st : Db.state) (i : Z)
      (v : Db.value) :
  (Db.int4_max < i)%Z ->
  Db.query srv now st
    "UPDATE tasks SET completed = $1, updated_at = NOW() WHERE id = $2 RETURNING *"
    [v; Db.VInt i]
  = Db.Err Db.numeric_value_out_of_range.
Proof.
  intros Hi. unfold Db.query. rewrite parse_patch_complete. unfold Db.run.
  cbn -[Db.update_rows Db.selects Db.in_range].
  rewrite (int4_outside i Hi). reflexivity.
Qed.

Lemma map_unmatched (i : Z) (f : Db.task -> Db.task) (l : list Db.task) :
  ~ In i (map Db.id l) -> map (fun x => if has_id i x then f x else x) l = l.
Proof.
  induction l as [|x l IH]; cbn; [reflexivity|].
  intros H. unfold has_id at 1.
  destruct (Z.eqb_spec (Db.id x) i); [tauto|].
  rewrite IH by tauto. reflexivity.
Qed.

(** X1: PATCH /tasks/:id/complete with a valid id.  A [completed] value
    that [isBoolean] refuses (absent, [null], any other text) is answered
    400 and nothing is written.  One it takes (a boolean, or one of the
    strings [true], [false], [1], [0]), with an id the [id] column can
    hold (at most 2147483647), is answered 404, the table as before,
    when no task has the id; and otherwise 200 with the task, in which
    only [completed] and [updated_at] differ from the stored row, every
    other row being as before.  With a larger id the server refuses the
    statement: the error 22003 goes to the error handler and nothing is
    written. *)
Theorem patch_complete_toggles srv (now : Z) (st : Db.state) (i : Z) (v : value) :
  (1 <= i)%Z ->
  (isBoolean (toString v) = false ->
   patch_complete srv now st i v
     = (st, validation_error
              [Msg "Completed status is required and must be a boolean"])) /\
  (isBoolean (toString v) = true -> (i <= 2147483647)%Z -> ~ In i (ids st) ->
   patch_complete srv now st i v = (st, not_found)) /\
  (isBoolean (toString v) = true -> (i <= 2147483647)%Z ->
   forall r, NoDup (ids st) -> In r (Db.rows st) -> Db.id r = i ->
   exists r',
     patch_complete srv now st i v
       = (Db.mkState (map (fun x => if has_id i x then r' else x) (Db.rows st))
                     (Db.next_id st),
          Send (mkResponse 200 (JTask (Some r')))) /\
     r' = Db.mkTask (Db.id r) (Db.title r) (Db.description r) (Db.priority r)
                    (Db.due_date r) (patch_flag v) (Db.created_at r) now) /\
  (isBoolean (toString v) = true -> (2147483647 < i)%Z ->
   patch_complete srv now st i v = (st, Next (database_error "22003"))).
Proof.
  intros Hi. unfold patch_complete. rewrite id_chain_valid by assumption.
  cbn [app]. change 2147483647%Z with Db.int4_max.
  split; [|split; [|split]].
  - intros ->. reflexivity.
  - intros Hv Hm Hn. rewrite Hv. cbn [check].
    rewrite (query_patch_complete srv now st i v Hv) by lia. cbn [rows_of].
    rewrite (map_unmatched i _ _ Hn), state_eta.
    apply filter_has_id_nil in Hn. rewrite Hn. reflexivity.
  - intros Hv Hm r Hnd Hin Hid. rewrite Hv. cbn [check].
    rewrite (query_patch_complete srv now st i v Hv) by lia. cbn [rows_of].
    rewrite (filter_has_id_unique i _ r Hnd Hin Hid). cbn [map].
    exists (toggled v now r). split; [|reflexivity].
    do 2 f_equal. apply map_ext_in. intros x Hx. unfold has_id.
    destruct (Z.eqb_spec (Db.id x) i) as [E|E]; [|reflexivity].
    rewrite (unique_row _ r x Hnd Hin Hx) by congruence. reflexivity.
  - intros Hv Hm. rewrite Hv. cbn [check].
    rewrite (query_patch_complete_out_of_range srv now st i _ Hm). reflexivity.
Qed.

Lemma patch_complete_toggles_witness :
  exists r',
    patch_complete Sample.server 300 Sample.table 2 (Str "0")
      = (Db.mkState (map (fun x => if has_id 2 x then r' else x)
                         (Db.rows Sample.table))
                    (Db.next_id Sample.table),
         Send (mkResponse 200 (JTask (Some r')))) /\
    r' = Db.mkTask 2 "Medium Priority Task" None "medium" None false 101 300.
Proof.
  destruct (patch_complete_toggles Sample.server 300 Sample.table 2 (Str "0")
              ltac:(lia))
    as (_ & _ & H & _).
  apply (H eq_refl ltac:(lia)
           (Db.mkTask 2 "Medium Priority Task" None "medium" None true 101 101)).
  - unfold ids. cbn. repeat constructor; cbn; intuition discriminate.
  - right; left; reflexivity.
  - reflexivity.
Defined.

End PatchComplete.

(** ** The id parameter *)

Section IdParameter.
Import Js Validation TaskSpec RouteSpec Todos Http.

Variable isISO8601 : string -> bool.
Variable isIsoDate : string -> bool.

(** X2: an id below 1 never reaches the table.  GET, DELETE and PATCH by id
    answer 400 with the message of the id chain first in [details]; PUT
    answers 400 too, with the Joi error of the body when there is one and
    with the id message first otherwise.  The table is as before in every
    case. *)
Theorem invalid_id_is_rejected srv (now : Z) (st : Db.state) (i : Z) :
  (i < 1)%Z ->
  get_task srv now st i
    = (st, validation_error [Msg "Task ID must be a positive integer"]) /\
  delete_task srv now st i
    = (st, validation_error [Msg "Task ID must be a positive integer"]) /\
  (forall v, exists more,
      patch_complete srv now st i v
        = (st, validation_error
                 (Msg "Task ID must be a positive integer" :: more))) /\
  (forall b,
      let b' := fst (put_chains isISO8601 b) in
      put_task srv isISO8601 isIsoDate now st i b
        = (st, validation_error
                 (match updateTaskSchema isIsoDate b' with
                  | [] => Msg "Task ID must be a positive integer"
                            :: snd (put_chains isISO8601 b)
                  | joi => joi
                  end))).
Proof.
  intros Hi.
  assert (Hid : id_chain i = [Msg "Task ID must be a positive integer"]).
  { unfold id_chain, isInt_min1. destruct (Z.leb_spec 1 i); [lia | reflexivity]. }
  repeat split.
  - unfold get_task. rewrite Hid. reflexivity.
  - unfold delete_task. rewrite Hid. reflexivity.
  - intros v. unfold patch_complete. rewrite Hid. eexists. reflexivity.
  - intros b b'. subst b'. unfold put_task, validateRequest.
    destruct (put_chains isISO8601 b) as [b' errs]. cbn [fst snd].
    rewrite Hid.
    destruct (updateTaskSchema isIsoDate b'); reflexivity.
Qed.

(** X3: PUT looks the task up before it looks at the fields.  A request
    that passes validation for an id the [id] column can hold (at most
    2147483647) and no task has is answered 404, also when its body is
    empty, and the table is as before.  With a larger id the look-up
    itself is refused: the error 22003 goes to the error handler, the
    table as before. *)
Theorem put_missing_task_not_found srv (now : Z) (st : Db.state) (i : Z)
        (b : body) :
  (1 <= i)%Z ->
  snd (put_chains isISO8601 b) = [] ->
  updateTaskSchema isIsoDate (fst (put_chains isISO8601 b)) = [] ->
  ((i <= 2147483647)%Z -> ~ In i (ids st) ->
   put_task srv isISO8601 isIsoDate now st i b = (st, not_found)) /\
  ((2147483647 < i)%Z ->
   put_task srv isISO8601 isIsoDate now st i b
     = (st, Next (database_error "22003"))).
Proof.
  intros Hi Herr HJoi. unfold put_task, validateRequest.
  destruct (put_chains isISO8601 b) as [b' errs]. cbn [fst snd] in *. subst errs.
  rewrite HJoi. rewrite id_chain_valid by assumption. cbn [app].
  rewrite query_select_by_id. change 2147483647%Z with Db.int4_max. split.
  - intros Hm Hn. rewrite int4_inside by lia. cbn [Db.bind rows_of].
    apply filter_has_id_nil in Hn. rewrite Hn. reflexivity.
  - intros Hm. rewrite int4_outside by assumption. reflexivity.
Qed.

(** X19: the id chain sets no upper bound and the [id] column is an
    [int4].  With an id beyond 2147483647 the statement of GET and of
    DELETE by id is refused by the server: the error 22003 goes to the
    error handler, which answers 500 with the fixed message, whatever
    the environment, and the table is as before. *)
Theorem id_beyond_int4_is_refused srv (node_env : option string)
        (path method : string) (now : Z) (st : Db.state) (i : Z) :
  (2147483647 < i)%Z ->
  get_task srv now st i = (st, Next (database_error "22003")) /\
  delete_task srv now st i = (st, Next (database_error "22003")) /\
  exists stack,
    App.respond node_env path method (Next (database_error "22003"))
      = mkResponse 500
          (JFailure (mkErrorResponse "Internal Server Error" 500 path method
                                     None stack)).
Proof.
  intros Hi. change 2147483647%Z with Db.int4_max in Hi.
  split; [apply get_task_out_of_range, Hi|].
  split; [apply delete_task_out_of_range, Hi|].
  cbn [App.respond]. unfold ErrorHandler.errorHandler. cbn.
  destruct node_env as [e|]; cbn;
    try destruct (e =? "production"); try destruct (e =? "development");
    cbn; eexists; reflexivity.
Qed.

End IdParameter.

Section IdParameterWitness.
Import Js Validation TaskSpec RouteSpec Todos Http.

Lemma invalid_id_is_rejected_witness :
  get_task Sample.server 200 Sample.table 0
    = (Sample.table, validation_error [Msg "Task ID must be a positive integer"]).
Proof.
  apply (invalid_id_is_rejected Sample.any_date Sample.any_date Sample.server
           200 Sample.table 0).
  lia.
Defined.

Lemma put_missing_task_not_found_witness :
  put_task Sample.server Sample.any_date Sample.any_date 200 Sample.table 9
           empty_body
    = (Sample.table, not_found).
Proof.
  apply (put_missing_task_not_found Sample.any_date Sample.any_date Sample.server
           200 Sample.table 9 empty_body);
    [lia | reflexivity | reflexivity | lia |].
  unfold ids. cbn. intuition discriminate.
Defined.

Lemma id_beyond_int4_is_refused_witness :
  get_task Sample.server 200 Sample.table 2147483648
    = (Sample.table, Next (database_error "22003")).
Proof.
  apply (id_beyond_int4_is_refused Sample.server None "/tasks/2147483648" "GET"
           200 Sample.table 2147483648).
  lia.
Defined.

End IdParameterWitness.

(** ** What a request can do to the table *)

Section Effects.
Import Js Validation TaskSpec RouteSpec Todos Http.

Lemma in_range_ok (lo hi z j : Z) :
  Db.in_range lo hi z = Db.Ok j -> j = z /\ (lo <= z <= hi)%Z.
Proof.
  unfold Db.in_range.
  destruct (Z.leb_spec lo z); [|discriminate].
  destruct (Z.leb_spec z hi); [|discriminate].
  intros [= <-]. lia.
Qed.

Lemma id_chain_nil (i : Z) : id_chain i = [] -> (1 <= i)%Z.
Proof.
  unfold id_chain, isInt_min1.
  destruct (Z.leb_spec 1 i); [auto | discriminate].
Qed.

(** The list route only reads. *)
Lemma get_tasks_state srv (now : Z) (st : Db.state) (q : list_query) :
  fst (get_tasks srv now st q) = st.
Proof.
  rewrite get_tasks_outcome. destruct (ListSpec.data_rows srv q (Db.rows st)); reflexivity.
Qed.

Lemma get_task_state srv (now : Z) (st : Db.state) (i : Z) :
  fst (get_task srv now st i) = st.
Proof.
  unfold get_task. destruct (id_chain i); [|reflexivity].
  rewrite query_select_by_id.
  destruct (Db.in_range Db.int4_min Db.int4_max i) as [j|]; cbn [Db.bind rows_of];
    [|reflexivity].
  destruct (filter (has_id j) (Db.rows st)); reflexivity.
Qed.

(** An UPDATE whose assignments fail on every row fails when it selects
    a row and does nothing otherwise. *)
Lemma update_rows_refused srv now ps sets w (l : list Db.task) :
  (forall r, exists code, Db.apply_sets srv now ps sets r = Db.Err code) ->
  (exists code, Db.update_rows srv now ps sets w l = Db.Err code) \/
  Db.update_rows srv now ps sets w l = Db.Ok (l, []).
Proof.
  intros Hf. induction l as [|r l IH]; [right; reflexivity|].
  cbn [Db.update_rows]. destruct IH as [(code & ->) | ->].
  - left. exists code. reflexivity.
  - cbn [Db.bind]. destruct (Db.selects srv w r).
    + destruct (Hf r) as (code & ->). left. exists code. reflexivity.
    + right. reflexivity.
Qed.

Ltac parse_statement :=
  unfold Db.query;
  match goal with
  | |- context [Sql.parse ?t] =>
      let v := eval vm_compute in (Sql.parse t) in
      replace (Sql.parse t) with v by (vm_compute; reflexivity)
  end.

(** The UPDATE of PUT on any table, for fields both layers accepted and
    the table can hold. *)
Lemma update_statement_rows srv (now : Z) (st : Db.state) (i : Z) (b : body) :
  absent_or_accepted Sql.Ctitle (b_title b) ->
  absent_or_accepted Sql.Cdescription (b_description b) ->
  absent_or_accepted Sql.Cpriority (b_priority b) ->
  absent_or_accepted Sql.Cdue_date (b_dueDate b) ->
  absent_or_accepted Sql.Ccompleted (b_completed b) ->
  storable srv b = true ->
  (1 <= i <= Db.int4_max)%Z ->
  match update_fields b with
  | ([], _, _) => b = empty_body
  | (updateFields, values, paramCount) =>
      Db.query srv now st
        ("UPDATE tasks SET "
           ^^ String.concat ", " (updateFields ++ ["updated_at = NOW()"])
           ^^ " WHERE id = $" ^^ Str.of_nat (paramCount + 1) ^^ " RETURNING *")
        (values ++ [Db.VInt i])
      = Db.Ok (Db.mkState (map (fun x => if has_id i x then patch srv b now x else x)
                               (Db.rows st))
                          (Db.next_id st),
               Db.Rows (map (patch srv b now) (filter (has_id i) (Db.rows st))))
  end.
Proof.
  intros Ht Hd Hp Hdu Hc Hst Hi.
  destruct b as [t d p du c]. unfold storable in Hst.
  cbn [b_title b_description b_priority b_dueDate b_completed] in *.
  apply andb_prop in Hst. destruct Hst as [Hst Tdu].
  apply andb_prop in Hst. destruct Hst as [Tt Td].
  unfold update_fields.
  cbn [b_title b_description b_priority b_dueDate b_completed].
  destruct Ht as [-> | Ht]; [|pose proof (accepted_defined _ _ Ht) as Dt; rewrite Dt];
  (destruct Hd as [-> | Hd]; [|pose proof (accepted_defined _ _ Hd) as Dd; rewrite Dd]);
  (destruct Hp as [-> | Hp];
   [|pose proof (accepted_defined _ _ Hp) as Dp; rewrite Dp;
     pose proof (priority_takes srv _ Hp) as Tp]);
  (destruct Hdu as [-> | Hdu]; [|pose proof (accepted_defined _ _ Hdu) as Ddu; rewrite Ddu]);
  (destruct Hc as [-> | Hc];
   [|pose proof (accepted_defined _ _ Hc) as Dc; rewrite Dc;
     pose proof (completed_takes srv _ Hc) as Tc]);
  cbn [defined app Nat.add]; try reflexivity.
  all: parse_statement.
  all: unfold Db.run;
    cbn -[patch has_id Db.update_rows Db.selects to_db Db.in_range];
    rewrite (int4_inside i Hi);
    cbn -[patch has_id Db.update_rows Db.selects to_db].
  all: match goal with
       | |- context [Db.update_rows ?s ?n ?ps ?sets ?w ?l] =>
           match goal with
           | |- context [patch _ ?B _ _] =>
               rewrite (update_rows_spec s n ps sets w (fun x => patch s B n x) l)
           end
       end.
  all: try (intros x;
            cbn [Db.apply_sets Db.eval_expr Db.param nth_error Db.bind];
            repeat (rewrite set_col_accepted by assumption; cbn [Db.bind]);
            rewrite set_col_updated_at; unfold patch;
            cbn [b_title b_description b_priority b_dueDate b_completed];
            repeat match goal with
                   | D : defined _ = true |- _ => rewrite D; clear D
                   end;
            reflexivity).
  all: cbn [Db.bind]; do 2 f_equal;
    [ f_equal; apply map_ext; intros x; rewrite selects_by_id; reflexivity
    | f_equal; rewrite (filter_ext _ _ (selects_by_id srv i)); reflexivity ].
Qed.

(** The same when the table cannot hold one of the texts. *)
Lemma update_statement_refused srv (now : Z) (st : Db.state) (i : Z) (b : body) :
  absent_or_accepted Sql.Ctitle (b_title b) ->
  absent_or_accepted Sql.Cdescription (b_description b) ->
  absent_or_accepted Sql.Cpriority (b_priority b) ->
  absent_or_accepted Sql.Cdue_date (b_dueDate b) ->
  absent_or_accepted Sql.Ccompleted (b_completed b) ->
  storable srv b = false ->
  (1 <= i <= Db.int4_max)%Z ->
  match update_fields b with
  | ([], _, _) => b = empty_body
  | (updateFields, values, paramCount) =>
      let result :=
        Db.query srv now st
          ("UPDATE tasks SET "
             ^^ String.concat ", " (updateFields ++ ["updated_at = NOW()"])
             ^^ " WHERE id = $" ^^ Str.of_nat (paramCount + 1) ^^ " RETURNING *")
          (values ++ [Db.VInt i]) in
      (exists code, result = Db.Err code) \/ result = Db.Ok (st, Db.Rows [])
  end.
Proof.
  intros Ht Hd Hp Hdu Hc Hst Hi.
  destruct b as [t d p du c]. unfold storable in Hst.
  cbn [b_title b_description b_priority b_dueDate b_completed] in *.
  destruct (Db.takes srv Sql.Ctitle (to_db t)) eqn:Tt;
    destruct (Db.takes srv Sql.Cdescription (to_db d)) eqn:Td;
    destruct (Db.takes srv Sql.Cdue_date (to_db du)) eqn:Tdu;
    try discriminate Hst; clear Hst.
  all: unfold update_fields;
    cbn [b_title b_description b_priority b_dueDate b_completed].
  all: destruct Ht as [-> | Ht]; [|pose proof (accepted_defined _ _ Ht) as Dt; rewrite Dt];
  (destruct Hd as [-> | Hd]; [|pose proof (accepted_defined _ _ Hd) as Dd; rewrite Dd]);
  (destruct Hp as [-> | Hp];
   [|pose proof (accepted_defined _ _ Hp) as Dp; rewrite Dp;
     pose proof (priority_takes srv _ Hp) as Tp]);
  (destruct Hdu as [-> | Hdu]; [|pose proof (accepted_defined _ _ Hdu) as Ddu; rewrite Ddu]);
  (destruct Hc as [-> | Hc];
   [|pose proof (accepted_defined _ _ Hc) as Dc; rewrite Dc;
     pose proof (completed_takes srv _ Hc) as Tc]);
  try discriminate;
  cbn [defined app Nat.add]; cbv zeta.
  all: parse_statement.
  all: unfold Db.run;
    cbn -[has_id Db.update_rows Db.selects to_db Db.in_range];
    rewrite (int4_inside i Hi);
    cbn -[has_id Db.update_rows Db.selects to_db].
  all: match goal with
       | |- context [Db.update_rows ?s ?n ?ps ?sets ?w ?l] =>
           let H := fresh "H" in
           destruct (update_rows_refused s n ps sets w l) as [(code & H) | H];
           [ | rewrite H; left; exists code; reflexivity
             | rewrite H; right; cbn [Db.bind]; rewrite state_eta; reflexivity ]
       end.
  all: intros x;
    cbn [Db.apply_sets Db.eval_expr Db.param nth_error Db.bind];
    repeat first
      [ rewrite set_col_accepted by assumption; cbn [Db.bind]
      | match goal with
        | T : Db.takes ?s ?c ?v = false
          |- context [Db.set_col ?s ?c ?v ?r] =>
            let code := fresh "code" in
            let E := fresh "E" in
            destruct (set_col_refused s c v r T) as (code & E);
            rewrite E; exists code; reflexivity
        end ].
Qed.

Lemma accepted_title_well_formed (v : value) (x : Db.task) :
  accepted Sql.Ctitle v ->
  Validation.toString v <> "" /\ (String.length (Validation.toString v) <= 255)%nat.
Proof. intros (t & -> & Hne & Hl). cbn. auto. Qed.

Lemma patch_well_formed srv (b : body) (now : Z) (x : Db.task) :
  absent_or_accepted Sql.Ctitle (b_title b) ->
  absent_or_accepted Sql.Cpriority (b_priority b) ->
  well_formed x -> well_formed (patch srv b now x).
Proof.
  intros Ht Hp (W1 & W2 & W3).
  destruct (patch_fields srv b now x) as (_ & _ & _ & Et & _ & Ep & _).
  unfold well_formed. rewrite Et, Ep.
  destruct Ht as [-> | Ht].
  - cbn [defined]. destruct Hp as [-> | (p & -> & Hp)]; cbn [defined toString]; auto.
  - rewrite (accepted_defined _ _ Ht).
    destruct (accepted_title_well_formed _ x Ht) as [T1 T2].
    destruct Hp as [-> | (p & -> & Hp)]; cbn [defined toString]; auto.
Qed.

Lemma created_well_formed srv (b : body) (now i : Z) :
  accepted Sql.Ctitle (b_title b) ->
  absent_or_accepted Sql.Cpriority (b_priority b) ->
  well_formed (created srv b now i).
Proof.
  intros Ht Hp.
  destruct (accepted_title_well_formed _ (created srv b now i) Ht) as [T1 T2].
  unfold well_formed, created. cbn [Db.title Db.priority].
  destruct Hp as [-> | (p & -> & Hp)]; auto.
Qed.

Variable isISO8601 : string -> bool.
Variable isIsoDate : string -> bool.

(** Every request changes the table in one of the four ways, and the GET
    routes in none. *)
Lemma route_changes srv (now : Z) (st : Db.state) (req : App.request) :
  effect now st req (fst (App.route srv isISO8601 isIsoDate now st req)) /\
  (read_only req = true -> fst (App.route srv isISO8601 isIsoDate now st req) = st).
Proof.
  split; [|destruct req; try discriminate; intros _; cbn [App.route];
           [apply get_tasks_state | apply get_task_state]].
  destruct req as [q | i | b | i b | i | i v]; cbn [App.route].
  - rewrite get_tasks_state. constructor.
  - rewrite get_task_state. constructor.
  - destruct (snd (post_chains isISO8601 b)) as [|e es] eqn:Herr;
      [destruct (createTaskSchema isIsoDate (fst (post_chains isISO8601 b)))
         as [|j js] eqn:HJoi|].
    + destruct (insertable srv (fst (post_chains isISO8601 b))) eqn:Hins.
      * rewrite (post_task_spec isISO8601 isIsoDate srv now st b Herr HJoi Hins).
        cbn [fst].
        destruct (post_chains_fields isISO8601 b) as (_ & _ & _ & _ & _ & Fcc).
        destruct (create_schema_accepted isISO8601 isIsoDate _ HJoi (Fcc Herr))
          as (At & _ & Ap & _).
        apply Created; try reflexivity. apply created_well_formed; assumption.
      * destruct (post_task_refused isISO8601 isIsoDate srv now st b Herr HJoi Hins)
          as (code & ->).
        constructor.
    + unfold post_task, validateRequest.
      destruct (post_chains isISO8601 b) as [b' errs]. cbn [fst] in HJoi.
      rewrite HJoi. constructor.
    + unfold post_task, validateRequest.
      destruct (post_chains isISO8601 b) as [b' errs]. cbn [snd] in Herr. subst errs.
      destruct (createTaskSchema isIsoDate b'); constructor.
  - unfold put_task, validateRequest.
    pose proof (put_chains_fields isISO8601 b) as F. cbn zeta in F.
    destruct (put_chains isISO8601 b) as [b' errs]. cbn [fst snd] in F.
    destruct F as (_ & _ & _ & _ & _ & Fcc).
    destruct (updateTaskSchema isIsoDate b') as [|j js] eqn:HJoi; [|constructor].
    destruct (id_chain i) as [|e es] eqn:Hid; [|constructor]. cbn [app].
    apply id_chain_nil in Hid.
    destruct errs as [|e es]; [|constructor].
    destruct (update_schema_accepted isISO8601 isIsoDate _ HJoi (Fcc eq_refl))
      as (At & Ad & Ap & Adu & Ac).
    rewrite query_select_by_id.
    destruct (Db.in_range Db.int4_min Db.int4_max i) as [j|] eqn:Ei;
      cbn [Db.bind rows_of]; [|constructor].
    apply in_range_ok in Ei. destruct Ei as [-> Ei].
    assert (Hi : (1 <= i <= Db.int4_max)%Z) by lia.
    destruct (filter (has_id i) (Db.rows st)); [constructor|].
    destruct (storable srv b') eqn:Hst.
    + pose proof (update_statement_rows srv now st i b' At Ad Ap Adu Ac Hst Hi) as Hq.
      destruct (update_fields b') as [[fields values] k].
      destruct fields as [|f fs]; [constructor|].
      rewrite Hq. cbn [fst].
      apply Rewritten; [reflexivity|]. intros x.
      destruct (patch_fields srv b' now x) as (H1 & H2 & H3 & _).
      split; [exact H1|]. split; [exact H2|]. split; [exact H3|].
      apply patch_well_formed; assumption.
    + pose proof (update_statement_refused srv now st i b' At Ad Ap Adu Ac Hst Hi) as Hq.
      destruct (update_fields b') as [[fields values] k].
      destruct fields as [|f fs]; [constructor|].
      cbv zeta in Hq. destruct Hq as [(code & ->) | ->]; constructor.
  - unfold delete_task. destruct (id_chain i); [|constructor].
    rewrite query_delete_by_id.
    destruct (Db.in_range Db.int4_min Db.int4_max i) as [j|] eqn:Ei;
      cbn [Db.bind rows_of]; [|constructor].
    apply in_range_ok in Ei. destruct Ei as [-> Ei].
    destruct (filter (has_id i) (Db.rows st)); apply Removed.
  - unfold patch_complete. destruct (id_chain i) as [|e es] eqn:Hid; [|constructor].
    apply id_chain_nil in Hid.
    cbn [app]. destruct (isBoolean (toString v)) eqn:Hv; [|constructor].
    cbn [check].
    destruct (Z_le_gt_dec i Db.int4_max) as [Hm|Hm].
    2:{ rewrite (query_patch_complete_out_of_range srv now st i _ ltac:(lia)).
        constructor. }
    rewrite (query_patch_complete srv now st i v Hv) by lia. cbn [rows_of].
    assert (Hre : effect now st (App.PatchComplete i v)
              (Db.mkState (map (fun x => if has_id i x then toggled v now x else x)
                               (Db.rows st)) (Db.next_id st))).
    { apply Rewritten; [reflexivity|]. intros x.
      split; [reflexivity|]. split; [reflexivity|]. split; [reflexivity|].
      intros W. exact W. }
    destruct (map (toggled v now) (filter (has_id i) (Db.rows st))); exact Hre.
Qed.

(** X4: whatever the request, the table afterwards is the table before;
    or, after a POST, that table with one well-formed task appended under
    the next serial id and stamped with the clock reading; or, after a PUT
    or a PATCH, with the rows of its id rewritten (id and creation time
    kept, update time set to the clock reading); or, after a DELETE, with
    the rows of its id removed.  The two GET routes never change it. *)
Theorem route_effect srv (now : Z) (st : Db.state) (req : App.request) :
  effect now st req (fst (App.route srv isISO8601 isIsoDate now st req)) /\
  (read_only req = true -> fst (App.route srv isISO8601 isIsoDate now st req) = st).
Proof. apply route_changes. Qed.

End Effects.

(** ** Invariants of the table *)

Section Invariants.
Import Js Validation TaskSpec RouteSpec Todos Http.

Lemma NoDup_snoc {A} (l : list A) (a : A) :
  NoDup l -> ~ In a l -> NoDup (l ++ [a]).
Proof.
  induction l as [|x l IH]; cbn; intros Hnd Hn.
  - repeat constructor. intros [].
  - inversion Hnd as [|? ? Hx Hl]; subst. constructor.
    + rewrite in_app_iff. cbn. intuition congruence.
    + apply IH; [assumption | tauto].
Qed.

Lemma NoDup_map_filter {A B} (g : A -> B) (p : A -> bool) (l : list A) :
  NoDup (map g l) -> NoDup (map g (filter p l)).
Proof.
  induction l as [|x l IH]; cbn; [auto|].
  intros Hnd. inversion Hnd as [|? ? Hx Hl]; subst.
  destruct (p x); cbn; [|auto].
  constructor; [|auto].
  rewrite in_map_iff in *. intros (y & Hy & Hin). apply Hx.
  exists y. split; [exact Hy|]. apply filter_In in Hin. tauto.
Qed.

Lemma ids_rewritten (i : Z) (f : Db.task -> Db.task) (l : list Db.task) :
  (forall x, Db.id (f x) = Db.id x) ->
  map Db.id (map (fun x => if has_id i x then f x else x) l) = map Db.id l.
Proof.
  intros Hf. rewrite map_map. apply map_ext. intros x.
  destruct (has_id i x); [apply Hf | reflexivity].
Qed.

Lemma effect_unique_ids now st req st' :
  effect now st req st' -> unique_ids st -> unique_ids st'.
Proof.
  intros He [Hnd Hs]. unfold unique_ids in *.
  rewrite serial_ahead_ids in *.
  destruct He as [req | b r Hid _ _ _ | req i f _ Hf | i]; unfold ids in *;
    cbn [Db.rows Db.next_id].
  - auto.
  - rewrite map_app. cbn [map]. rewrite Hid. split.
    + apply NoDup_snoc; [exact Hnd|]. intros Hin.
      rewrite Forall_forall in Hs. specialize (Hs _ Hin). lia.
    + apply Forall_app. split.
      * eapply Forall_impl; [|exact Hs]. cbn. intros; lia.
      * repeat constructor. lia.
  - rewrite ids_rewritten by (intros x; apply Hf). auto.
  - split; [apply NoDup_map_filter, Hnd|].
    rewrite Forall_forall in *. intros z Hz. apply Hs.
    rewrite in_map_iff in *. destruct Hz as (x & Hx & Hin).
    exists x. split; [exact Hx|]. apply filter_In in Hin. tauto.
Qed.

Lemma effect_well_formed now st req st' :
  effect now st req st' ->
  Forall well_formed (Db.rows st) -> Forall well_formed (Db.rows st').
Proof.
  intros He Hw.
  destruct He as [req | b r _ _ _ Hr | req i f _ Hf | i]; cbn [Db.rows].
  - exact Hw.
  - apply Forall_app. split; [exact Hw | constructor; [exact Hr | constructor]].
  - rewrite Forall_forall in *. intros y Hy.
    apply in_map_iff in Hy. destruct Hy as (x & <- & Hx).
    destruct (has_id i x); [apply Hf, Hw, Hx | apply Hw, Hx].
  - rewrite Forall_forall in *. intros y Hy. apply filter_In in Hy. apply Hw, Hy.
Qed.

Lemma effect_timely now st req st' t :
  effect now st req st' -> (t <= now)%Z -> timely t st -> timely now st'.
Proof.
  intros He Ht Hw. unfold timely in *.
  destruct He as [req | b r _ Hc Hu _ | req i f _ Hf | i]; cbn [Db.rows].
  - eapply Forall_impl; [|exact Hw]. cbn. intros; lia.
  - apply Forall_app. split.
    + eapply Forall_impl; [|exact Hw]. cbn. intros; lia.
    + constructor; [lia | constructor].
  - rewrite Forall_forall in *. intros y Hy.
    apply in_map_iff in Hy. destruct Hy as (x & <- & Hx).
    specialize (Hw _ Hx). destruct (has_id i x); [|lia].
    destruct (Hf x) as (_ & -> & -> & _). lia.
  - rewrite Forall_forall in *. intros y Hy. apply filter_In in Hy.
    destruct Hy as [Hy _]. specialize (Hw _ Hy). lia.
Qed.

Variable isISO8601 : string -> bool.
Variable isIsoDate : string -> bool.

(** X5: identifiers stay unique.  If no two tasks share an id and every id
    lies below the serial counter, the same holds after any run of
    requests. *)
Theorem ids_stay_unique srv (reqs : list (Z * App.request)) (st : Db.state) :
  unique_ids st -> unique_ids (App.serve_all srv isISO8601 isIsoDate reqs st).
Proof.
  revert st; induction reqs as [|[now req] reqs IH]; intros st H; cbn.
  - exact H.
  - apply IH. eapply effect_unique_ids; [apply route_changes | exact H].
Qed.

(** X6: the constraints of the data model hold for ever.  If every task has
    a title of 1 to 255 characters and one of the priorities low, medium
    and high, the same holds after any run of requests. *)
Theorem tasks_stay_well_formed srv (reqs : list (Z * App.request)) (st : Db.state) :
  Forall well_formed (Db.rows st) ->
  Forall well_formed (Db.rows (App.serve_all srv isISO8601 isIsoDate reqs st)).
Proof.
  revert st; induction reqs as [|[now req] reqs IH]; intros st H; cbn.
  - exact H.
  - apply IH. eapply effect_well_formed; [apply route_changes | exact H].
Qed.

Lemma serve_all_timely srv (reqs : list (Z * App.request)) (st : Db.state) (t : Z) :
  timely t st -> clocked t reqs ->
  exists t', timely t' (App.serve_all srv isISO8601 isIsoDate reqs st).
Proof.
  revert st t; induction reqs as [|[now req] reqs IH]; intros st t H Hc; cbn.
  - exists t. exact H.
  - destruct Hc as [Ht Hc]. apply (IH _ now); [|exact Hc].
    eapply effect_timely; [apply route_changes | exact Ht | exact H].
Qed.

(** X7: no task is updated before it was created.  If that holds in a table
    whose time stamps are not after [t], it holds after any run of requests
    served at clock readings that start at [t] or later and do not go
    back. *)
Theorem updated_never_before_created srv (reqs : list (Z * App.request))
        (st : Db.state) (t : Z) :
  timely t st -> clocked t reqs ->
  Forall (fun r => (Db.created_at r <= Db.updated_at r)%Z)
         (Db.rows (App.serve_all srv isISO8601 isIsoDate reqs st)).
Proof.
  intros H Hc. destruct (serve_all_timely srv reqs st t H Hc) as (t' & Ht').
  eapply Forall_impl; [|exact Ht']. cbn. intros; lia.
Qed.

End Invariants.

Section InvariantWitnesses.
Import Js Validation TaskSpec RouteSpec Todos Http.

Lemma sample_unique_ids : unique_ids Sample.table.
Proof.
  split.
  - unfold ids. cbn. repeat constructor; cbn; intuition discriminate.
  - unfold serial_ahead. cbn. repeat constructor.
Qed.

Lemma sample_well_formed : Forall well_formed (Db.rows Sample.table).
Proof.
  unfold well_formed. cbn.
  repeat constructor; cbn; try discriminate; lia.
Qed.

Lemma sample_timely : timely 104 Sample.table.
Proof. unfold timely. cbn. repeat constructor; cbn; lia. Qed.

Lemma ids_stay_unique_witness :
  unique_ids (App.serve_all Sample.server Sample.any_date Sample.any_date Scenario.session
                            Sample.table).
Proof. apply ids_stay_unique, sample_unique_ids. Defined.

Lemma tasks_stay_well_formed_witness :
  Forall well_formed
         (Db.rows (App.serve_all Sample.server Sample.any_date Sample.any_date Scenario.session
                                 Sample.table)).
Proof. apply tasks_stay_well_formed, sample_well_formed. Defined.

Lemma updated_never_before_created_witness :
  Forall (fun r => (Db.created_at r <= Db.updated_at r)%Z)
         (Db.rows (App.serve_all Sample.server Sample.any_date Sample.any_date Scenario.session
                                 Sample.table)).
Proof.
  apply (updated_never_before_created Sample.any_date Sample.any_date
           Sample.server Scenario.session Sample.table 104).
  - exact sample_timely.
  - cbn. lia.
Defined.

End InvariantWitnesses.

(** ** Creation, as a whole *)

Section PostWhole.
Import Js Validation TaskSpec RouteSpec Todos Http.

Variable isISO8601 : string -> bool.
Variable isIsoDate : string -> bool.

(** X8: POST /tasks has three outcomes and no other, the serial counter
    being within the [id] column.  When the Joi schema and the chains
    both pass and the table can hold the texts (title and description
    without U+0000, a due date the server reads), the answer is 201 with
    the task that is appended to the table, its id the serial counter,
    which moves on by one; the task holds the trimmed title, the fields
    sent (the due date as the instant the server reads it as), and the
    defaults [medium], not completed, no description and no due date for
    the fields left out.  When both pass and the table cannot hold them,
    the INSERT fails, its error goes to the error handler and the table
    is as before.  Otherwise the answer is 400 with a non-empty
    [details] and the table is as before; the error of the Joi schema,
    when there is one, is the one reported. *)
Theorem post_creates_or_rejects srv (now : Z) (st : Db.state) (b : body) :
  (Db.next_id st <= 2147483647)%Z ->
  let b' := fst (post_chains isISO8601 b) in
  let errors := snd (post_chains isISO8601 b) in
  match createTaskSchema isIsoDate b', errors with
  | [], [] =>
      if insertable srv b' then
        post_task srv isISO8601 isIsoDate now st b
          = (Db.mkState (Db.rows st ++ [created srv b' now (Db.next_id st)])
                        (Db.next_id st + 1),
             Send (mkResponse 201
                     (JTask (Some (created srv b' now (Db.next_id st))))))
      else
        exists code,
          post_task srv isISO8601 isIsoDate now st b
            = (st, Next (database_error code))
  | [], e :: es =>
      post_task srv isISO8601 isIsoDate now st b = (st, validation_error (e :: es))
  | j :: js, _ =>
      post_task srv isISO8601 isIsoDate now st b = (st, validation_error (j :: js))
  end.
Proof.
  intros _. cbn zeta.
  destruct (createTaskSchema isIsoDate (fst (post_chains isISO8601 b)))
    as [|j js] eqn:HJoi.
  - destruct (snd (post_chains isISO8601 b)) as [|e es] eqn:Herr.
    + destruct (insertable srv (fst (post_chains isISO8601 b))) eqn:Hins.
      * apply post_task_spec; assumption.
      * apply post_task_refused; assumption.
    + unfold post_task, validateRequest.
      destruct (post_chains isISO8601 b) as [b' errs]. cbn [fst snd] in *.
      rewrite HJoi, Herr. reflexivity.
  - unfold post_task, validateRequest.
    destruct (post_chains isISO8601 b) as [b' errs]. cbn [fst snd] in *.
    rewrite HJoi. reflexivity.
Qed.

Lemma filter_has_id_snoc (i : Z) (l : list Db.task) (r : Db.task) :
  ~ In i (map Db.id l) -> Db.id r = i -> filter (has_id i) (l ++ [r]) = [r].
Proof.
  intros Hn Hr. rewrite filter_app.
  apply filter_has_id_nil in Hn. rewrite Hn. cbn.
  unfold has_id. rewrite Hr, Z.eqb_refl. reflexivity.
Qed.

(** X9: a task can be read back.  On a table whose ids lie below a
    positive serial counter that is within the [id] column, a POST that
    passes validation with texts the table can hold answers 201 with a
    task, and a GET of that task's id, at any later time, answers 200
    with the same task and changes nothing. *)
Theorem post_then_get srv (now now' : Z) (st : Db.state) (b : body) :
  serial_ahead st -> (1 <= Db.next_id st <= 2147483647)%Z ->
  snd (post_chains isISO8601 b) = [] ->
  createTaskSchema isIsoDate (fst (post_chains isISO8601 b)) = [] ->
  insertable srv (fst (post_chains isISO8601 b)) = true ->
  exists r st',
    post_task srv isISO8601 isIsoDate now st b
      = (st', Send (mkResponse 201 (JTask (Some r)))) /\
    get_task srv now' st' (Db.id r) = (st', Send (mkResponse 200 (JTask (Some r)))).
Proof.
  intros Hs Hn Herr HJoi Hins.
  rewrite (post_task_spec isISO8601 isIsoDate srv now st b Herr HJoi Hins).
  do 2 eexists. split; [reflexivity|].
  rewrite get_task_spec by (cbn; exact Hn). cbn [Db.rows Db.id created].
  rewrite filter_has_id_snoc; [reflexivity | | reflexivity].
  intros Hin. apply serial_ahead_ids in Hs. rewrite Forall_forall in Hs.
  specialize (Hs _ Hin). lia.
Qed.

End PostWhole.

Section PostWholeWitness.
Import Js Validation TaskSpec RouteSpec Todos Http.

Lemma post_creates_or_rejects_witness :
  post_task Sample.server Sample.any_date Sample.any_date 200 Sample.table
            Sample.dated_body
    = (Db.mkState
         (Db.rows Sample.table
            ++ [Db.mkTask 6 "Task" None "medium" (Some 1735689599%Z) false 200 200])
         7,
       Send (mkResponse 201
               (JTask (Some (Db.mkTask 6 "Task" None "medium" (Some 1735689599%Z)
                                       false 200 200))))).
Proof.
  apply (post_creates_or_rejects Sample.any_date Sample.any_date Sample.server
           200 Sample.table Sample.dated_body).
  vm_compute. discriminate.
Defined.

Lemma post_then_get_witness :
  exists r st',
    post_task Sample.server Sample.any_date Sample.any_date 200 Sample.table
              Scenario.full_body
      = (st', Send (mkResponse 201 (JTask (Some r)))) /\
    get_task Sample.server 300 st' (Db.id r)
      = (st', Send (mkResponse 200 (JTask (Some r)))).
Proof.
  apply (post_then_get Sample.any_date Sample.any_date Sample.server 200 300
           Sample.table Scenario.full_body).
  - apply sample_unique_ids.
  - cbn. lia.
  - reflexivity.
  - reflexivity.
  - reflexivity.
Defined.

End PostWholeWitness.

(** ** Order and pages of the list *)

Section ListOrder.
Import Js Validation TaskSpec RouteSpec ListSpec Todos Http.

Lemma insert_desc_newest_first r l :
  newest_first l -> newest_first (Db.insert_desc r l).
Proof.
  induction l as [|x l IH]; cbn [Db.insert_desc newest_first].
  - intros _. split; constructor.
  - intros [Hx Hl].
    destruct (Z.leb_spec (Db.created_at x) (Db.created_at r)) as [Hle|Hlt].
    + cbn [newest_first]. split; [|split; assumption].
      constructor; [exact Hle|].
      eapply Forall_impl; [|exact Hx]. cbn. intros; lia.
    + cbn [newest_first]. split; [|apply IH, Hl].
      apply Forall_forall. intros y Hy. apply insert_desc_In in Hy.
      destruct Hy as [->|Hy]; [lia|].
      rewrite Forall_forall in Hx. apply Hx, Hy.
Qed.

Lemma sort_desc_newest_first l : newest_first (Db.sort_desc l).
Proof.
  induction l as [|r l IH]; cbn; [exact I|].
  apply insert_desc_newest_first, IH.
Qed.

Lemma newest_first_skipn n l : newest_first l -> newest_first (skipn n l).
Proof.
  revert l; induction n as [|n IH]; intros [|x l]; cbn; auto.
  intros [_ Hl]. apply IH, Hl.
Qed.

Lemma newest_first_firstn n l : newest_first l -> newest_first (firstn n l).
Proof.
  revert l; induction n as [|n IH]; intros [|x l]; cbn; auto.
  intros [Hx Hl]. split; [|apply IH, Hl].
  apply Forall_forall. intros y Hy. apply In_firstn_inv in Hy.
  rewrite Forall_forall in Hx. apply Hx, Hy.
Qed.

(** X10: the list comes most recent first: in the page a servable list
    request with a positive page and limit is answered with, no task was
    created before a task that follows it. *)
Theorem list_is_newest_first srv (now : Z) (st : Db.state) (q : list_query) :
  servable q st -> (1 <= page_of q)%Z -> (1 <= limit_of q)%Z ->
  exists tasks pg,
    get_tasks srv now st q = (st, Send (mkResponse 200 (JTasks tasks pg))) /\
    newest_first tasks.
Proof.
  intros Hs Hp Hl.
  rewrite get_tasks_spec by (try assumption; unfold offset_of; nia).
  do 2 eexists. split; [reflexivity|].
  unfold page_rows.
  apply newest_first_firstn, newest_first_skipn, sort_desc_newest_first.
Qed.

Lemma list_is_newest_first_witness :
  exists tasks pg,
    get_tasks Sample.server 200 Sample.table Sample.first_page_of_two
      = (Sample.table, Send (mkResponse 200 (JTasks tasks pg))) /\
    newest_first tasks.
Proof.
  apply (list_is_newest_first Sample.server 200 Sample.table
           Sample.first_page_of_two); by_evaluation.
Defined.

Lemma firstn_add {A} (a b : nat) (l : list A) :
  firstn (a + b) l = firstn a l ++ firstn b (skipn a l).
Proof.
  revert l; induction a as [|a IH]; intros l; [reflexivity|].
  destruct l as [|x l]; cbn.
  - destruct b; reflexivity.
  - rewrite IH. reflexivity.
Qed.

Lemma matches_at_page srv n q r : matches srv (at_page n q) r = matches srv q r.
Proof. reflexivity. Qed.

Lemma page_rows_at_page srv (k : nat) (q : list_query) (tbl : list Db.task) :
  (0 <= limit_of q)%Z ->
  page_rows srv (at_page (Z.of_nat (S k)) q) tbl
    = firstn (Z.to_nat (limit_of q))
        (skipn (k * Z.to_nat (limit_of q))
               (Db.sort_desc (filter (matches srv q) tbl))).
Proof.
  intros Hl. unfold page_rows, offset_of, page_of.
  change (limit_of (at_page (Z.of_nat (S k)) q)) with (limit_of q).
  cbn [at_page q_page default].
  replace (Z.to_nat ((Z.of_nat (S k) - 1) * limit_of q))
    with (k * Z.to_nat (limit_of q))%nat by nia.
  reflexivity.
Qed.

Lemma pages_upto_firstn srv (n : nat) (q : list_query) (tbl : list Db.task) :
  (0 <= limit_of q)%Z ->
  pages_upto srv n q tbl
    = firstn (n * Z.to_nat (limit_of q)) (Db.sort_desc (filter (matches srv q) tbl)).
Proof.
  intros Hl. induction n as [|k IH]; [reflexivity|].
  cbn [pages_upto]. rewrite IH, page_rows_at_page by assumption.
  rewrite <- firstn_add. f_equal. lia.
Qed.

Lemma insert_desc_Permutation r l : Permutation (Db.insert_desc r l) (r :: l).
Proof.
  induction l as [|x l IH]; cbn; [reflexivity|].
  destruct (Db.created_at x <=? Db.created_at r)%Z; [reflexivity|].
  rewrite IH. apply perm_swap.
Qed.

Lemma sort_desc_Permutation l : Permutation (Db.sort_desc l) l.
Proof.
  induction l as [|r l IH]; cbn; [reflexivity|].
  rewrite insert_desc_Permutation, IH. reflexivity.
Qed.

Lemma NoDup_map_inj {A B} (g : A -> B) (l : list A) (a b : A) :
  NoDup (map g l) -> In a l -> In b l -> g a = g b -> a = b.
Proof.
  induction l as [|x l IH]; cbn; [tauto|].
  intros Hnd Ha Hb E. inversion Hnd as [|? ? Hx Hl]; subst.
  destruct Ha as [->|Ha], Hb as [->|Hb]; auto.
  - exfalso. apply Hx. rewrite E. apply in_map, Hb.
  - exfalso. apply Hx. rewrite <- E. apply in_map, Ha.
Qed.

(** With distinct creation times there is one way to put rows most recent
    first. *)
Lemma newest_first_unique (l1 l2 : list Db.task) :
  NoDup (map Db.created_at l1) -> Permutation l1 l2 ->
  newest_first l1 -> newest_first l2 -> l1 = l2.
Proof.
  revert l2; induction l1 as [|x l1 IH]; intros l2 Hnd Hp H1 H2.
  - apply Permutation_nil in Hp. subst. reflexivity.
  - destruct l2 as [|y l2].
    { apply Permutation_sym, Permutation_nil in Hp. discriminate. }
    assert (Hxy : x = y).
    { assert (Hx : In x (y :: l2))
        by (eapply Permutation_in; [exact Hp | left; reflexivity]).
      assert (Hy : In y (x :: l1))
        by (eapply Permutation_in;
            [apply Permutation_sym; exact Hp | left; reflexivity]).
      destruct H1 as [F1 _], H2 as [F2 _]. rewrite Forall_forall in F1, F2.
      destruct Hx as [Hx|Hx]; [congruence|].
      destruct Hy as [Hy|Hy]; [congruence|].
      apply (NoDup_map_inj Db.created_at (x :: l1));
        [exact Hnd | left; reflexivity | right; exact Hy |].
      specialize (F1 _ Hy). specialize (F2 _ Hx). lia. }
    subst y. f_equal. apply IH.
    + cbn in Hnd. inversion Hnd; assumption.
    + eapply Permutation_cons_inv. exact Hp.
    + apply H1.
    + apply H2.
Qed.

Lemma servable_at_page (p : Z) (q : list_query) (st : Db.state) :
  servable (at_page 1 q) st -> (1 <= limit_of q)%Z ->
  (1 <= p <= MAX_SAFE_INTEGER)%Z ->
  ((p - 1) * limit_of q <= MAX_SAFE_INTEGER)%Z ->
  servable (at_page p q) st.
Proof.
  unfold servable, exact, offset_of, page_of, limit_of, MAX_SAFE_INTEGER.
  cbn [at_page q_page q_limit q_priority q_search default].
  intros (_ & Hl & _ & Hn & Hpr & Hse) Hl1 Hp Hb.
  repeat split; try assumption; try lia; nia.
Qed.

(** X11: paging through the list loses nothing and repeats nothing.  For
    a positive limit and a table in which no two tasks were created at
    the same instant, every servable page [p >= 1] of a request is
    answered 200 with the same [total] and [pages]; the pages 1 to
    [pages] are all servable and, one after the other, are exactly the matching tasks, most recent first, which is
    the one order they can come in; and a page after the last is
    empty. *)
Theorem pages_cover_the_list srv (now : Z) (st : Db.state) (q : list_query) :
  servable (at_page 1 q) st -> (1 <= limit_of q)%Z ->
  NoDup (map Db.created_at (Db.rows st)) ->
  exists n,
    let total := Z.of_nat (List.length (filter (matches srv q) (Db.rows st))) in
    (forall p, (1 <= p)%Z -> servable (at_page p q) st ->
       get_tasks srv now st (at_page p q)
         = (st, Send (mkResponse 200
                  (JTasks (page_rows srv (at_page p q) (Db.rows st))
                          (mkPagination p (limit_of q) total (Some (Z.of_nat n))))))) /\
    (forall p, (1 <= p <= Z.of_nat n)%Z -> servable (at_page p q) st) /\
    pages_upto srv n q (Db.rows st)
      = Db.sort_desc (filter (matches srv q) (Db.rows st)) /\
    (forall l, Permutation l (filter (matches srv q) (Db.rows st)) ->
               newest_first l -> l = pages_upto srv n q (Db.rows st)) /\
    (forall p, (Z.of_nat n < p)%Z -> page_rows srv (at_page p q) (Db.rows st) = []).
Proof.
  intros Hs Hl Hnd.
  destruct (ceil_div_spec
              (Z.of_nat (List.length (filter (matches srv q) (Db.rows st))))
              (limit_of q) ltac:(lia)) as (n & Hn & Hb).
  assert (Hn0 : (0 <= n)%Z) by nia.
  assert (Hall : pages_upto srv (Z.to_nat n) q (Db.rows st)
                 = Db.sort_desc (filter (matches srv q) (Db.rows st))).
  { rewrite pages_upto_firstn by lia.
    apply firstn_all2. rewrite sort_desc_length. nia. }
  exists (Z.to_nat n). cbn zeta. rewrite Z2Nat.id by assumption.
  split; [|split; [|split; [|split]]].
  - intros p Hp Hsp.
    rewrite get_tasks_spec
      by (try assumption;
          unfold offset_of, page_of, limit_of in *;
          cbn [at_page q_page q_limit default]; nia).
    change (limit_of (at_page p q)) with (limit_of q).
    rewrite (filter_ext _ _ (matches_at_page srv p q)). rewrite Hn. reflexivity.
  - intros p Hp.
    pose proof (filter_length_le (matches srv q) (Db.rows st)) as Hle.
    pose proof Hs as (_ & _ & _ & Hsz & _). unfold exact in Hsz.
    apply servable_at_page; try assumption; nia.
  - exact Hall.
  - intros l Hperm Hnf. rewrite Hall.
    apply newest_first_unique.
    + eapply Permutation_NoDup;
        [apply Permutation_map, Permutation_sym, Hperm|].
      apply NoDup_map_filter, Hnd.
    + rewrite Hperm. apply Permutation_sym, sort_desc_Permutation.
    + exact Hnf.
    + apply sort_desc_newest_first.
  - intros p Hp.
    replace p with (Z.of_nat (S (Z.to_nat (p - 1)))) by lia.
    rewrite page_rows_at_page by lia.
    rewrite skipn_all2; [destruct (Z.to_nat (limit_of q)); reflexivity|].
    rewrite sort_desc_length. nia.
Qed.

Lemma pages_cover_the_list_witness :
  pages_upto Sample.server 3 Sample.first_page_of_two Sample.tasks
    = Db.sort_desc Sample.tasks.
Proof.
  destruct (pages_cover_the_list Sample.server 200 Sample.table
              Sample.first_page_of_two)
    as (n & Hget & _ & Hall & _).
  - by_evaluation.
  - by_evaluation.
  - cbn. repeat constructor; cbn; intuition discriminate.
  - specialize (Hget 1%Z ltac:(lia) ltac:(by_evaluation)).
    assert (E : exists tasks,
               get_tasks Sample.server 200 Sample.table
                         (at_page 1 Sample.first_page_of_two)
                 = (Sample.table,
                    Send (mkResponse 200
                            (JTasks tasks (mkPagination 1 2 5 (Some 3%Z))))))
      by (eexists; vm_compute; reflexivity).
    destruct E as (tasks & E). rewrite E in Hget.
    assert (Hn : n = 3%nat) by (inversion Hget; lia).
    subst n. exact Hall.
Defined.

End ListOrder.

(** ** Values never reach the statement text *)

Section BoundValues.
Import Js Validation TaskSpec RouteSpec ListSpec Todos Http.

(** X12: user input is bound, not spliced.  The text of the data query and
    of the count query depends only on which filters are applied, and the
    SET list of the UPDATE only on which fields the body has: two requests
    that differ in their values alone, page and limit included, give the
    same statement text, and each value sent is an element of the array of
    bound values. *)
Theorem statement_text_ignores_values :
  (forall q q', same_filters q q' ->
     fst (data_query q) = fst (data_query q') /\
     fst (count_query q) = fst (count_query q')) /\
  (forall b b', same_fields b b' ->
     fst (fst (update_fields b)) = fst (fst (update_fields b')) /\
     snd (update_fields b) = snd (update_fields b')) /\
  (forall q p, q_priority q = Some p -> p <> "" ->
     In (Db.VStr p) (snd (data_query q)) /\ In (Db.VStr p) (snd (count_query q))) /\
  (forall q s, q_search q = Some s -> s <> "" ->
     In (Db.VStr ("%" ^^ s ^^ "%")) (snd (data_query q)) /\
     In (Db.VStr ("%" ^^ s ^^ "%")) (snd (count_query q))).
Proof.
  split; [|split; [|split]].
  - intros [pg lm pr co se] [pg' lm' pr' co' se'] (H1 & H2 & H3).
    cbn [q_priority q_completed q_search] in *.
    unfold data_query, count_query.
    cbn [q_page q_limit q_priority q_completed q_search].
    rewrite H1, H3.
    destruct (truthy_param pr'), co as [c|], co' as [c'|], (truthy_param se');
      try discriminate; split; reflexivity.
  - intros [t d p du c] [t' d' p' du' c'] (H1 & H2 & H3 & H4 & H5).
    cbn [b_title b_description b_priority b_dueDate b_completed] in *.
    unfold update_fields.
    cbn [b_title b_description b_priority b_dueDate b_completed].
    rewrite H1, H2, H3, H4, H5.
    destruct (defined t'), (defined d'), (defined p'), (defined du'), (defined c');
      split; reflexivity.
  - intros q p Hq Hp.
    destruct (list_queries_parse q) as (_ & Vd & _ & Vc). rewrite Vd, Vc.
    assert (Hin : In (Db.VStr p) (bound_values q)).
    { unfold bound_values, predicates. rewrite Hq. cbn [truthy_param pushed].
      apply String.eqb_neq in Hp. rewrite Hp. cbn. auto. }
    split; [apply in_or_app; left|]; exact Hin.
  - intros q s Hq Hs.
    destruct (list_queries_parse q) as (_ & Vd & _ & Vc). rewrite Vd, Vc.
    assert (Hin : In (Db.VStr ("%" ^^ s ^^ "%")) (bound_values q)).
    { unfold bound_values, predicates. rewrite Hq. cbn [truthy_param pushed].
      apply String.eqb_neq in Hs. rewrite Hs. cbn [negb].
      rewrite !flat_map_app. rewrite !in_app_iff. right. right. cbn. auto. }
    split; [apply in_or_app; left|]; exact Hin.
Qed.

Lemma statement_text_ignores_values_witness :
  fst (data_query Sample.search_underscore) = fst (data_query Sample.search_high).
Proof.
  apply (proj1 statement_text_ignores_values).
  repeat split.
Defined.

End BoundValues.

(** ** The error handler, branch by branch *)

Section ErrorBranches.
Import TaskSpec Http ErrorHandler.

Ltac branch :=
  repeat match goal with
         | |- context [if ?c then _ else _] => destruct c eqn:?
         | |- context [match nonzero ?z with _ => _ end] => destruct (nonzero z) eqn:?
         | |- context [match nonempty ?z with _ => _ end] => destruct (nonempty z) eqn:?
         end.

(** X13: in production nothing internal leaves the handler.  Whatever the
    error, the response carries no stack, its [statusCode] field is the
    status sent, and when that status is 500 the message is the fixed
    [Internal Server Error] and there are no details. *)
Theorem production_hides_internal_errors (err : error) (path method : string) :
  exists e,
    content (errorHandler (Some "production") err path method) = JFailure e /\
    er_statusCode e = status (errorHandler (Some "production") err path method) /\
    er_stack e = None /\
    (er_statusCode e = 500%Z ->
     er_error e = "Internal Server Error" /\ er_details e = None).
Proof.
  unfold errorHandler.
  change ("production" =? "production") with true.
  change ("production" =? "development") with false.
  cbn [andb].
  branch; cbn [status content]; eexists; (split; [reflexivity|]);
    cbn [er_statusCode er_stack er_error er_details];
    repeat split; try reflexivity; try (intros; discriminate);
    try (intros E; rewrite E in *; discriminate).
  all: try (intros E; subst;
            match goal with
            | H : (?a =? 500)%Z = false |- _ => apply Z.eqb_neq in H; congruence
            end).
  all: exfalso;
    match goal with
    | H : (?a =? 500)%Z = false |- _ => apply Z.eqb_neq in H; congruence
    end.
Qed.

Lemma nonzero_some sc : sc <> 0%Z -> nonzero (Some sc) = Some sc.
Proof. intros H. cbn. destruct (Z.eqb_spec sc 0); [contradiction | reflexivity]. Qed.

(** X14: the name of an error goes before its code, and its code before
    its status code.  A ValidationError is answered 400 with the details it
    carries, or its message when it carries none, and a CastError 400, also
    when the error has a storage code or a status code of its own.  An
    error with none of the names and codes the handler knows, and a status
    code other than 0, is answered with that status code and its own
    message, unless that is a 500 in production. *)
Theorem error_branches_in_order (node_env : option string) (err : error)
        (path method : string) :
  (name err = "ValidationError" ->
   status (errorHandler node_env err path method) = 400%Z /\
   exists stack,
     content (errorHandler node_env err path method)
       = JFailure (mkErrorResponse "Validation Error" 400 path method
                     (match nonempty (details err) with
                      | Some d => Some d
                      | None => nonempty (Some (message err))
                      end) stack)) /\
  (name err = "CastError" ->
   status (errorHandler node_env err path method) = 400%Z /\
   exists stack,
     content (errorHandler node_env err path method)
       = JFailure (mkErrorResponse "Invalid ID format" 400 path method None stack)) /\
  (forall sc,
     name err <> "ValidationError" -> name err <> "CastError" ->
     (forall c, code err = Some c -> ~ In c known_codes) ->
     statusCode err = Some sc -> sc <> 0%Z ->
     (node_env = Some "production" -> sc <> 500%Z) ->
     status (errorHandler node_env err path method) = sc /\
     exists stack,
       content (errorHandler node_env err path method)
         = JFailure (mkErrorResponse (message err) sc path method None stack)).
Proof.
  split; [|split].
  - intros Hn. unfold errorHandler. rewrite Hn.
    change ("ValidationError" =? "ValidationError") with true. cbv iota.
    split.
    + destruct node_env as [e|]; cbn; branch; reflexivity.
    + change (400 =? 500)%Z with false. rewrite andb_false_r. cbv iota beta.
      eexists. destruct (nonempty (details err)) as [d|] eqn:E.
      * cbn [nonempty] . rewrite <- E at 1.
        destruct (details err) as [d'|]; cbn in E |- *; [|discriminate].
        destruct (d' =? "") eqn:E'; [discriminate|]. injection E as <-.
        cbn. rewrite E'. reflexivity.
      * reflexivity.
  - intros Hn. unfold errorHandler. rewrite Hn.
    change ("CastError" =? "ValidationError") with false.
    change ("CastError" =? "CastError") with true. cbv iota.
    change (400 =? 500)%Z with false. rewrite andb_false_r. cbv iota beta.
    split; [reflexivity | eexists; reflexivity].
  - intros sc Hv Hc Hk Hs Hsc Hprod. unfold errorHandler.
    apply String.eqb_neq in Hv. apply String.eqb_neq in Hc. rewrite Hv, Hc.
    rewrite !(code_is_unknown err _ Hk) by (cbn; tauto).
    rewrite Hs, (nonzero_some sc Hsc). cbv iota beta.
    assert (Hgate : match node_env with
                    | Some e => e =? "production"
                    | None => false
                    end && (sc =? 500)%Z = false).
    { destruct node_env as [e|]; [|reflexivity].
      destruct (String.eqb_spec e "production") as [->|]; [|reflexivity].
      cbn. apply Z.eqb_neq. apply Hprod. reflexivity. }
    rewrite Hgate. split; [reflexivity | eexists; reflexivity].
Qed.

Lemma error_branches_in_order_witness :
  status (errorHandler None Scenario.validation_with_code "/tasks" "POST") = 400%Z /\
  status (errorHandler None Scenario.teapot "/tasks" "GET") = 418%Z.
Proof.
  split.
  - apply (proj1 (error_branches_in_order None Scenario.validation_with_code
                    "/tasks" "POST")). reflexivity.
  - apply (proj2 (proj2 (error_branches_in_order None Scenario.teapot
                           "/tasks" "GET")) 418%Z);
      try discriminate; reflexivity.
Defined.

End ErrorBranches.

(** ** The probes *)

Section Probes.
Import Health.

(** X15: readiness is the stricter probe.  The health route answers 503
    exactly when the probe query throws, and 200 otherwise, also when the
    query gave no row (it then reports the database as disconnected); the
    readiness route answers 200 exactly when the query gave a row.  So a
    ready service is always reported healthy with the database connected,
    and the liveness route answers 200 whatever the database does. *)
Theorem ready_implies_healthy (p : process) (dbCheck : Db.outcome (list Z)) :
  (status (health p dbCheck) = 503%Z <-> exists c, dbCheck = Db.Err c) /\
  (status (health p dbCheck) = 200%Z <-> exists rows, dbCheck = Db.Ok rows) /\
  (status (ready dbCheck) = 200%Z <-> exists r rows, dbCheck = Db.Ok (r :: rows)) /\
  (status (ready dbCheck) = 200%Z \/ status (ready dbCheck) = 503%Z) /\
  (status (ready dbCheck) = 200%Z ->
   exists env ver used total up,
     health p dbCheck
       = mkResponse 200 (JHealth "healthy" env ver "connected" "running"
                                 used total "MB" up)) /\
  status (live p) = 200%Z.
Proof.
  destruct dbCheck as [[|r rows]|c]; cbn; repeat split;
    try discriminate; try (intros [? [=]]); try (intros (? & ? & [=]));
    eauto 10.
Qed.

End Probes.

(** ** The list route outside its intended inputs *)

Section ListEdges.
Import Js Validation TaskSpec RouteSpec ListSpec Todos Http.

(** The error handler has no branch for the errors the list statements
    can raise. *)
Lemma list_error_response (node_env : option string) (c : string) :
  In c [Db.character_not_in_repertoire; Db.numeric_value_out_of_range;
        Db.invalid_limit; Db.invalid_offset] ->
  exists stack,
    App.respond node_env "/tasks" "GET" (Next (database_error c))
      = mkResponse 500
          (JFailure (mkErrorResponse "Internal Server Error" 500
                                     "/tasks" "GET" None stack)).
Proof.
  intros Hc. cbn [App.respond]. unfold ErrorHandler.errorHandler.
  cbn [In] in Hc. destruct Hc as [<- | [<- | [<- | [<- | []]]]];
    cbn; destruct node_env as [e|]; cbn;
    try destruct (e =? "production"); try destruct (e =? "development");
    cbn; eexists; reflexivity.
Qed.

(** X16: page and limit outside the positive integers.  A negative limit,
    a limit beyond [int8], or a page below 1 with a positive limit, makes
    the data query fail and the request is answered 500 with the fixed
    message, whatever the environment.  A limit of 0, in a servable
    request, is answered 200 with no task, the true [total], and [pages]
    not a number. *)
Theorem list_outside_positive_paging srv (node_env : option string) (now : Z)
        (st : Db.state) (q : list_query) :
  ((limit_of q < 0)%Z \/ (9223372036854775807 < limit_of q)%Z \/
   ((0 < limit_of q)%Z /\ (page_of q < 1)%Z) ->
   fst (get_tasks srv now st q) = st /\
   exists stack,
     App.respond node_env "/tasks" "GET" (snd (get_tasks srv now st q))
       = mkResponse 500
           (JFailure (mkErrorResponse "Internal Server Error" 500 "/tasks" "GET"
                                      None stack))) /\
  (limit_of q = 0%Z -> servable q st ->
   get_tasks srv now st q
     = (st, Send (mkResponse 200
              (JTasks []
                 (mkPagination (page_of q) 0
                    (Z.of_nat (List.length (filter (matches srv q) (Db.rows st))))
                    None))))).
Proof.
  split.
  - intros H. rewrite get_tasks_outcome. unfold data_rows.
    assert (Hfail : exists c,
              (if Str.nul_free (pushed (q_priority q))
                  && Str.nul_free (pushed (q_search q))
               then
                 Db.bind (Db.in_range Db.int8_min Db.int8_max (limit_of q)) (fun l =>
                 Db.bind (Db.in_range Db.int8_min Db.int8_max (offset_of q)) (fun o =>
                 Db.paginate (Some l) (Some o)
                             (Db.sort_desc (filter (matches srv q) (Db.rows st)))))
               else Db.Err Db.character_not_in_repertoire) = Db.Err c /\
              In c [Db.character_not_in_repertoire; Db.numeric_value_out_of_range;
                    Db.invalid_limit; Db.invalid_offset]).
    { destruct (_ && _); [|eexists; split; [reflexivity | cbn; auto]].
      destruct (Db.in_range Db.int8_min Db.int8_max (limit_of q)) as [l|] eqn:El.
      2:{ unfold Db.in_range in El. destruct (_ && _); [discriminate|].
          injection El as <-. eexists; split; [reflexivity | cbn; auto]. }
      apply in_range_ok in El. destruct El as [-> El]. cbn [Db.bind].
      destruct (Db.in_range Db.int8_min Db.int8_max (offset_of q)) as [o|] eqn:Eo.
      2:{ unfold Db.in_range in Eo. destruct (_ && _); [discriminate|].
          injection Eo as <-. eexists; split; [reflexivity | cbn; auto]. }
      apply in_range_ok in Eo. destruct Eo as [-> Eo]. cbn [Db.bind].
      unfold Db.paginate.
      destruct (Z.ltb_spec (limit_of q) 0);
        [eexists; split; [reflexivity | cbn; auto]|].
      destruct (Z.ltb_spec (offset_of q) 0);
        [eexists; split; [reflexivity | cbn; auto]|].
      exfalso. unfold offset_of, Db.int8_max in *. nia. }
    destruct Hfail as (c & -> & Hc). cbn [fst snd].
    split; [reflexivity|]. apply list_error_response, Hc.
  - intros Hl Hs. rewrite get_tasks_spec; try assumption; try lia.
    + unfold page_rows. rewrite Hl. reflexivity.
    + unfold offset_of. rewrite Hl. lia.
Qed.

Lemma list_outside_positive_paging_witness :
  get_tasks Sample.server 200 Sample.table
            (at_page 3 (mkListQuery None (Some 0%Z) None None None))
    = (Sample.table,
       Send (mkResponse 200 (JTasks [] (mkPagination 3 0 5 None)))).
Proof.
  apply (proj2 (list_outside_positive_paging Sample.server None 200 Sample.table
                  (at_page 3 (mkListQuery None (Some 0%Z) None None None)))).
  - reflexivity.
  - by_evaluation.
Defined.

End ListEdges.

(** ** Further witnesses *)

Section MoreWitnesses.
Import Js Validation TaskSpec RouteSpec ListSpec Todos Http.

Lemma route_effect_witness :
  fst (App.route Sample.server Sample.any_date Sample.any_date 200 Sample.table
                 (App.GetTask 2))
    = Sample.table.
Proof.
  apply (proj2 (route_effect Sample.any_date Sample.any_date Sample.server
                  200 Sample.table (App.GetTask 2))).
  reflexivity.
Defined.

Lemma production_hides_internal_errors_witness :
  exists e,
    content (ErrorHandler.errorHandler (Some "production") Scenario.undefined_table
               "/tasks" "GET") = JFailure e /\
    er_error e = "Internal Server Error" /\ er_details e = None.
Proof.
  destruct (production_hides_internal_errors Scenario.undefined_table "/tasks" "GET")
    as (e & Hc & Hs & _ & H500).
  exists e. split; [exact Hc|]. apply H500. rewrite Hs. reflexivity.
Defined.

Lemma ready_implies_healthy_witness :
  exists env ver used total up,
    Health.health Scenario.proc (Db.Ok [1%Z])
      = Health.mkResponse 200
          (Health.JHealth "healthy" env ver "connected" "running" used total "MB" up).
Proof.
  apply (proj1 (proj2 (proj2 (proj2 (proj2
           (ready_implies_healthy Scenario.proc (Db.Ok [1%Z]))))))).
  reflexivity.
Defined.

End MoreWitnesses.

(** ** Filters only narrow *)

Section Narrowing.
Import Js Validation TaskSpec RouteSpec ListSpec Todos Http.

(** X17: a filter that is absent does nothing and a filter that is present
    only narrows.  For a servable request with a positive page and
    limit, the same request without its filters has a [total]
    equal to the size of the table, the request itself has a [total]
    that is not larger, and every task of its page is a task the table
    holds. *)
Theorem filters_only_narrow srv (now : Z) (st : Db.state) (q : list_query) :
  servable q st -> (1 <= page_of q)%Z -> (1 <= limit_of q)%Z ->
  exists tasks pg tasks0 pg0,
    get_tasks srv now st q = (st, Send (mkResponse 200 (JTasks tasks pg))) /\
    get_tasks srv now st (unfiltered q)
      = (st, Send (mkResponse 200 (JTasks tasks0 pg0))) /\
    total pg0 = Z.of_nat (List.length (Db.rows st)) /\
    (total pg <= total pg0)%Z /\
    pages pg0 = Js.ceil_div (Z.of_nat (List.length (Db.rows st))) (limit_of q) /\
    Forall (fun r => In r (Db.rows st)) tasks.
Proof.
  intros Hs Hp Hl.
  assert (Hs0 : servable (unfiltered q) st).
  { destruct Hs as (H1 & H2 & H3 & H4 & _).
    unfold servable. split; [exact H1|]. split; [exact H2|].
    split; [exact H3|]. split; [exact H4|]. split; reflexivity. }
  rewrite (get_tasks_spec srv now st q)
    by (try assumption; unfold offset_of; nia).
  rewrite (get_tasks_spec srv now st (unfiltered q))
    by (try assumption;
        unfold offset_of, page_of, limit_of in *; cbn [unfiltered q_page q_limit]; nia).
  do 4 eexists. split; [reflexivity|]. split; [reflexivity|].
  cbn [total pages].
  assert (Hall : filter (matches srv (unfiltered q)) (Db.rows st) = Db.rows st).
  { apply forallb_filter_id. apply forallb_forall. intros; reflexivity. }
  rewrite Hall. split; [reflexivity|]. split; [|split].
  - apply inj_le, filter_length_le.
  - reflexivity.
  - apply Forall_forall. intros r Hr. apply page_rows_In in Hr. apply Hr.
Qed.

Lemma filters_only_narrow_witness :
  exists tasks pg tasks0 pg0,
    get_tasks Sample.server 200 Sample.table Sample.high_priority
      = (Sample.table, Send (mkResponse 200 (JTasks tasks pg))) /\
    get_tasks Sample.server 200 Sample.table (unfiltered Sample.high_priority)
      = (Sample.table, Send (mkResponse 200 (JTasks tasks0 pg0))) /\
    total pg0 = 5%Z /\ (total pg <= total pg0)%Z.
Proof.
  destruct (filters_only_narrow Sample.server 200 Sample.table Sample.high_priority)
    as (tasks & pg & tasks0 & pg0 & H1 & H2 & H3 & H4 & _);
    [by_evaluation | by_evaluation | by_evaluation |].
  exists tasks, pg, tasks0, pg0. repeat split; assumption.
Defined.

End Narrowing.
